(** * The permission resolver of [IAMRolesAnywhere/pipeline-deploy.py]

    A shallow embedding of [analyze_template_content_and_create_role] and of
    the three literal tables it reads, followed by the properties the
    specification states about it.

    Conventions of the embedding.
    - A Python [str] is a Rocq [string] holding its UTF-8 bytes: equality is
      preserved, and the byte-wise lexicographic order is the code-point order
      Python's [sorted] uses.
    - A Python [set] is the duplicate-free list of its members in insertion
      order.  The order in which the interpreter iterates a set of strings
      depends on the hash table, so it is a component of the [Runtime].
    - [json.loads], [yaml.safe_load] and the boto3 IAM client are library
      code: the parsers are components of the [Runtime], the client is the
      argument [iam_client] of the function.
    - An exception is modelled by the class that decides which handler
      catches it.  The handlers only print its text, which is not modelled.
    - [json.dumps(d)] is modelled by the document [d] itself. *)

From Stdlib Require Import ZArith String Ascii List.
From Stdlib Require Import Floats.SpecFloat.
From Stdlib Require OrderedTypeEx.
From stdpp Require Import base option list strings gmap sorting pretty.

Local Open Scope string_scope.
Local Open Scope list_scope.
Set Warnings "-register-all".

(** ** Python values *)

(** What [json.loads] and [yaml.safe_load] build: the JSON data model, and
    the three kinds of value only YAML has, [bytes], the timestamps
    ([datetime.date] and [datetime.datetime], by their ISO text) and
    [set]. *)
Inductive pyval : Type :=
| PNone
| PBool (b : bool)
| PInt (n : Z)
| PFloat (f : spec_float)
| PStr (s : string)
| PList (elems : list pyval)
| PDict (items : list (pyval * pyval))
| PBytes (b : string)
| PTimestamp (iso : string)
| PSet (members : list pyval).

Inductive exn : Type :=
| JSONDecodeError
| YAMLError
| ClientError
| AttributeError
| TypeError
| KeyError
| OtherException.

(** The outcome of an expression: a value or a raised exception. *)
Inductive result (A : Type) : Type :=
| Normal (a : A)
| Raised (e : exn).
Arguments Normal {A} a.
Arguments Raised {A} e.

(** [bool(v)] *)
Definition truthy (v : pyval) : bool :=
  match v with
  | PNone => false
  | PBool b => b
  | PInt n => negb (n =? 0)%Z
  | PFloat (S754_zero _) => false
  | PFloat _ => true
  | PStr s => negb (String.eqb s "")
  | PList elems => negb (bool_decide (length elems = 0))
  | PDict items => negb (bool_decide (length items = 0))
  | PBytes b => negb (String.eqb b "")
  | PTimestamp _ => true
  | PSet members => negb (bool_decide (length members = 0))
  end.

(** The entry of a dict under a string key.  A key that is not a [str] never
    equals one; the keys of a dict are distinct, so the first match is the
    only one. *)
Fixpoint dict_get (items : list (pyval * pyval)) (key : string) : option pyval :=
  match items with
  | [] => None
  | (PStr k, v) :: rest => if String.eqb k key then Some v else dict_get rest key
  | _ :: rest => dict_get rest key
  end.

(** [v.get(key, default)]: only a dict has the method. *)
Definition py_get (v : pyval) (key : string) (default_value : pyval) :
    result pyval :=
  match v with
  | PDict items => Normal (default default_value (dict_get items key))
  | _ => Raised AttributeError
  end.

(** [v.items()]: only a dict has the method. *)
Definition py_items (v : pyval) : result (list (pyval * pyval)) :=
  match v with
  | PDict items => Normal items
  | _ => Raised AttributeError
  end.

(** [v[key]] for a string key: a dict without the key raises [KeyError],
    every other value raises [TypeError]. *)
Definition py_subscript (v : pyval) (key : string) : result pyval :=
  match v with
  | PDict items =>
      match dict_get items key with
      | Some x => Normal x
      | None => Raised KeyError
      end
  | _ => Raised TypeError
  end.

(** ** Sets *)

Definition hashable (v : pyval) : bool :=
  match v with
  | PList _ | PDict _ | PSet _ => false
  | _ => true
  end.

(** Equality of two hashable values.  Python also identifies numbers of
    different types ([1 == 1.0 == True]) and timestamps of one instant; a set
    holding anything but strings makes the [join] of line 184 raise whatever
    its size, so that identification cannot be observed and is not
    modelled. *)
Definition hashable_eqb (a b : pyval) : bool :=
  match a, b with
  | PNone, PNone => true
  | PBool x, PBool y => Bool.eqb x y
  | PInt x, PInt y => (x =? y)%Z
  | PFloat x, PFloat y => SFeqb x y
  | PStr x, PStr y => String.eqb x y
  | PBytes x, PBytes y => String.eqb x y
  | PTimestamp x, PTimestamp y => String.eqb x y
  | _, _ => false
  end.

(** [s.add(x)] on a set of arbitrary values. *)
Definition set_add (x : pyval) (s : list pyval) : result (list pyval) :=
  if hashable x then
    Normal (if existsb (hashable_eqb x) s then s else s ++ [x])
  else Raised TypeError.

(** [s.add(x)] and [s.update(l)] on a set of strings. *)
Definition str_set_add (s : list string) (x : string) : list string :=
  if decide (x ∈ s) then s else s ++ [x].

Definition str_set_update (s : list string) (l : list string) : list string :=
  foldl str_set_add s l.

(** [set(l)] for a list of strings. *)
Definition str_set (l : list string) : list string := str_set_update [] l.

(** The members of a set when every one of them is a [str]. *)
Fixpoint str_members (s : list pyval) : option (list string) :=
  match s with
  | [] => Some []
  | PStr x :: rest => cons x <$> str_members rest
  | _ :: _ => None
  end.

(** ** Sorting *)

Definition str_le (a b : string) : Prop := String.leb a b = true.

#[global] Instance str_le_dec : RelDecision str_le.
Proof. intros a b. unfold str_le. apply _. Defined.

(** [sorted(s)] *)
Definition sorted (s : list string) : list string := merge_sort str_le s.

(** ** What the function depends on besides its arguments *)

Class Runtime : Type := {
  json_loads : string → result pyval;
  yaml_safe_load : string → result pyval;
  (** the order in which a set of strings, given by its insertion history,
      is iterated *)
  set_iter : list string → list string;
  set_iter_perm : ∀ s, set_iter s ≡ₚ s
}.

(** The boto3 IAM client: the two methods the function calls.  The policy
    documents are passed before [json.dumps]. *)
Record iam_client : Type := {
  create_role : string → pyval → string → result pyval;
  put_role_policy : string → string → pyval → result pyval
}.

(** ** Effects: standard output, calls of the client, exceptions, [return] *)

(** One constructor per [print] of the function, with the values its f-string
    interpolates. *)
Inductive line : Type :=
| Analyzing_template_content
| Error_parsing_template_content (e : exn)
| Found_resource_types (joined : list string)
| No_resources_found
| Warning_no_permission_mapping (resource_type : string)
| Required_permissions (joined : list string)
| Created_execution_role (role_name : string)
| Attached_policy (policy_name : string) (count : nat)
| Error_creating_execution_role (e : exn)
| Error_analyzing_template (e : exn).

Inductive iam_call : Type :=
| Create_role (RoleName : string) (AssumeRolePolicyDocument : pyval)
    (Description : string)
| Put_role_policy (RoleName PolicyName : string) (PolicyDocument : pyval).

Record world : Type := {
  stdout : list line;
  iam_calls : list iam_call
}.

Definition initial : world := {| stdout := []; iam_calls := [] |}.

(** How a block of statements ends. *)
Inductive completion (A : Type) : Type :=
| Value (a : A)
| Raise (e : exn)
| Return (v : pyval).
Arguments Value {A} a.
Arguments Raise {A} e.
Arguments Return {A} v.

Definition M (A : Type) : Type := world → world * completion A.

#[global] Instance M_ret : MRet M := λ A a w, (w, Value a).

#[global] Instance M_bind : MBind M := λ A B f m w,
  match m w with
  | (w', Value a) => f a w'
  | (w', Raise e) => (w', Raise e)
  | (w', Return v) => (w', Return v)
  end.

Definition lift {A} (r : result A) : M A := λ w,
  match r with
  | Normal a => (w, Value a)
  | Raised e => (w, Raise e)
  end.

Definition print (l : line) : M () := λ w,
  ({| stdout := stdout w ++ [l]; iam_calls := iam_calls w |}, Value ()).

Definition return_ {A} (v : pyval) : M A := λ w, (w, Return v).

Definition invoke {A} (c : iam_call) (r : result A) : M A := λ w,
  lift r {| stdout := stdout w; iam_calls := iam_calls w ++ [c] |}.

(** [try: body except ...], the handler of the first matching clause. *)
Definition try_except {A} (body : M A) (handler : exn → option (M A)) : M A :=
  λ w,
    match body w with
    | (w', Raise e) =>
        match handler e with
        | Some h => h w'
        | None => (w', Raise e)
        end
    | r => r
    end.

(** [for x in l: s = body(x, s)] *)
Fixpoint for_fold {A S} (l : list A) (s : S) (body : A → S → M S) : M S :=
  match l with
  | [] => mret s
  | x :: l' => s' ← body x s; for_fold l' s' body
  end.

(** The value of a call: what [return] gave, [None] when the body falls off
    its end. *)
Definition call (body : M pyval) (w : world) : world * result pyval :=
  match body w with
  | (w', Value _) => (w', Normal PNone)
  | (w', Return v) => (w', Normal v)
  | (w', Raise e) => (w', Raised e)
  end.

(** ** The literal tables (lines 14-145) *)

Definition CFN_RESOURCE_TO_IAM_MAPPING : gmap string (list string) :=
  list_to_map [
    ("AWS::S3::Bucket", [
        "s3:CreateBucket";
        "s3:DeleteBucket";
        "s3:PutBucketPolicy";
        "s3:DeleteBucketPolicy";
        "s3:PutEncryptionConfiguration";
        "s3:GetEncryptionConfiguration";
        "s3:ListBucket";
        "s3:GetObject";
        "s3:PutObject";
        "s3:DeleteObject"
    ]);
    ("AWS::Lambda::Function", [
        "lambda:CreateFunction";
        "lambda:DeleteFunction";
        "lambda:GetFunction";
        "lambda:GetFunctionConfiguration";
        "lambda:UpdateFunctionCode";
        "lambda:UpdateFunctionConfiguration";
        "lambda:AddPermission";
        "lambda:RemovePermission"
    ]);
    ("AWS::IAM::Role", [
        "iam:CreateRole";
        "iam:DeleteRole";
        "iam:GetRole";
        "iam:PassRole";
        "iam:PutRolePolicy";
        "iam:DeleteRolePolicy";
        "iam:AttachRolePolicy";
        "iam:DetachRolePolicy";
        "iam:UpdateRole";
        "iam:UpdateAssumeRolePolicy"
    ]);
    ("AWS::IAM::ManagedPolicy", [
        "iam:CreatePolicy";
        "iam:DeletePolicy";
        "iam:GetPolicy";
        "iam:GetPolicyVersion";
        "iam:CreatePolicyVersion";
        "iam:DeletePolicyVersion";
        "iam:SetDefaultPolicyVersion"
    ]);
    ("AWS::DynamoDB::Table", [
        "dynamodb:CreateTable";
        "dynamodb:DeleteTable";
        "dynamodb:DescribeTable";
        "dynamodb:UpdateTable"
    ]);
    ("AWS::EC2::Instance", [
        "ec2:RunInstances";
        "ec2:TerminateInstances";
        "ec2:DescribeInstances";
        "ec2:CreateTags"
    ]);
    ("AWS::SNS::Topic", [
        "sns:CreateTopic";
        "sns:DeleteTopic";
        "sns:GetTopicAttributes";
        "sns:SetTopicAttributes"
    ]);
    ("AWS::SQS::Queue", [
        "sqs:CreateQueue";
        "sqs:DeleteQueue";
        "sqs:GetQueueAttributes";
        "sqs:SetQueueAttributes"
    ]);
    ("AWS::ACMPCA::CertificateAuthority", [
        "acm-pca:CreateCertificateAuthority";
        "acm-pca:DeleteCertificateAuthority";
        "acm-pca:DescribeCertificateAuthority";
        "acm-pca:UpdateCertificateAuthority";
        "acm-pca:GetCertificateAuthorityCertificate";
        "acm-pca:GetCertificateAuthorityCsr";
        "acm-pca:TagResource"
    ]);
    ("AWS::ACMPCA::Certificate", [
        "acm-pca:IssueCertificate";
        "acm-pca:GetCertificate";
        "acm-pca:RevokeCertificate"
    ]);
    ("AWS::ACMPCA::CertificateAuthorityActivation", [
        "acm-pca:ImportCertificateAuthorityCertificate";
        "acm-pca:UpdateCertificateAuthority"
    ]);
    ("AWS::RolesAnywhere::TrustAnchor", [
        "rolesanywhere:CreateTrustAnchor";
        "rolesanywhere:DeleteTrustAnchor";
        "rolesanywhere:GetTrustAnchor";
        "rolesanywhere:UpdateTrustAnchor";
        "rolesanywhere:TagResource"
    ]);
    ("AWS::RolesAnywhere::Profile", [
        "rolesanywhere:CreateProfile";
        "rolesanywhere:DeleteProfile";
        "rolesanywhere:GetProfile";
        "rolesanywhere:UpdateProfile";
        "rolesanywhere:TagResource"
    ])
  ].

Definition CLOUDFORMATION_PERMISSIONS : list string := [
    "cloudformation:CreateStack";
    "cloudformation:DeleteStack";
    "cloudformation:DescribeStacks";
    "cloudformation:UpdateStack";
    "cloudformation:ValidateTemplate";
    "cloudformation:GetTemplate";
    "cloudformation:GetTemplateSummary"
].

Definition PIPELINE_PERMISSIONS : list string := [
    "codepipeline:CreatePipeline";
    "codepipeline:DeletePipeline";
    "codepipeline:GetPipeline";
    "codepipeline:GetPipelineState";
    "codepipeline:StartPipelineExecution";
    "codepipeline:TagResource";
    "codestar-connections:UseConnection";
    "s3:CreateBucket";
    "s3:DeleteBucket";
    "s3:GetObject";
    "s3:PutObject";
    "s3:DeleteObject"
].

(** ** The function (lines 148-257) *)

Section analyze.
Context `{rt : Runtime}.

(** Lines 164-172: JSON first, YAML when JSON does not decode. *)
Definition parse_template (template_content : string) : M pyval :=
  try_except (lift (json_loads template_content))
    (λ e, match e with
          | JSONDecodeError => Some (
              try_except (lift (yaml_safe_load template_content))
                (λ e, match e with
                      | YAMLError => Some (
                          print (Error_parsing_template_content e);;
                          return_ PNone)
                      | _ => None
                      end))
          | _ => None
          end).

(** Lines 175-181: the set of the truthy [Type] fields. *)
Definition extract_resource_types (template : pyval) : M (list pyval) :=
  resources ← lift (py_get template "Resources" (PDict []));
  items ← lift (py_items resources);
  for_fold items [] (λ '(resource_name, resource_def) resource_types,
    resource_type ← lift (py_get resource_def "Type" PNone);
    if truthy resource_type
    then lift (set_add resource_type resource_types)
    else mret resource_types).

(** Lines 183-187.  [', '.join(resource_types)] raises [TypeError] unless
    every member is a [str]; the members are handed on in the order of that
    iteration, which is the order of the loop of line 193 over the same
    set. *)
Definition report_resource_types (resource_types : list pyval) :
    M (list string) :=
  if negb (bool_decide (length resource_types = 0)) then
    match str_members resource_types with
    | Some members =>
        print (Found_resource_types (set_iter members));;
        mret (set_iter members)
    | None => lift (Raised TypeError)
    end
  else
    print No_resources_found;;
    return_ PNone.

(** Lines 190-197. *)
Definition map_permissions (resource_types : list string) : M (list string) :=
  let needed_permissions := str_set CLOUDFORMATION_PERMISSIONS in
  let needed_permissions :=
    str_set_update needed_permissions PIPELINE_PERMISSIONS in
  for_fold resource_types needed_permissions
    (λ resource_type needed_permissions,
      match CFN_RESOURCE_TO_IAM_MAPPING !! resource_type with
      | Some permissions =>
          mret (str_set_update needed_permissions permissions)
      | None =>
          print (Warning_no_permission_mapping resource_type);;
          mret needed_permissions
      end).

(** Lines 203-217. *)
Definition trust_policy : pyval :=
  PDict [
    (PStr "Version", PStr "2012-10-17");
    (PStr "Statement", PList [
      PDict [
        (PStr "Effect", PStr "Allow");
        (PStr "Principal", PDict [
          (PStr "Service", PList [
            PStr "cloudformation.amazonaws.com";
            PStr "codepipeline.amazonaws.com"
          ])
        ]);
        (PStr "Action", PStr "sts:AssumeRole")
      ]
    ])
  ].

(** Lines 227-236, with [list(needed_permissions)] as the [Action]. *)
Definition permission_policy (needed_permissions : list string) : pyval :=
  PDict [
    (PStr "Version", PStr "2012-10-17");
    (PStr "Statement", PList [
      PDict [
        (PStr "Effect", PStr "Allow");
        (PStr "Action", PList (PStr <$> set_iter needed_permissions));
        (PStr "Resource", PStr "*")
      ]
    ])
  ].

Definition role_description : string :=
  "CloudFormation and CodePipeline execution role with scoped permissions".

(** Lines 219-253. *)
Definition create_execution_role (role_name : string) (iam : iam_client)
    (needed_permissions : list string) : M pyval :=
  try_except (
    response ← invoke (Create_role role_name trust_policy role_description)
                 (create_role iam role_name trust_policy role_description);
    let policy_name := role_name +:+ "Policy" in
    let document := permission_policy needed_permissions in
    invoke (Put_role_policy role_name policy_name document)
      (put_role_policy iam role_name policy_name document);;
    print (Created_execution_role role_name);;
    print (Attached_policy policy_name (length needed_permissions));;
    role ← lift (py_subscript response "Role");
    arn ← lift (py_subscript role "Arn");
    return_ arn)
  (λ e, match e with
        | ClientError =>
            Some (print (Error_creating_execution_role e);; return_ PNone)
        | _ => None
        end).

Definition analyze_template_content_and_create_role
    (template_content role_name : string) (iam : iam_client)
    (account_id : string) : M pyval :=
  print Analyzing_template_content;;
  try_except (
    template ← parse_template template_content;
    resource_types ← extract_resource_types template;
    resource_types ← report_resource_types resource_types;
    needed_permissions ← map_permissions resource_types;
    print (Required_permissions (sorted needed_permissions));;
    create_execution_role role_name iam needed_permissions)
  (λ e, Some (print (Error_analyzing_template e);; return_ PNone)).

End analyze.

(** The function called from [main] with nothing printed yet. *)
Definition run `{rt : Runtime} (template_content role_name : string)
    (iam : iam_client) (account_id : string) : world * result pyval :=
  call (analyze_template_content_and_create_role template_content role_name
          iam account_id) initial.

(** ** Reading a run *)

(** The permissions of the "Required permissions" line. *)
Definition required_permissions (w : world) : option (list string) :=
  head (omap (λ l, match l with
                   | Required_permissions p => Some p
                   | _ => None
                   end) (stdout w)).

(** The resource types of the warnings, in the order they were printed. *)
Definition unknown_types (w : world) : list string :=
  omap (λ l, match l with
             | Warning_no_permission_mapping t => Some t
             | _ => None
             end) (stdout w).

(** The [Action] list of the single statement of a policy document. *)
Definition document_actions (document : pyval) : option (list string) :=
  match py_subscript document "Statement" with
  | Normal (PList [statement]) =>
      match py_subscript statement "Action" with
      | Normal (PList actions) => str_members actions
      | _ => None
      end
  | _ => None
  end.

(** The [Action] list handed to [put_role_policy], when it was called. *)
Definition policy_actions (w : world) : option (list string) :=
  head (omap (λ c, match c with
                   | Put_role_policy _ _ document => Some document
                   | _ => None
                   end) (iam_calls w)) ≫= document_actions.

(** The first call of the client is [create_role]: the permissions were
    resolved and handed to the role-creation step. *)
Definition reached_role_creation (w : world) : bool :=
  match iam_calls w with
  | Create_role _ _ _ :: _ => true
  | _ => false
  end.

(** ** Templates *)

(** [template_content] parses to [template]: by JSON, or by YAML after JSON
    raised its decode error. *)
Definition parses_to `{rt : Runtime} (template_content : string)
    (template : pyval) : Prop :=
  json_loads template_content = Normal template ∨
  (json_loads template_content = Raised JSONDecodeError ∧
   yaml_safe_load template_content = Normal template).

(** [template_content] is a template, a mapping, whose resource declarations
    are [resources]; none when the mapping has no [Resources] entry. *)
Definition template_of `{rt : Runtime} (template_content : string)
    (resources : list (pyval * pyval)) : Prop :=
  ∃ template, parses_to template_content template ∧
    py_get template "Resources" (PDict []) = Normal (PDict resources).

(** What a declaration of the data model declares: [Some (Some t)] for a
    mapping whose [Type] is the non-empty string [t], [Some None] for a
    mapping without a [Type] or with a falsy one, [None] for anything else. *)
Definition declared_type (resource_def : pyval) : option (option string) :=
  match py_get resource_def "Type" PNone with
  | Normal v =>
      if truthy v then
        match v with
        | PStr t => Some (Some t)
        | _ => None
        end
      else Some None
  | Raised _ => None
  end.

(** The types the declarations declare, in order and with repetitions, when
    every declaration is one of the data model. *)
Fixpoint declared_types (resources : list (pyval * pyval)) :
    option (list string) :=
  match resources with
  | [] => Some []
  | (_, resource_def) :: rest =>
      match declared_type resource_def, declared_types rest with
      | Some (Some t), Some l => Some (t :: l)
      | Some None, Some l => Some l
      | _, _ => None
      end
  end.

(** A declaration whose [Type] is missing or is the empty string. *)
Definition typeless (declaration : pyval * pyval) : bool :=
  match declaration.2 with
  | PDict fields =>
      match dict_get fields "Type" with
      | None | Some (PStr "") => true
      | Some _ => false
      end
  | _ => false
  end.

(** The baseline set of lines 190-191. *)
Definition baseline : list string :=
  str_set_update (str_set CLOUDFORMATION_PERMISSIONS) PIPELINE_PERMISSIONS.

(** The set the loop of lines 193-197 leaves, and the types it warns about. *)
Definition needed_step (needed : list string) (t : string) : list string :=
  match CFN_RESOURCE_TO_IAM_MAPPING !! t with
  | Some permissions => str_set_update needed permissions
  | None => needed
  end.

Definition needed_for (resource_types : list string) : list string :=
  foldl needed_step baseline resource_types.

Definition unmapped (resource_types : list string) : list string :=
  filter (λ t, CFN_RESOURCE_TO_IAM_MAPPING !! t = None) resource_types.

(** The loop of lines 176-181 prints nothing and calls nothing: it is this
    function of the declarations and of the set built so far. *)
Fixpoint collect_types (items : list (pyval * pyval)) (resource_types : list pyval) :
    result (list pyval) :=
  match items with
  | [] => Normal resource_types
  | (_, resource_def) :: rest =>
      match py_get resource_def "Type" PNone with
      | Normal resource_type =>
          if truthy resource_type then
            match set_add resource_type resource_types with
            | Normal resource_types' => collect_types rest resource_types'
            | Raised e => Raised e
            end
          else collect_types rest resource_types
      | Raised e => Raised e
      end
  end.

(** Lines 201-257 on the resolved set: the role-creation step under the
    catch-all handler of the function. *)
Definition finish `{rt : Runtime} (role_name : string) (iam : iam_client)
    (needed_permissions : list string) (w : world) : world * result pyval :=
  call (try_except (create_execution_role role_name iam needed_permissions)
          (λ e, Some (print (Error_analyzing_template e);; return_ PNone))) w.

(** The function on a template that parsed. *)
Definition analyze_parsed `{rt : Runtime} (template : pyval)
    (role_name : string) (iam : iam_client) : world * result pyval :=
  call (try_except (
          resource_types ← extract_resource_types template;
          resource_types ← report_resource_types resource_types;
          needed_permissions ← map_permissions resource_types;
          print (Required_permissions (sorted needed_permissions));;
          create_execution_role role_name iam needed_permissions)
        (λ e, Some (print (Error_analyzing_template e);; return_ PNone)))
    {| stdout := [Analyzing_template_content]; iam_calls := [] |}.

(** The two ways a run ends before any resource is looked at. *)
Definition parse_failure : world * result pyval :=
  ({| stdout := [Analyzing_template_content;
                 Error_parsing_template_content YAMLError];
      iam_calls := [] |}, Normal PNone).

Definition empty_template : world * result pyval :=
  ({| stdout := [Analyzing_template_content; No_resources_found];
      iam_calls := [] |}, Normal PNone).

(** The run the catch-all handler ends when [e] reaches it before anything
    else was printed. *)
Definition analysis_error (e : exn) : world * result pyval :=
  ({| stdout := [Analyzing_template_content; Error_analyzing_template e];
      iam_calls := [] |}, Normal PNone).

(** A line the role-creation step prints. *)
Definition creation_line (l : line) : bool :=
  match l with
  | Created_execution_role _ | Attached_policy _ _
  | Error_creating_execution_role _ | Error_analyzing_template _ => true
  | _ => false
  end.

(** After parsing, the run is decided by what the loop of lines 176-181
    collects. *)
Definition resolve_collected `{rt : Runtime}
    (collected : result (list pyval))
    (role_name : string) (iam : iam_client) : world * result pyval :=
  match collected with
  | Raised e => analysis_error e
  | Normal [] => empty_template
  | Normal resource_types =>
      match str_members resource_types with
      | None => analysis_error TypeError
      | Some members =>
          let names := set_iter members in
          let needed := needed_for names in
          finish role_name iam needed
            {| stdout :=
                 [Analyzing_template_content; Found_resource_types names] ++
                 (Warning_no_permission_mapping <$> unmapped names) ++
                 [Required_permissions (sorted needed)];
               iam_calls := [] |}
      end
  end.

(** The run shows the permission set [permissions]: it is the list of the
    "Required permissions" line, it has no duplicates, and an [Action] list
    handed to [put_role_policy] is a rearrangement of it. *)
Definition resolves_to (w : world) (permissions : list string) : Prop :=
  required_permissions w = Some permissions ∧
  NoDup permissions ∧
  ∀ actions, policy_actions w = Some actions → actions ≡ₚ permissions.

(** How a run is reported: by the last line it prints. *)
Inductive report : Type :=
| TemplateParseFailure
| EmptyTemplate
| AnalysisError (e : exn)
| RoleCreationError (e : exn)
| RoleCreated.

Definition report_of_line (l : line) : option report :=
  match l with
  | Error_parsing_template_content _ => Some TemplateParseFailure
  | No_resources_found => Some EmptyTemplate
  | Error_analyzing_template e => Some (AnalysisError e)
  | Error_creating_execution_role e => Some (RoleCreationError e)
  | Attached_policy _ _ => Some RoleCreated
  | _ => None
  end.

Definition reported (r : world * result pyval) : option report :=
  last (stdout r.1) ≫= report_of_line.

(** ** Sample inputs *)

(** YAML documents, which do not decode as JSON, with the values
    [yaml.safe_load] builds for them. *)
Definition bucket_yaml : string :=
"Resources:
  Bucket:
    Type: AWS::S3::Bucket".

Definition bucket_resources : list (pyval * pyval) :=
  [(PStr "Bucket", PDict [(PStr "Type", PStr "AWS::S3::Bucket")])].

Definition mixed_yaml : string :=
"Resources:
  Fn:
    Type: AWS::Lambda::Function
  Key:
    Type: AWS::KMS::Key".

Definition mixed_resources : list (pyval * pyval) :=
  [(PStr "Fn", PDict [(PStr "Type", PStr "AWS::Lambda::Function")]);
   (PStr "Key", PDict [(PStr "Type", PStr "AWS::KMS::Key")])].

Definition swapped_yaml : string :=
"Resources:
  Key:
    Type: AWS::KMS::Key
  Fn:
    Type: AWS::Lambda::Function".

Definition swapped_resources : list (pyval * pyval) :=
  [(PStr "Key", PDict [(PStr "Type", PStr "AWS::KMS::Key")]);
   (PStr "Fn", PDict [(PStr "Type", PStr "AWS::Lambda::Function")])].

Definition function_yaml : string :=
"Resources:
  Fn:
    Type: AWS::Lambda::Function".

Definition function_resources : list (pyval * pyval) :=
  [(PStr "Fn", PDict [(PStr "Type", PStr "AWS::Lambda::Function")])].

Definition two_functions_yaml : string :=
"Resources:
  Fn:
    Type: AWS::Lambda::Function
  Fn2:
    Type: AWS::Lambda::Function".

Definition two_functions_resources : list (pyval * pyval) :=
  [(PStr "Fn", PDict [(PStr "Type", PStr "AWS::Lambda::Function")]);
   (PStr "Fn2", PDict [(PStr "Type", PStr "AWS::Lambda::Function")])].

Definition draft_yaml : string :=
"Resources:
  Draft:
    Description: pending
  Bucket:
    Type: AWS::S3::Bucket".

Definition draft_resources : list (pyval * pyval) :=
  [(PStr "Draft", PDict [(PStr "Description", PStr "pending")]);
   (PStr "Bucket", PDict [(PStr "Type", PStr "AWS::S3::Bucket")])].

Definition resources_template (resources : list (pyval * pyval)) : pyval :=
  PDict [(PStr "Resources", PDict resources)].

(** A runtime that agrees with Python on the documents used below and
    iterates a set in insertion order.  The JSON documents are [[]], a list,
    and [{}], a mapping without entries. *)
Definition sample_runtime : Runtime := {|
  json_loads s :=
    if String.eqb s "[]" then Normal (PList [])
    else if String.eqb s "{}" then Normal (PDict [])
    else Raised JSONDecodeError;
  yaml_safe_load s :=
    if String.eqb s bucket_yaml then Normal (resources_template bucket_resources)
    else if String.eqb s mixed_yaml then Normal (resources_template mixed_resources)
    else if String.eqb s swapped_yaml then Normal (resources_template swapped_resources)
    else if String.eqb s function_yaml then Normal (resources_template function_resources)
    else if String.eqb s two_functions_yaml
      then Normal (resources_template two_functions_resources)
    else if String.eqb s draft_yaml then Normal (resources_template draft_resources)
    else Raised YAMLError;
  set_iter s := s;
  set_iter_perm s := reflexivity s
|}.

(** A client whose two calls succeed. *)
Definition ok_client : iam_client := {|
  create_role n _ _ :=
    Normal (PDict [(PStr "Role", PDict [(PStr "Arn", PStr ("arn:" +:+ n))])]);
  put_role_policy _ _ _ := Normal (PDict [])
|}.

(** * The rest of the script

    The functions around the resolver: [select_option],
    [create_artifact_bucket], [create_pipeline_role],
    [create_cloudformation_role] and [main].

    Further conventions.
    - [len], slicing and [lower] are taken on the bytes of a string: they
      are Python's on ASCII strings, which region names, account ids and
      UUIDs are.  An answer is compared with ['y'] after [lower]: only ["y"]
      and ["Y"] pass, in Python as here.
    - What boto3 returns has the shape the service model gives it; the script
      reads a field of a response as the environment gives it, typed.
    - Standard input is the list of the lines typed, [None] standing for an
      end of file (Ctrl+D); reading past the end raises [EOFError] too.
    - Everything outside the script answers as a function of the requests
      made so far. *)

(** ** Strings *)

Definition chars (s : string) : list ascii := list_ascii_of_string s.
Definition str (l : list ascii) : string := string_of_list_ascii l.

Definition lower_char (c : ascii) : ascii :=
  let n := nat_of_ascii c in
  if ((65 <=? n) && (n <=? 90))%nat then ascii_of_nat (n + 32) else c.

(** [s.lower()] *)
Definition lower (s : string) : string := str (lower_char <$> chars s).

(** [s[:n]] *)
Definition prefix (n : nat) (s : string) : string := str (take n (chars s)).

(** [s[-n:]], for [n] above 0 *)
Definition suffix (n : nat) (s : string) : string :=
  str (drop (String.length s - n) (chars s)).

(** [s[:-1]] *)
Definition but_last (s : string) : string :=
  str (take (String.length s - 1) (chars s)).

(** [s[-1]], which raises [IndexError] on the empty string *)
Definition last_char (s : string) : option ascii := last (chars s).

(** ** Exceptions, requests and the process *)

(** The classes the handlers of these functions name, besides those of the
    resolver; [sys.exit(n)] raises [SystemExit]. *)
Inductive error : Type :=
| Error (e : exn)
| ValueError
| EOFError
| FileNotFoundError
| IndexError
| SystemExit (code : Z).

Inductive outcome (A : Type) : Type :=
| Done (a : A)
| Failed (e : error).
Arguments Done {A} a.
Arguments Failed {A} e.

(** An entry of the [Connections] of [list_connections]. *)
Record connection : Type := {
  ConnectionName : string;
  ConnectionArn : string
}.

(** What the script asks of the world outside it. *)
Inductive action : Type :=
| New_session (profile_name : string) (region_name : option (option string))
| Client (service : string)
| Describe_regions
| Get_caller_identity
| List_connections
| Iam (c : iam_call)
| Attach_role_policy (RoleName PolicyArn : string)
| Create_bucket (Bucket : string) (LocationConstraint : option string)
| Create_pipeline (pipeline : pyval)
| Start_pipeline_execution (name : string)
| Read_file (path : string)
| Uuid4.

(** The answers, each a function of the requests made before it, and the
    built-in [int] on strings ([None] for its [ValueError]).  A session
    answers with its [region_name]; [create_role] with
    [response['Role']['Arn']]; [create_pipeline] with
    [response['pipeline'].get('pipelineARN')]; [list_connections] with
    [response.get('Connections')]. *)
Class Environment : Type := {
  py_int : string → option Z;
  new_session :
    list action → string → option (option string) → result (option string);
  client : list action → string → result ();
  describe_regions : list action → result (list string);
  get_caller_identity : list action → result string;
  list_connections : list action → result (option (list connection));
  iam_create_role : list action → string → pyval → string → result string;
  iam_put_role_policy : list action → string → string → pyval → result ();
  iam_attach_role_policy : list action → string → string → result ();
  s3_create_bucket : list action → string → option string → result ();
  codepipeline_create_pipeline : list action → pyval → result (option string);
  codepipeline_start_pipeline_execution : list action → string → result ();
  read_file : list action → string → outcome string;
  uuid4 : list action → string
}.

(** What the terminal shows: a [print], a [print] that ends with a value or
    with an exception, the prompt of an [input] with the line typed at it
    ([None] for an end of file), a line of the resolver. *)
Inductive output : Type :=
| Printed (text : string)
| Printed_value (text : string) (v : pyval)
| Printed_error (text : string) (e : error)
| Asked (prompt : string) (answer : option string)
| Analysis (l : line).

Record process : Type := {
  console : list output;
  keyboard : list (option string);
  history : list action
}.

Definition Script (A : Type) : Type := process → process * outcome A.

#[global] Instance Script_ret : MRet Script := λ A a p, (p, Done a).

#[global] Instance Script_bind : MBind Script := λ A B f m p,
  match m p with
  | (p', Done a) => f a p'
  | (p', Failed e) => (p', Failed e)
  end.

#[global] Instance Script_fmap : FMap Script := λ A B f m,
  m ≫= λ a, mret (f a).

Definition fail {A} (e : error) : Script A := λ p, (p, Failed e).

(** [sys.exit(code)] *)
Definition exit {A} (code : Z) : Script A := fail (SystemExit code).

Definition emit (o : output) : Script () := λ p,
  ({| console := console p ++ [o]; keyboard := keyboard p;
      history := history p |}, Done ()).

(** [print(text)] *)
Definition say (text : string) : Script () := emit (Printed text).

(** [input(prompt)] *)
Definition input (prompt : string) : Script string := λ p,
  match keyboard p with
  | Some answer :: rest =>
      ({| console := console p ++ [Asked prompt (Some answer)];
          keyboard := rest; history := history p |}, Done answer)
  | None :: rest =>
      ({| console := console p ++ [Asked prompt None];
          keyboard := rest; history := history p |}, Failed EOFError)
  | [] =>
      ({| console := console p ++ [Asked prompt None];
          keyboard := []; history := history p |}, Failed EOFError)
  end.

(** A request, recorded, with the answer the requests before it give. *)
Definition request {A} (a : action) (answer : list action → result A) :
    Script A := λ p,
  ({| console := console p; keyboard := keyboard p;
      history := history p ++ [a] |},
   match answer (history p) with
   | Normal x => Done x
   | Raised e => Failed (Error e)
   end).

(** [try: body except ...] *)
Definition attempt {A} (body : Script A) (handler : error → option (Script A)) :
    Script A := λ p,
  match body p with
  | (p', Failed e) =>
      match handler e with
      | Some h => h p'
      | None => (p', Failed e)
      end
  | r => r
  end.

(** [answer.lower() == 'y'] *)
Definition yes (answer : string) : bool := String.eqb (lower answer) "y".

Section script.
Context `{rt : Runtime} `{env : Environment}.

(** ** [select_option] (lines 442-456) *)

Definition select_prompt : string := "Please select an option (number): ".

(** The loop of lines 448-456, each turn of which reads one line. *)
Fixpoint select_loop (options : list string) (keys : list (option string))
    (shown : list output) : list output * list (option string) * outcome string :=
  match keys with
  | [] => (shown ++ [Asked select_prompt None], [], Failed EOFError)
  | None :: keys => (shown ++ [Asked select_prompt None], keys, Failed EOFError)
  | Some answer :: keys =>
      let shown := shown ++ [Asked select_prompt (Some answer)] in
      match py_int answer with
      | Some choice =>
          if bool_decide (1 ≤ choice ≤ Z.of_nat (length options))%Z then
            match options !! Z.to_nat (choice - 1) with
            | Some option => (shown, keys, Done option)
            | None => (shown, keys, Failed IndexError)
            end
          else
            select_loop options keys
              (shown ++ [Printed "Invalid option. Please try again."])
      | None =>
          select_loop options keys (shown ++ [Printed "Please enter a number."])
      end
  end.

Definition select_option (options : list string) : Script string := λ p,
  let menu :=
    Printed "Available options:" ::
    imap (λ i option, Printed (pretty (S i) +:+ ". " +:+ option)) options in
  let '(shown, keys, r) :=
    select_loop options (keyboard p) (console p ++ menu) in
  ({| console := shown; keyboard := keys; history := history p |}, r).

(** ** [create_pipeline_role] (lines 260-352) *)

Definition pipeline_trust_policy : pyval :=
  PDict [
    (PStr "Version", PStr "2012-10-17");
    (PStr "Statement", PList [
      PDict [
        (PStr "Effect", PStr "Allow");
        (PStr "Principal", PDict [
          (PStr "Service", PStr "codepipeline.amazonaws.com")
        ]);
        (PStr "Action", PStr "sts:AssumeRole")
      ]
    ])
  ].

Definition pipeline_policy (account_id : string) : pyval :=
  PDict [
    (PStr "Version", PStr "2012-10-17");
    (PStr "Statement", PList [
      PDict [
        (PStr "Effect", PStr "Allow");
        (PStr "Action", PList [
          PStr "cloudformation:CreateStack";
          PStr "cloudformation:DeleteStack";
          PStr "cloudformation:DescribeStacks";
          PStr "cloudformation:UpdateStack";
          PStr "cloudformation:CreateChangeSet";
          PStr "cloudformation:DeleteChangeSet";
          PStr "cloudformation:DescribeChangeSet";
          PStr "cloudformation:ExecuteChangeSet";
          PStr "cloudformation:SetStackPolicy";
          PStr "cloudformation:ValidateTemplate"
        ]);
        (PStr "Resource",
         PStr ("arn:aws:cloudformation:*:" +:+ account_id +:+ ":stack/*"))
      ];
      PDict [
        (PStr "Effect", PStr "Allow");
        (PStr "Action", PList [
          PStr "iam:PassRole"
        ]);
        (PStr "Resource", PStr "*");
        (PStr "Condition", PDict [
          (PStr "StringEqualsIfExists", PDict [
            (PStr "iam:PassedToService", PList [
              PStr "cloudformation.amazonaws.com";
              PStr "elasticbeanstalk.amazonaws.com"
            ])
          ])
        ])
      ];
      PDict [
        (PStr "Effect", PStr "Allow");
        (PStr "Action", PList [
          PStr "codestar-connections:UseConnection"
        ]);
        (PStr "Resource", PStr "*")
      ];
      PDict [
        (PStr "Effect", PStr "Allow");
        (PStr "Action", PList [
          PStr "s3:GetObject";
          PStr "s3:GetObjectVersion";
          PStr "s3:GetBucketVersioning";
          PStr "s3:PutObject"
        ]);
        (PStr "Resource", PStr "*")
      ]
    ])
  ].

Definition pipeline_role_description : string :=
  "Role for CodePipeline to deploy CloudFormation stacks".

Definition create_pipeline_role (role_name account_id : string) :
    Script string :=
  say ("Creating pipeline service role: " +:+ role_name);;
  attempt (
    response ← request
      (Iam (Create_role role_name pipeline_trust_policy
              pipeline_role_description))
      (λ h, iam_create_role h role_name pipeline_trust_policy
              pipeline_role_description);
    request
      (Iam (Put_role_policy role_name (role_name +:+ "Policy")
              (pipeline_policy account_id)))
      (λ h, iam_put_role_policy h role_name (role_name +:+ "Policy")
              (pipeline_policy account_id));;
    mret response)
  (λ e, match e with
        | Error ClientError =>
            Some (emit (Printed_error "Error creating pipeline role: " e);;
                  exit 1)
        | _ => None
        end).

(** ** [create_cloudformation_role] (lines 355-391) *)

Definition cloudformation_trust_policy : pyval :=
  PDict [
    (PStr "Version", PStr "2012-10-17");
    (PStr "Statement", PList [
      PDict [
        (PStr "Effect", PStr "Allow");
        (PStr "Principal", PDict [
          (PStr "Service", PStr "cloudformation.amazonaws.com")
        ]);
        (PStr "Action", PStr "sts:AssumeRole")
      ]
    ])
  ].

Definition admin_role_description : string :=
  "CloudFormation execution role with administrator access".

Definition AdministratorAccess : string :=
  "arn:aws:iam::aws:policy/AdministratorAccess".

Definition create_cloudformation_role (role_name : string) : Script string :=
  say ("Creating CloudFormation execution role with admin permissions: "
       +:+ role_name);;
  attempt (
    response ← request
      (Iam (Create_role role_name cloudformation_trust_policy
              admin_role_description))
      (λ h, iam_create_role h role_name cloudformation_trust_policy
              admin_role_description);
    request (Attach_role_policy role_name AdministratorAccess)
      (λ h, iam_attach_role_policy h role_name AdministratorAccess);;
    mret response)
  (λ e, match e with
        | Error ClientError =>
            Some (emit (Printed_error "Error creating CloudFormation role: " e);;
                  exit 1)
        | _ => None
        end).

(** ** [create_artifact_bucket] (lines 394-439) *)

(** Lines 408-425: the name of the bucket, for a region, an account id and
    a UUID of ASCII characters.  On other strings Python counts, cuts and
    lowers characters where this function works on the bytes of UTF-8, and
    the two differ: what is proved of this function is proved under
    hypotheses that keep the three strings in ASCII. *)
Definition bucket_name (region account_id uuid : string) : outcome string :=
  let region_lower := lower region in
  let unique_suffix := lower (prefix 8 uuid) in
  let account_id_short :=
    if (8 <? String.length account_id)%nat then suffix 8 account_id
    else account_id in
  let bucket_name :=
    "pipeline-" +:+ region_lower +:+ "-" +:+ account_id_short +:+ "-"
    +:+ unique_suffix in
  let bucket_name :=
    if (63 <? String.length bucket_name)%nat then prefix 63 bucket_name
    else bucket_name in
  match last_char bucket_name with
  | Some c =>
      Done (if bool_decide (c ∈ ["-"; "."]%char)
            then but_last bucket_name +:+ "a"
            else bucket_name)
  | None => Failed IndexError
  end.

(** The region is [None] when the profile has none and the user keeps it:
    [region.lower()] then raises [AttributeError]. *)
Definition create_artifact_bucket (region : option string) : Script string :=
  request (Client "s3") (λ h, client h "s3");;
  request (Client "sts") (λ h, client h "sts");;
  account_id ← request Get_caller_identity get_caller_identity;
  region ← match region with
           | Some r => mret r
           | None => fail (Error AttributeError)
           end;
  uuid ← request Uuid4 (λ h, Normal (uuid4 h));
  bucket_name ← (λ p, (p, bucket_name region account_id uuid));
  attempt (
    (if String.eqb region "us-east-1"
     then request (Create_bucket bucket_name None)
            (λ h, s3_create_bucket h bucket_name None)
     else request (Create_bucket bucket_name (Some region))
            (λ h, s3_create_bucket h bucket_name (Some region)));;
    say ("Created artifact bucket: " +:+ bucket_name);;
    mret bucket_name)
  (λ e, match e with
        | Error ClientError =>
            Some (emit (Printed_error "Error creating artifact bucket: " e);;
                  exit 1)
        | _ => None
        end).

(** ** [main] (lines 459-722) *)

(** The client the resolver is handed: it answers [create_role] as the
    requests so far have it, and [put_role_policy], which the resolver calls
    next, as they have it after that [create_role]. *)
Definition resolver_client (h : list action) (role_name : string) : iam_client := {|
  create_role n d description :=
    match iam_create_role h n d description with
    | Normal arn =>
        Normal (PDict [(PStr "Role", PDict [(PStr "Arn", PStr arn)])])
    | Raised e => Raised e
    end;
  put_role_policy n policy_name d :=
    match
      iam_put_role_policy
        (h ++ [Iam (Create_role role_name trust_policy role_description)])
        n policy_name d
    with
    | Normal _ => Normal (PDict [])
    | Raised e => Raised e
    end
|}.

(** The call of the resolver from [main]. *)
Definition analyze (template_content role_name account_id : string) :
    Script pyval := λ p,
  let r := run template_content role_name
             (resolver_client (history p) role_name) account_id in
  ({| console := console p ++ (Analysis <$> stdout r.1);
      keyboard := keyboard p;
      history := history p ++ (Iam <$> iam_calls r.1) |},
   match r.2 with
   | Normal v => Done v
   | Raised e => Failed (Error e)
   end).

(** [open(path, 'r')] and [f.read()] *)
Definition read (path : string) : Script string := λ p,
  ({| console := console p; keyboard := keyboard p;
      history := history p ++ [Read_file path] |}, read_file (history p) path).

(** [str(v)] for a string that may be [None] *)
Definition show (v : option string) : string := default "None" v.

(** [bool(v)] for a string that may be [None] *)
Definition given (v : option string) : bool :=
  match v with
  | Some s => negb (String.eqb s "")
  | None => false
  end.

Definition newline : string := String (ascii_of_nat 10) "".

(** Lines 567-573: the lines pasted, up to the end of file. *)
Fixpoint paste_loop (keys : list (option string)) (template_lines : list string)
    (shown : list output) : list output * list (option string) * list string :=
  match keys with
  | [] => (shown ++ [Asked "" None], [], template_lines)
  | None :: keys => (shown ++ [Asked "" None], keys, template_lines)
  | Some line :: keys =>
      paste_loop keys (template_lines ++ [line])
        (shown ++ [Asked "" (Some line)])
  end.

Definition paste : Script (option string) := λ p,
  let '(shown, keys, template_lines) := paste_loop (keyboard p) [] (console p) in
  ({| console := shown; keyboard := keys; history := history p |},
   Done (Some (String.concat newline template_lines))).

(** Line 515: [connection_arns[connection_names.index(selected_connection)]] *)
Definition connection_arn_of (connections : list connection)
    (selected_connection : string) : outcome string :=
  let connection_names := ConnectionName <$> connections in
  let connection_arns := ConnectionArn <$> connections in
  match list_find (λ name, name = selected_connection) connection_names with
  | Some (i, _) =>
      match connection_arns !! i with
      | Some arn => Done arn
      | None => Failed IndexError
      end
  | None => Failed ValueError
  end.

(** Lines 633-694. *)
Definition pipeline_definition (pipeline_name pipeline_role_arn artifact_bucket
    connection_arn repository branch stack_name template_path : string)
    (cf_role_arn : pyval) (capabilities : list string)
    (params_file_path : option string) : pyval :=
  PDict [
    (PStr "name", PStr pipeline_name);
    (PStr "roleArn", PStr pipeline_role_arn);
    (PStr "artifactStore", PDict [
      (PStr "type", PStr "S3");
      (PStr "location", PStr artifact_bucket)
    ]);
    (PStr "stages", PList [
      PDict [
        (PStr "name", PStr "Source");
        (PStr "actions", PList [
          PDict [
            (PStr "name", PStr "Source");
            (PStr "actionTypeId", PDict [
              (PStr "category", PStr "Source");
              (PStr "owner", PStr "AWS");
              (PStr "provider", PStr "CodeStarSourceConnection");
              (PStr "version", PStr "1")
            ]);
            (PStr "configuration", PDict [
              (PStr "ConnectionArn", PStr connection_arn);
              (PStr "FullRepositoryId", PStr repository);
              (PStr "BranchName", PStr branch);
              (PStr "OutputArtifactFormat", PStr "CODE_ZIP")
            ]);
            (PStr "outputArtifacts", PList [
              PDict [
                (PStr "name", PStr "SourceCode")
              ]
            ])
          ]
        ])
      ];
      PDict [
        (PStr "name", PStr "Deploy");
        (PStr "actions", PList [
          PDict [
            (PStr "name", PStr "CreateOrUpdateStack");
            (PStr "actionTypeId", PDict [
              (PStr "category", PStr "Deploy");
              (PStr "owner", PStr "AWS");
              (PStr "provider", PStr "CloudFormation");
              (PStr "version", PStr "1")
            ]);
            (PStr "configuration", PDict ([
              (PStr "ActionMode", PStr "CREATE_UPDATE");
              (PStr "StackName", PStr stack_name);
              (PStr "TemplatePath", PStr ("SourceCode::" +:+ template_path));
              (PStr "RoleArn", cf_role_arn);
              (PStr "Capabilities", PStr (String.concat "," capabilities))
            ] ++
              (if given params_file_path
               then [(PStr "ParametersFilePath",
                      PStr ("SourceCode::" +:+ show params_file_path))]
               else [])));
            (PStr "inputArtifacts", PList [
              PDict [
                (PStr "name", PStr "SourceCode")
              ]
            ])
          ]
        ])
      ]
    ])
  ].

Definition region_prompt (default_region : option string) : string :=
  "Default region from profile is " +:+ show default_region
  +:+ ". Do you want to use a different region? (y/n): ".

Definition role_type_prompt : string :=
  "Create (1) A role with full admin permissions, or (2) A role with minimum required permissions? (1/2): ".

Definition fallback_prompt : string :=
  "Failed to create scoped role. Create a role with admin permissions instead? (y/n): ".

Definition confirm_prompt : string :=
  "Do you want to proceed with the deployment? (y/n): ".

Definition start_prompt : string :=
  "Do you want to manually start the pipeline now? (y/n): ".

(** Lines 543-593: the CloudFormation execution role. *)
Definition execution_role (stack_name account_id : string) : Script pyval :=
  create_cf_role_input ←
    input "Do you want to create a new CloudFormation execution role? (y/n): ";
  if yes create_cf_role_input then
    role_type ← input role_type_prompt;
    uuid ← request Uuid4 (λ h, Normal (uuid4 h));
    let cf_role_name :=
      "CloudFormation-" +:+ stack_name +:+ "-" +:+ prefix 8 uuid in
    cf_role_arn ←
      (if String.eqb role_type "1" then
         PStr <$> create_cloudformation_role cf_role_name
       else if String.eqb role_type "2" then
         template_source ←
           input "Provide template from (1) Local file path or (2) Paste content? (1/2): ";
         template_content ←
           (if String.eqb template_source "1" then
              local_template_path ←
                input "Enter local path to CloudFormation template for analysis: ";
              attempt (Some <$> read local_template_path)
                (λ e, match e with
                      | FileNotFoundError =>
                          Some (say ("Template file not found: "
                                     +:+ local_template_path);;
                                mret None)
                      | _ => None
                      end)
            else if String.eqb template_source "2" then
              say "Paste your CloudFormation template content below and press Ctrl+D (Unix) or Ctrl+Z (Windows) when done:";;
              paste
            else
              say "Invalid option selected.";;
              mret None);
         cf_role_arn ←
           (if given template_content
            then analyze (show template_content) cf_role_name account_id
            else mret PNone);
         if negb (truthy cf_role_arn) then
           create_admin_role ← input fallback_prompt;
           if yes create_admin_role
           then PStr <$> create_cloudformation_role cf_role_name
           else mret cf_role_arn
         else mret cf_role_arn
       else
         say "Invalid option selected.";;
         mret PNone);
    (if truthy cf_role_arn
     then emit (Printed_value
                  "Created CloudFormation execution role with ARN: "
                  cf_role_arn)
     else mret ());;
    mret cf_role_arn
  else
    PStr <$> input "Enter existing CloudFormation role ARN: ".

(** Lines 627-718: the confirmation and the pipeline. *)
Definition deploy (pipeline_name : string) (definition : pyval) : Script () :=
  confirm ← input confirm_prompt;
  if yes confirm then
    say "Creating CodePipeline...";;
    attempt (
      response ← request (Create_pipeline definition)
                   (λ h, codepipeline_create_pipeline h definition);
      say "Pipeline created successfully!";;
      say ("Pipeline ARN: " +:+ default "N/A" response);;
      say "Pipeline will start automatically and deploy your stack.";;
      say "You can monitor the pipeline in the AWS CodePipeline console";;
      say "and the resulting stack in the AWS CloudFormation console.";;
      start_confirm ← input start_prompt;
      if yes start_confirm then
        request (Start_pipeline_execution pipeline_name)
          (λ h, codepipeline_start_pipeline_execution h pipeline_name);;
        say ("Pipeline execution started for " +:+ pipeline_name)
      else mret ())
    (λ e, match e with
          | Error ClientError =>
              Some (emit (Printed_error
                            "Error creating or starting pipeline: " e);;
                    exit 1)
          | _ => None
          end)
  else say "Deployment cancelled.".

(** Lines 500-718: what [main] does under its handler of [ClientError]. *)
Definition configure (aws_profile : string) (region : option string)
    (account_id : string) : Script () :=
  connections_response ← request List_connections list_connections;
  let connections := default [] connections_response in
  (if bool_decide (length connections = 0) then
     say "No CodeStar connections found. Please create a connection first.";;
     exit 1
   else mret ());;
  let connection_names := ConnectionName <$> connections in
  say "Available connections:";;
  selected_connection ← select_option connection_names;
  connection_arn ← (λ p, (p, connection_arn_of connections selected_connection));
  repository ← input "Enter repository name (e.g., username/repository): ";
  branch ← input "Enter branch name (e.g., main): ";
  stack_name ← input "Enter stack name: ";
  template_path ←
    input "Enter template path (relative to repository root, e.g., templates/my-template.yaml): ";
  use_deployment_file ←
    input "Do you want to use a deployment configuration file from the repository? (y/n): ";
  deployment_file_path ←
    (if yes use_deployment_file
     then Some <$> input "Enter deployment file path (relative to repository root, e.g., deployment-file.yaml): "
     else mret None);
  params_file_path ←
    (if negb (given deployment_file_path) then
       use_params_file ←
         input "Do you want to use a parameters file from the repository? (y/n): ";
       if yes use_params_file
       then Some <$> input "Enter parameters file path (relative to repository root, e.g., params/dev.json): "
       else mret None
     else mret None);
  uuid ← request Uuid4 (λ h, Normal (uuid4 h));
  let pipeline_role_name :=
    "CodePipeline-" +:+ stack_name +:+ "-" +:+ prefix 8 uuid in
  pipeline_role_arn ← create_pipeline_role pipeline_role_name account_id;
  say ("Created pipeline role with ARN: " +:+ pipeline_role_arn);;
  cf_role_arn ← execution_role stack_name account_id;
  iam_confirm ← input "Does this template require IAM capabilities? (y/n): ";
  let capabilities :=
    if yes iam_confirm then ["CAPABILITY_IAM"; "CAPABILITY_NAMED_IAM"]
    else [] in
  artifact_bucket ← create_artifact_bucket region;
  uuid ← request Uuid4 (λ h, Normal (uuid4 h));
  let pipeline_name := stack_name +:+ "-Pipeline-" +:+ prefix 8 uuid in
  say (newline +:+ "Deployment Details:");;
  say ("AWS Profile: " +:+ aws_profile);;
  say ("AWS Region: " +:+ show region);;
  say ("Connection: " +:+ selected_connection);;
  say ("Connection ARN: " +:+ connection_arn);;
  say ("Repository: " +:+ repository);;
  say ("Branch: " +:+ branch);;
  say ("Stack Name: " +:+ stack_name);;
  (if negb (given deployment_file_path) then
     say ("Template Path: " +:+ template_path);;
     (if given params_file_path
      then say ("Parameters File: " +:+ show params_file_path)
      else mret ())
   else say ("Deployment File: " +:+ show deployment_file_path));;
  say ("Pipeline Role ARN: " +:+ pipeline_role_arn);;
  emit (Printed_value "CloudFormation Role ARN: " cf_role_arn);;
  say ("Artifact Bucket: " +:+ artifact_bucket);;
  say ("Pipeline Name: " +:+ pipeline_name);;
  (if negb (bool_decide (length capabilities = 0))
   then say "IAM Capabilities: Enabled"
   else mret ());;
  deploy pipeline_name
    (pipeline_definition pipeline_name pipeline_role_arn artifact_bucket
       connection_arn repository branch stack_name template_path cf_role_arn
       capabilities params_file_path).

(** [sys.argv] is [script :: args]. *)
Definition main (script : string) (args : list string) : Script () :=
  match args with
  | [] =>
      say ("Usage: " +:+ script +:+ " <aws-profile>");;
      say "Please provide an AWS CLI profile name";;
      exit 1
  | aws_profile :: _ =>
      default_region ← request (New_session aws_profile None)
                         (λ h, new_session h aws_profile None);
      use_custom_region ← input (region_prompt default_region);
      region ←
        (if yes use_custom_region then
           request (Client "ec2") (λ h, client h "ec2");;
           regions ← request Describe_regions describe_regions;
           say "Available regions:";;
           selected_region ← select_option regions;
           say ("Using region: " +:+ selected_region);;
           mret (Some selected_region)
         else
           say ("Using default region: " +:+ show default_region);;
           mret default_region);
      request (New_session aws_profile (Some region))
        (λ h, new_session h aws_profile (Some region));;
      request (Client "iam") (λ h, client h "iam");;
      request (Client "sts") (λ h, client h "sts");;
      request (Client "cloudformation") (λ h, client h "cloudformation");;
      request (Client "codepipeline") (λ h, client h "codepipeline");;
      request (Client "codestar-connections")
        (λ h, client h "codestar-connections");;
      account_id ← request Get_caller_identity get_caller_identity;
      say ("Fetching CodeStar connections using profile: " +:+ aws_profile
           +:+ "...");;
      attempt (configure aws_profile region account_id)
        (λ e, match e with
              | Error ClientError =>
                  Some (emit (Printed_error "Error: " e);; exit 1)
              | _ => None
              end)
  end.

(** The process at its start, with what will be typed. *)
Definition start (keys : list (option string)) : process :=
  {| console := []; keyboard := keys; history := [] |}.

End script.

(** ** The naming rules the comment of [create_artifact_bucket] lists *)

Definition is_lower (c : ascii) : bool :=
  ((97 <=? nat_of_ascii c) && (nat_of_ascii c <=? 122))%nat.

Definition is_upper (c : ascii) : bool :=
  ((65 <=? nat_of_ascii c) && (nat_of_ascii c <=? 90))%nat.

Definition is_digit (c : ascii) : bool :=
  ((48 <=? nat_of_ascii c) && (nat_of_ascii c <=? 57))%nat.

Definition alnum (c : ascii) : bool := is_lower c || is_digit c.

(** A lowercase letter, a number, a dot or a hyphen. *)
Definition name_char (c : ascii) : bool :=
  alnum c || Ascii.eqb c "-" || Ascii.eqb c ".".

(** The same, or an uppercase letter. *)
Definition region_char (c : ascii) : bool := name_char c || is_upper c.

(** Numbers and dots only, as an IP address is. *)
Definition ip_like (name : string) : bool :=
  forallb (λ c, is_digit c || Ascii.eqb c ".") (chars name).

(** 3 to 63 characters, each a lowercase letter, a number, a dot or a hyphen,
    the first and the last a letter or a number, and not the format of an IP
    address. *)
Definition s3_name (name : string) : bool :=
  (3 <=? String.length name)%nat && (String.length name <=? 63)%nat &&
  forallb name_char (chars name) &&
  from_option alnum false (head (chars name)) &&
  from_option alnum false (last_char name) &&
  negb (ip_like name).

(** A character of ASCII: on strings of such characters the bytes are the
    characters, and [len], the slices and [lower] of [bucket_name] are
    Python's. *)
Definition is_ascii (c : ascii) : bool := (nat_of_ascii c <? 128)%nat.

(** A digit of a UUID as [str] gives it. *)
Definition is_hex (c : ascii) : bool :=
  is_digit c || ((97 <=? nat_of_ascii c) && (nat_of_ascii c <=? 102))%nat.

(** The characters of the name before it is cut to 63 characters. *)
Definition full_name (region account_id uuid : string) : list ascii :=
  chars "pipeline-" ++ (lower_char <$> chars region) ++ chars "-" ++
  chars (if (8 <? String.length account_id)%nat then suffix 8 account_id
         else account_id) ++
  chars "-" ++ (lower_char <$> take 8 (chars uuid)).

Definition cut_name (l : list ascii) : list ascii :=
  if (63 <? length l)%nat then take 63 l else l.

(** How often a prompt has been shown. *)
Definition asked_at (prompt : string) (o : output) : bool :=
  match o with
  | Asked q _ => String.eqb q prompt
  | _ => false
  end.

Definition times_asked (prompt : string) (shown : list output) : nat :=
  length (filter (λ o, asked_at prompt o = true) shown).

(** A line the loop of [select_option] turns down. *)
Definition turned_down `{env : Environment} (options : list string) (answer : string) : Prop :=
  match py_int answer with
  | Some choice => ¬ (1 ≤ choice ≤ Z.of_nat (length options))%Z
  | None => True
  end.

(** ** Requests that must be licensed *)

(** A guard names the prompts and the requests to watch, and what must hold
    of the process by the time one of them has happened: the licence of
    the prompts, the permit of each request. *)
Record guard : Type := {
  watched : string → bool;
  critical : action → bool;
  licence : process → Prop;
  permit : action → process → Prop
}.

(** A process only grows: more on the console, more requests. *)
Definition extends (p p' : process) : Prop :=
  console p `prefix_of` console p' ∧ history p `prefix_of` history p'.

Class Stable (P : process → Prop) : Prop :=
  stable : ∀ p p', extends p p' → P p → P p'.

(** A line of the console is the asking of a watched prompt. *)
Definition asked_any (g : guard) (o : output) : bool :=
  match o with
  | Asked q _ => watched g q
  | _ => false
  end.

(** From [p] to [p'] the process grew; if a watched prompt was asked on the
    way, the licence holds at [p'], and so does the permit of every critical
    request made on the way. *)
Definition respects (g : guard) (p p' : process) : Prop :=
  ∃ shown requests,
    console p' = console p ++ shown ∧
    history p' = history p ++ requests ∧
    ((∃ q a, Asked q a ∈ shown ∧ watched g q = true) → licence g p') ∧
    (∀ a, a ∈ requests → critical g a = true → permit g a p').

(** Run from a process where [G] holds, [m] respects the guard, and [Q]
    holds of its value and of the process it leaves. *)
Definition obeys (g : guard) (G : process → Prop) {A} (m : Script A)
    (Q : A → process → Prop) : Prop :=
  ∀ p, G p →
    respects g p (m p).1 ∧
    match (m p).2 with
    | Done x => Q x (m p).1
    | Failed _ => True
    end.

Definition monotone {A} (m : Script A) : Prop := ∀ p, extends p (m p).1.

(** The line typed at a prompt is on the console. *)
Definition asked (prompt answer : string) (p : process) : Prop :=
  Asked prompt (Some answer) ∈ console p.

(** A request was made, and the answer to it was [x]. *)
Definition answered {A} (a : action) (answer : list action → result A) (x : A)
    (p : process) : Prop :=
  ∃ before after, history p = before ++ a :: after ∧ answer before = Normal x.

(** The guard that watches nothing. *)
Definition unguarded : guard :=
  {| watched _ := false; critical _ := false; licence _ := True;
     permit _ _ := True |}.

(** ** What [main] asks leave for *)

(** The bucket that [create_artifact_bucket] asks for. *)
Definition bucket_created `{env : Environment} (region : option string) (name : string)
    (p : process) : Prop :=
  ∃ r, region = Some r ∧
    answered
      (Create_bucket name
         (if String.eqb r "us-east-1" then None else Some r))
      (λ h, s3_create_bucket h name
              (if String.eqb r "us-east-1" then None else Some r)) () p.

(** The role of the pipeline has been created and given its policy. *)
Definition pipeline_role_created `{env : Environment}
    (role_name account_id arn : string) (p : process) : Prop :=
  answered
    (Iam (Create_role role_name pipeline_trust_policy
            pipeline_role_description))
    (λ h, iam_create_role h role_name pipeline_trust_policy
            pipeline_role_description) arn p ∧
  answered
    (Iam (Put_role_policy role_name (role_name +:+ "Policy")
            (pipeline_policy account_id)))
    (λ h, iam_put_role_policy h role_name (role_name +:+ "Policy")
            (pipeline_policy account_id)) () p.

(** The pipeline is created and started on a "y" only. *)
Definition confirmed (p : process) : Prop :=
  ∃ answer, asked confirm_prompt answer p ∧ yes answer = true.

Definition deploys (a : action) : bool :=
  match a with
  | Create_pipeline _ | Start_pipeline_execution _ => true
  | _ => false
  end.

Definition consent_guard : guard := {|
  watched _ := false;
  critical := deploys;
  licence _ := True;
  permit _ := confirmed
|}.

(** The execution of the pipeline is started once the pipeline has been
    created, on a "y" only. *)
Definition start_chosen `{env : Environment} (p : process) : Prop :=
  (∃ definition response,
     answered (Create_pipeline definition)
       (λ h, codepipeline_create_pipeline h definition) response p) ∧
  ∃ answer, asked start_prompt answer p ∧ yes answer = true.

Definition start_guard `{env : Environment} : guard := {|
  watched _ := false;
  critical a :=
    match a with
    | Start_pipeline_execution _ => true
    | _ => false
    end;
  licence _ := True;
  permit _ := start_chosen
|}.

(** Administrator access is attached on the answer "1" or on a "y" to the
    fallback only. *)
Definition admin_chosen (p : process) : Prop :=
  asked role_type_prompt "1" p ∨
  ∃ answer, asked fallback_prompt answer p ∧ yes answer = true.

Definition admin_guard : guard := {|
  watched _ := false;
  critical a :=
    match a with
    | Attach_role_policy _ _ => true
    | _ => false
    end;
  licence _ := True;
  permit _ := admin_chosen
|}.

(** Requests that create or start something. *)
Definition creates (a : action) : bool :=
  match a with
  | Iam _ | Attach_role_policy _ _ | Create_bucket _ _ | Create_pipeline _
  | Start_pipeline_execution _ => true
  | _ => false
  end.

Definition connection_listed `{env : Environment} (p : process) : Prop :=
  ∃ connections_response,
    answered List_connections list_connections connections_response p ∧
    default [] connections_response ≠ [].

Definition connection_guard `{env : Environment} : guard := {|
  watched _ := false;
  critical := creates;
  licence _ := True;
  permit _ := connection_listed
|}.

(** By the time the confirmation is asked for. *)
Definition provisioned `{env : Environment} (p : process) : Prop :=
  ∃ role_name account_id arn region bucket,
    pipeline_role_created role_name account_id arn p ∧
    bucket_created region bucket p.

Definition provision_guard `{env : Environment} : guard := {|
  watched q := String.eqb q confirm_prompt;
  critical _ := false;
  licence := provisioned;
  permit _ _ := True
|}.

(** The bucket and the pipeline need a region: that of the profile, or one
    the user asks to pick. *)
Definition needs_region (a : action) : bool :=
  match a with
  | Create_bucket _ _ | Create_pipeline _ | Start_pipeline_execution _ => true
  | _ => false
  end.

Definition region_known `{env : Environment} (p : process) : Prop :=
  (∃ profile region,
     answered (New_session profile None)
       (λ h, new_session h profile None) (Some region) p) ∨
  (∃ default_region answer,
     asked (region_prompt default_region) answer p ∧ yes answer = true).

Definition region_guard `{env : Environment} : guard := {|
  watched _ := false;
  critical := needs_region;
  licence _ := True;
  permit _ := region_known
|}.

(** ** Declarations outside the data model *)

(** A declaration that is a mapping. *)
Definition is_mapping (declaration : pyval * pyval) : bool :=
  match declaration.2 with
  | PDict _ => true
  | _ => false
  end.

(** A mapping whose [Type] is truthy and is not a string. *)
Definition odd_type (declaration : pyval * pyval) : bool :=
  match declaration.2 with
  | PDict fields =>
      match dict_get fields "Type" with
      | Some (PStr _) | None => false
      | Some v => truthy v
      end
  | _ => false
  end.

(** ** Where the ARN of the execution role comes from *)

Definition existing_role_prompt : string :=
  "Enter existing CloudFormation role ARN: ".

(** [v] is the ARN with which [create_role] has answered in this process. *)
Definition role_of `{env : Environment} (v : pyval) (p : process) : Prop :=
  ∃ role_name document description arn,
    v = PStr arn ∧
    answered (Iam (Create_role role_name document description))
      (λ h, iam_create_role h role_name document description) arn p.

(** [v] is [None], a line typed when the ARN of an existing role was asked
    for, or the ARN of a role created. *)
Definition execution_role_arn `{env : Environment} (v : pyval) (p : process) :
    Prop :=
  v = PNone ∨
  (∃ answer, v = PStr answer ∧ asked existing_role_prompt answer p) ∨
  role_of v p.

(** ** The pipeline asked for *)

Definition repository_prompt : string :=
  "Enter repository name (e.g., username/repository): ".

Definition branch_prompt : string := "Enter branch name (e.g., main): ".

Definition stack_prompt : string := "Enter stack name: ".

Definition template_prompt : string :=
  "Enter template path (relative to repository root, e.g., templates/my-template.yaml): ".

(** A line has been printed. *)
Definition said (text : string) (p : process) : Prop :=
  Printed text ∈ console p.

(** After [heading] was printed, a line typed at the prompt of
    [select_option] was a number from 1 to the number of [options], and
    [x] is the option of that number.  The loop of [select_option] ends at
    the first such line, so that [x] is what the call made under that
    heading returned. *)
Definition chosen_after `{env : Environment} (heading : string)
    (options : list string) (x : string) (p : process) : Prop :=
  ∃ before answer choice after,
    console p = before ++ Asked select_prompt (Some answer) :: after ∧
    Printed heading ∈ before ∧
    py_int answer = Some choice ∧
    (1 ≤ choice ≤ Z.of_nat (length options))%Z ∧
    options !! Z.to_nat (choice - 1) = Some x.

Definition connections_heading : string := "Available connections:".

(** [definition] is the pipeline of lines 633-694 for what this process has
    been told and has created: the repository, the branch, the stack and
    the template path typed, the ARN line 515 finds for the name chosen
    among those of the connections listed, the role of the pipeline and the
    bucket created, and an execution role. *)
Definition described `{env : Environment} (definition : pyval) (p : process) :
    Prop :=
  ∃ pipeline_name role_name account_id pipeline_role_arn region
    artifact_bucket connections_response selected_connection connection_arn
    repository branch stack_name template_path cf_role_arn capabilities
    params_file_path,
    definition =
      pipeline_definition pipeline_name pipeline_role_arn artifact_bucket
        connection_arn repository branch stack_name template_path cf_role_arn
        capabilities params_file_path ∧
    pipeline_role_created role_name account_id pipeline_role_arn p ∧
    bucket_created region artifact_bucket p ∧
    answered List_connections list_connections connections_response p ∧
    chosen_after connections_heading
      (ConnectionName <$> default [] connections_response)
      selected_connection p ∧
    connection_arn_of (default [] connections_response) selected_connection =
      Done connection_arn ∧
    asked repository_prompt repository p ∧
    asked branch_prompt branch p ∧
    asked stack_prompt stack_name p ∧
    asked template_prompt template_path p ∧
    execution_role_arn cf_role_arn p.

Definition described_guard `{env : Environment} : guard := {|
  watched _ := false;
  critical a :=
    match a with
    | Create_pipeline _ => true
    | _ => false
    end;
  licence _ := True;
  permit a p :=
    match a with
    | Create_pipeline definition => described definition p
    | _ => True
    end
|}.

(** ** What the two role helpers are answered *)

(** One of the two requests of [create_pipeline_role] raises [e]:
    [create_role], or [put_role_policy] once [create_role] has returned. *)
Definition pipeline_role_raises `{env : Environment}
    (role_name account_id : string) (p : process) (e : exn) : Prop :=
  iam_create_role (history p) role_name pipeline_trust_policy
    pipeline_role_description = Raised e ∨
  (∃ arn, iam_create_role (history p) role_name pipeline_trust_policy
            pipeline_role_description = Normal arn) ∧
  iam_put_role_policy
    (history p ++ [Iam (Create_role role_name pipeline_trust_policy
                          pipeline_role_description)])
    role_name (role_name +:+ "Policy") (pipeline_policy account_id) =
    Raised e.

(** One of the two requests of [create_cloudformation_role] raises [e]:
    [create_role], or [attach_role_policy] once [create_role] has
    returned. *)
Definition admin_role_raises `{env : Environment} (role_name : string)
    (p : process) (e : exn) : Prop :=
  iam_create_role (history p) role_name cloudformation_trust_policy
    admin_role_description = Raised e ∨
  (∃ arn, iam_create_role (history p) role_name cloudformation_trust_policy
            admin_role_description = Normal arn) ∧
  iam_attach_role_policy
    (history p ++ [Iam (Create_role role_name cloudformation_trust_policy
                          admin_role_description)])
    role_name AdministratorAccess = Raised e.

(** ** A sample environment *)

Definition sample_connections : list connection :=
  [{| ConnectionName := "github"; ConnectionArn := "arn:aws:codestar-connections:eu-west-1:123456789012:connection/1" |};
   {| ConnectionName := "gitlab"; ConnectionArn := "arn:aws:codestar-connections:eu-west-1:123456789012:connection/2" |}].

(** The services answer without error; [int] knows the one-digit numbers. *)
Definition sample_environment : Environment := {|
  py_int s :=
    if String.eqb s "1" then Some 1%Z
    else if String.eqb s "2" then Some 2%Z
    else if String.eqb s "3" then Some 3%Z
    else None;
  new_session _ _ _ := Normal (Some "eu-west-1");
  client _ _ := Normal ();
  describe_regions _ := Normal ["eu-west-1"; "us-east-1"];
  get_caller_identity _ := Normal "123456789012";
  list_connections _ := Normal (Some sample_connections);
  iam_create_role _ n _ _ := Normal ("arn:aws:iam::123456789012:role/" +:+ n);
  iam_put_role_policy _ _ _ _ := Normal ();
  iam_attach_role_policy _ _ _ := Normal ();
  s3_create_bucket _ _ _ := Normal ();
  codepipeline_create_pipeline _ _ := Normal None;
  codepipeline_start_pipeline_execution _ _ := Normal ();
  read_file _ path :=
    if String.eqb path "template.yaml" then Done bucket_yaml
    else Failed FileNotFoundError;
  uuid4 _ := "1b9d6bcd-bbfd-4b2d-9b5d-ab8dfbbd4bed"
|}.

(** What a user types who keeps the region, picks the first connection,
    has the script create an administrator role, and confirms twice. *)
Definition sample_keys : list (option string) :=
  Some <$> ["n"; "1"; "octo/app"; "main"; "demo"; "template.yaml"; "n"; "n";
            "y"; "1"; "y"; "y"; "y"].

Definition sample_run : process * outcome () :=
  main (rt := sample_runtime) (env := sample_environment)
    "pipeline-deploy.py" ["dev"] (start sample_keys).

(** A document whose second resource has a number for its [Type], and a
    runtime that reads it as Python does. *)
Definition numbered_yaml : string :=
"Resources:
  Bucket:
    Type: AWS::S3::Bucket
  Queue:
    Type: 5".

Definition numbered_resources : list (pyval * pyval) :=
  [(PStr "Bucket", PDict [(PStr "Type", PStr "AWS::S3::Bucket")]);
   (PStr "Queue", PDict [(PStr "Type", PInt 5)])].

Definition numbered_runtime : Runtime := {|
  json_loads _ := Raised JSONDecodeError;
  yaml_safe_load s :=
    if String.eqb s numbered_yaml
    then Normal (resources_template numbered_resources)
    else Raised YAMLError;
  set_iter s := s;
  set_iter_perm s := reflexivity s
|}.

(** A process in which the lines [keys] are still to be read. *)
Definition typing (keys : list string) : process :=
  {| console := []; keyboard := Some <$> keys; history := [] |}.

(** Two documents neither of which decodes as JSON: a template whose
    [Resources] section is empty, which YAML reads as null, and a text with
    a date of month 99, on which [yaml.safe_load] raises the [ValueError] of
    [datetime.date]. *)
Definition null_resources_yaml : string := "Resources:".

Definition dated_yaml : string := "Description: 2001-99-99".

Definition edge_runtime : Runtime := {|
  json_loads _ := Raised JSONDecodeError;
  yaml_safe_load s :=
    if String.eqb s null_resources_yaml
    then Normal (PDict [(PStr "Resources", PNone)])
    else if String.eqb s dated_yaml then Raised OtherException
    else Raised YAMLError;
  set_iter s := s;
  set_iter_perm s := reflexivity s
|}.

(** * Properties *)

(** ** The order of strings *)

Lemma str_le_compare a b : str_le a b ↔ String.compare a b ≠ Gt.
Proof.
  unfold str_le, String.leb. destruct (String.compare a b); split; congruence.
Qed.

#[global] Instance str_le_total : Total str_le.
Proof. intros a b. apply String.leb_total. Qed.

#[global] Instance str_le_antisymm : AntiSymm (=) str_le.
Proof. intros a b. apply String.leb_antisym. Qed.

#[global] Instance str_le_trans : Transitive str_le.
Proof.
  intros a b c Hab Hbc. apply str_le_compare in Hab, Hbc. apply str_le_compare.
  intros Hac.
  assert (Hca : OrderedTypeEx.String_as_OT.lt c a).
  { apply OrderedTypeEx.String_as_OT.cmp_lt.
    unfold OrderedTypeEx.String_as_OT.cmp.
    rewrite String.compare_antisym, Hac. reflexivity. }
  destruct (String.compare a b) eqn:Eab; [| |congruence].
  - apply String.compare_eq_iff in Eab. subst b. contradiction.
  - apply OrderedTypeEx.String_as_OT.cmp_lt in Eab.
    pose proof (OrderedTypeEx.String_as_OT.lt_trans _ _ _ Hca Eab) as Hcb.
    apply OrderedTypeEx.String_as_OT.cmp_lt in Hcb.
    unfold OrderedTypeEx.String_as_OT.cmp in Hcb.
    rewrite String.compare_antisym, Hcb in Hbc. simpl in Hbc. congruence.
Qed.

Lemma sorted_Sorted l : Sorted str_le (sorted l).
Proof. apply Sorted_merge_sort, _. Qed.

Lemma sorted_Permutation l : sorted l ≡ₚ l.
Proof. apply merge_sort_Permutation. Qed.

(** The sorted list depends on the members only. *)
Lemma sorted_set_eq l k : l ≡ₚ k → sorted l = sorted k.
Proof.
  intros H. apply (Sorted_unique str_le); try apply sorted_Sorted.
  rewrite !sorted_Permutation. exact H.
Qed.

Lemma sorted_elem_of l x : x ∈ sorted l ↔ x ∈ l.
Proof. rewrite sorted_Permutation. reflexivity. Qed.

Lemma sorted_NoDup l : NoDup l → NoDup (sorted l).
Proof. rewrite sorted_Permutation. trivial. Qed.

(** ** Sets of strings *)

Lemma elem_of_str_set_add s x y : y ∈ str_set_add s x ↔ y ∈ s ∨ y = x.
Proof.
  unfold str_set_add. case_decide.
  - split; [auto|]. intros [?| ->]; trivial.
  - rewrite elem_of_app, list_elem_of_singleton. reflexivity.
Qed.

Lemma NoDup_str_set_add s x : NoDup s → NoDup (str_set_add s x).
Proof.
  intros Hs. unfold str_set_add. case_decide; [trivial|].
  apply NoDup_app. repeat split; trivial.
  - intros y Hy ->%list_elem_of_singleton. contradiction.
  - apply NoDup_singleton.
Qed.

Lemma elem_of_str_set_update l s y : y ∈ str_set_update s l ↔ y ∈ s ∨ y ∈ l.
Proof.
  unfold str_set_update. revert s.
  induction l as [|x l IH]; intros s; simpl.
  - rewrite elem_of_nil. tauto.
  - rewrite IH, elem_of_str_set_add, elem_of_cons. tauto.
Qed.

Lemma NoDup_str_set_update l s : NoDup s → NoDup (str_set_update s l).
Proof.
  unfold str_set_update. revert s.
  induction l as [|x l IH]; intros s Hs; simpl; [trivial|].
  apply IH, NoDup_str_set_add, Hs.
Qed.

Lemma elem_of_str_set l y : y ∈ str_set l ↔ y ∈ l.
Proof. unfold str_set. rewrite elem_of_str_set_update, elem_of_nil. tauto. Qed.

Lemma NoDup_str_set l : NoDup (str_set l).
Proof. apply NoDup_str_set_update, NoDup_nil_2. Qed.

Lemma str_set_nil l : str_set l = [] ↔ l = [].
Proof.
  split; [|intros ->; reflexivity].
  destruct l as [|x l]; [trivial|]. intros H.
  assert (Hx : x ∈ str_set (x :: l)) by (apply elem_of_str_set; left).
  rewrite H in Hx. inversion Hx.
Qed.

Lemma elem_of_baseline p :
  p ∈ baseline ↔ p ∈ CLOUDFORMATION_PERMISSIONS ∨ p ∈ PIPELINE_PERMISSIONS.
Proof. unfold baseline. rewrite elem_of_str_set_update, elem_of_str_set. tauto. Qed.

Lemma NoDup_baseline : NoDup baseline.
Proof. apply NoDup_str_set_update, NoDup_str_set. Qed.

(** ** The resolved set *)

Lemma NoDup_foldl_step names acc :
  NoDup acc → NoDup (foldl needed_step acc names).
Proof.
  revert acc. induction names as [|t names IH]; intros acc Hacc; simpl; [trivial|].
  apply IH. unfold needed_step.
  destruct (CFN_RESOURCE_TO_IAM_MAPPING !! t); [|trivial].
  apply NoDup_str_set_update, Hacc.
Qed.

Lemma elem_of_foldl_step names acc p :
  p ∈ foldl needed_step acc names ↔
  p ∈ acc ∨ ∃ t permissions,
    t ∈ names ∧ CFN_RESOURCE_TO_IAM_MAPPING !! t = Some permissions ∧
    p ∈ permissions.
Proof.
  revert acc. induction names as [|t names IH]; intros acc; simpl.
  - split; [auto|]. intros [?|(t & ? & Ht & _)]; [trivial|inversion Ht].
  - rewrite IH. unfold needed_step.
    destruct (CFN_RESOURCE_TO_IAM_MAPPING !! t) as [permissions|] eqn:Et.
    + rewrite elem_of_str_set_update. split.
      * intros [[?|?]|(t' & q & ? & ? & ?)]; eauto 8 using list_elem_of_here.
        right. exists t', q. eauto using list_elem_of_further.
      * intros [?|(t' & q & [->|?]%elem_of_cons & Hq & ?)]; eauto 8.
        rewrite Et in Hq. injection Hq as ->. auto.
    + split.
      * intros [?|(t' & q & ? & ? & ?)]; [auto|].
        right. exists t', q. eauto using list_elem_of_further.
      * intros [?|(t' & q & [->|?]%elem_of_cons & Hq & ?)]; eauto 8.
        congruence.
Qed.

Lemma NoDup_needed_for names : NoDup (needed_for names).
Proof. apply NoDup_foldl_step, NoDup_baseline. Qed.

Lemma elem_of_needed_for names p :
  p ∈ needed_for names ↔
  p ∈ CLOUDFORMATION_PERMISSIONS ∨ p ∈ PIPELINE_PERMISSIONS ∨
  ∃ t permissions,
    t ∈ names ∧ CFN_RESOURCE_TO_IAM_MAPPING !! t = Some permissions ∧
    p ∈ permissions.
Proof.
  unfold needed_for.
  rewrite elem_of_foldl_step, elem_of_baseline. tauto.
Qed.

Lemma empty_string_unmapped : CFN_RESOURCE_TO_IAM_MAPPING !! "" = None.
Proof. vm_compute. reflexivity. Qed.

(** The resolved set depends on the members of the set of types only. *)
Lemma needed_for_members names names' :
  (∀ t, t ∈ names ↔ t ∈ names') → needed_for names ≡ₚ needed_for names'.
Proof.
  intros H. apply NoDup_Permutation; try apply NoDup_needed_for.
  intros p. rewrite !elem_of_needed_for.
  split; (intros [?|[?|(t & q & Ht & ? & ?)]]; [auto|auto|]);
    right; right; exists t, q; (split; [apply H, Ht|auto]).
Qed.

Lemma elem_of_unmapped names t :
  t ∈ unmapped names ↔ t ∈ names ∧ CFN_RESOURCE_TO_IAM_MAPPING !! t = None.
Proof. unfold unmapped. rewrite list_elem_of_filter. tauto. Qed.

(** ** The blocks of the function *)

Lemma bind_unfold {A B} (m : M A) (f : A → M B) w :
  (m ≫= f) w =
  match m w with
  | (w', Value a) => f a w'
  | (w', Raise e) => (w', Raise e)
  | (w', Return v) => (w', Return v)
  end.
Proof. reflexivity. Qed.

Lemma try_except_unfold {A} (body : M A) handler w :
  try_except body handler w =
  match body w with
  | (w', Raise e) =>
      match handler e with
      | Some h => h w'
      | None => (w', Raise e)
      end
  | r => r
  end.
Proof. reflexivity. Qed.

Section blocks.
Context `{rt : Runtime}.

Lemma world_eta w : {| stdout := stdout w; iam_calls := iam_calls w |} = w.
Proof. destruct w; reflexivity. Qed.

Lemma parse_template_spec template_content w :
  parse_template template_content w =
  match json_loads template_content with
  | Normal template => (w, Value template)
  | Raised JSONDecodeError =>
      match yaml_safe_load template_content with
      | Normal template => (w, Value template)
      | Raised YAMLError =>
          ({| stdout := stdout w ++ [Error_parsing_template_content YAMLError];
              iam_calls := iam_calls w |}, Return PNone)
      | Raised e => (w, Raise e)
      end
  | Raised e => (w, Raise e)
  end.
Proof.
  unfold parse_template, try_except, lift.
  destruct (json_loads template_content) as [t|[]]; try reflexivity.
  destruct (yaml_safe_load template_content) as [t|[]]; reflexivity.
Qed.

Lemma extract_resource_types_spec template w :
  extract_resource_types template w =
  match py_get template "Resources" (PDict []) with
  | Normal resources =>
      match py_items resources with
      | Normal items => lift (collect_types items []) w
      | Raised e => (w, Raise e)
      end
  | Raised e => (w, Raise e)
  end.
Proof.
  unfold extract_resource_types, mbind, M_bind.
  destruct (py_get template "Resources" (PDict [])) as [resources|e]; simpl;
    [|reflexivity].
  destruct (py_items resources) as [items|e]; simpl; [|reflexivity].
  generalize (@nil pyval) as acc.
  induction items as [|[name resource_def] items IH]; intros acc; simpl;
    [reflexivity|].
  unfold mbind, M_bind.
  destruct (py_get resource_def "Type" PNone) as [resource_type|e]; simpl;
    [|reflexivity].
  destruct (truthy resource_type); simpl; [|apply IH].
  destruct (set_add resource_type acc) as [acc'|e]; simpl; [apply IH|reflexivity].
Qed.

Lemma map_permissions_spec names w :
  map_permissions names w =
  ({| stdout := stdout w ++ (Warning_no_permission_mapping <$> unmapped names);
      iam_calls := iam_calls w |}, Value (needed_for names)).
Proof.
  unfold map_permissions, needed_for. fold baseline.
  generalize baseline as acc. revert w.
  induction names as [|t names IH]; intros w acc.
  - cbn [for_fold foldl]. change (unmapped []) with (@nil string).
    rewrite fmap_nil, app_nil_r, world_eta. reflexivity.
  - cbn [for_fold foldl]. rewrite bind_unfold.
    unfold unmapped. rewrite filter_cons. fold (unmapped names).
    destruct (CFN_RESOURCE_TO_IAM_MAPPING !! t) as [permissions|] eqn:Et.
    + rewrite decide_False by discriminate.
      unfold mret at 1. unfold M_ret at 1. rewrite IH.
      replace (needed_step acc t) with (str_set_update acc permissions)
        by (unfold needed_step; rewrite Et; reflexivity).
      reflexivity.
    + rewrite decide_True by reflexivity.
      rewrite bind_unfold. unfold print at 1. unfold mret at 1.
      unfold M_ret at 1. rewrite IH. cbn [stdout iam_calls].
      replace (needed_step acc t) with acc
        by (unfold needed_step; rewrite Et; reflexivity).
      rewrite fmap_cons, <- app_assoc. reflexivity.
Qed.

(** The role-creation step returns, calls [create_role] first, prints lines
    of its own only, and calls [put_role_policy] when [create_role] returned,
    handing it the resolved set in the iteration order of the set. *)
Lemma finish_spec role_name iam needed w :
  ∃ tail v,
    finish role_name iam needed w =
      ({| stdout := stdout w ++ tail;
          iam_calls := iam_calls w ++
            Create_role role_name trust_policy role_description ::
            match create_role iam role_name trust_policy role_description with
            | Normal _ =>
                [Put_role_policy role_name (role_name +:+ "Policy")
                   (permission_policy needed)]
            | Raised _ => []
            end |}, Normal v) ∧
    forallb creation_line tail = true.
Proof.
  unfold finish, call, try_except, create_execution_role, try_except, invoke,
    mbind, M_bind, lift, print, return_. simpl.
  destruct (create_role iam role_name trust_policy _) as [response|[]]; simpl;
    try (eexists [_], _; split; reflexivity).
  destruct (put_role_policy iam role_name _ _) as [?|[]]; simpl;
    try (eexists [_], _; rewrite <- !app_assoc; split; reflexivity).
  destruct (py_subscript response "Role") as [role|[]]; simpl;
    try (eexists [_; _; _], _; rewrite <- !app_assoc; split; reflexivity).
  destruct (py_subscript role "Arn") as [arn|[]]; simpl;
    try (eexists [_; _; _], _; rewrite <- !app_assoc; split; reflexivity).
  eexists [_; _], _; rewrite <- !app_assoc; split; reflexivity.
Qed.

End blocks.

(** ** The run as a whole *)

Section runs.
Context `{rt : Runtime}.

(** The run in terms of what the two parsers give. *)
Lemma run_cases template_content role_name iam account_id :
  run template_content role_name iam account_id =
  match json_loads template_content with
  | Normal template => analyze_parsed template role_name iam
  | Raised JSONDecodeError =>
      match yaml_safe_load template_content with
      | Normal template => analyze_parsed template role_name iam
      | Raised YAMLError => parse_failure
      | Raised e => analysis_error e
      end
  | Raised e => analysis_error e
  end.
Proof.
  unfold run, analyze_template_content_and_create_role, analyze_parsed, call.
  rewrite bind_unfold. unfold print at 1. cbn [stdout iam_calls initial app].
  rewrite !try_except_unfold, bind_unfold, parse_template_spec.
  cbn [stdout iam_calls initial app].
  destruct (json_loads template_content) as [t|[]]; try reflexivity.
  destruct (yaml_safe_load template_content) as [t|[]]; reflexivity.
Qed.

Lemma run_parses template_content template role_name iam account_id :
  parses_to template_content template →
  run template_content role_name iam account_id =
  analyze_parsed template role_name iam.
Proof.
  intros [H|[H1 H2]]; rewrite run_cases.
  - rewrite H. reflexivity.
  - rewrite H1, H2. reflexivity.
Qed.

Lemma analyze_parsed_spec template role_name iam :
  analyze_parsed template role_name iam =
  match py_get template "Resources" (PDict []) with
  | Normal resources =>
      match py_items resources with
      | Normal items => resolve_collected (collect_types items []) role_name iam
      | Raised e => analysis_error e
      end
  | Raised e => analysis_error e
  end.
Proof.
  unfold analyze_parsed, call.
  rewrite try_except_unfold, bind_unfold, extract_resource_types_spec.
  destruct (py_get template "Resources" (PDict [])) as [resources|e];
    [|reflexivity].
  destruct (py_items resources) as [items|e]; [|reflexivity].
  destruct (collect_types items []) as [[|x s]|e]; try reflexivity.
  unfold lift, resolve_collected, report_resource_types.
  change (negb (bool_decide (length (x :: s) = 0))) with true. cbv iota.
  destruct (str_members (x :: s)) as [members|]; [|reflexivity].
  rewrite !bind_unfold. unfold print at 1. cbv beta iota.
  unfold mret at 1. unfold M_ret at 1.
  rewrite !bind_unfold, map_permissions_spec.
  unfold print at 1. cbn [stdout iam_calls app].
  unfold finish, call. rewrite try_except_unfold, bind_unfold. reflexivity.
Qed.

End runs.

(** ** Valid templates *)

Lemma str_members_fmap l : str_members (PStr <$> l) = Some l.
Proof. induction l as [|x l IH]; csimpl; [reflexivity|]. rewrite IH. reflexivity. Qed.

Lemma set_add_str t acc :
  set_add (PStr t) (PStr <$> acc) = Normal (PStr <$> str_set_add acc t).
Proof.
  unfold set_add, str_set_add. cbn [hashable]. f_equal.
  assert (H : existsb (hashable_eqb (PStr t)) (PStr <$> acc) = bool_decide (t ∈ acc)).
  { induction acc as [|x acc IH]; csimpl; [reflexivity|]. rewrite IH.
    destruct (String.eqb_spec t x) as [->|Hne]; simpl.
    - symmetry. apply bool_decide_eq_true. left.
    - apply bool_decide_ext. rewrite elem_of_cons. tauto. }
  rewrite H. destruct (decide (t ∈ acc)) as [Hin|Hin].
  - rewrite bool_decide_eq_true_2 by assumption. reflexivity.
  - rewrite bool_decide_eq_false_2 by assumption.
    rewrite fmap_app. reflexivity.
Qed.

Lemma collect_types_declared items tys acc :
  declared_types items = Some tys →
  collect_types items (PStr <$> acc) =
  Normal (PStr <$> str_set_update acc tys).
Proof.
  revert tys acc.
  induction items as [|[name resource_def] items IH]; intros tys acc; simpl.
  - intros [= <-]. reflexivity.
  - unfold declared_type.
    destruct (py_get resource_def "Type" PNone) as [v|e]; [|discriminate].
    destruct (truthy v) eqn:Ev.
    + destruct v; try discriminate.
      destruct (declared_types items) as [l|]; [|discriminate].
      intros [= <-]. rewrite set_add_str.
      exact (IH l (str_set_add acc s) eq_refl).
    + destruct (declared_types items) as [l|]; [|discriminate].
      intros [= <-]. exact (IH l acc eq_refl).
Qed.

Lemma declared_types_app l1 l2 :
  declared_types (l1 ++ l2) =
  t1 ← declared_types l1; t2 ← declared_types l2; Some (t1 ++ t2).
Proof.
  induction l1 as [|[name d] l1 IH]; simpl.
  - destruct (declared_types l2); reflexivity.
  - rewrite IH.
    destruct (declared_type d) as [[t|]|]; [| |reflexivity];
      destruct (declared_types l1) as [t1|]; simpl; try reflexivity;
      destruct (declared_types l2); reflexivity.
Qed.

Lemma declared_types_Permutation l l' tys :
  l ≡ₚ l' → declared_types l = Some tys →
  ∃ tys', declared_types l' = Some tys' ∧ tys ≡ₚ tys'.
Proof.
  intros H. revert tys.
  induction H as [|[n d] l l' H IH|[n1 d1] [n2 d2] l|l l' l'' H1 IH1 H2 IH2];
    intros tys; simpl.
  - intros [= <-]. exists []. auto.
  - destruct (declared_type d) as [[t|]|]; [| |discriminate];
      (destruct (declared_types l) as [k|] eqn:El; [|discriminate]);
      intros [= <-]; destruct (IH k eq_refl) as (k' & -> & Hk).
    + exists (t :: k'). split; [reflexivity|]. constructor. exact Hk.
    + exists k'. auto.
  - destruct (declared_type d1) as [[t1|]|], (declared_type d2) as [[t2|]|];
      try discriminate;
      (destruct (declared_types l) as [k|]; [|discriminate]);
      intros [= <-]; eexists; (split; [reflexivity|]);
      try reflexivity.
    apply perm_swap.
  - intros E. destruct (IH1 _ E) as (k & Ek & Hk).
    destruct (IH2 _ Ek) as (k' & Ek' & Hk'). exists k'. split; [exact Ek'|].
    etransitivity; eassumption.
Qed.

(** The loop passes over a declaration without a [Type], or with the empty
    string for it, as if it were not there. *)
Lemma collect_types_typeless items acc :
  collect_types (filter (λ d, ¬ typeless d) items) acc = collect_types items acc.
Proof.
  revert acc. induction items as [|[name d] items IH]; intros acc; [reflexivity|].
  rewrite filter_cons. case_decide as Hd.
  - simpl. destruct (py_get d "Type" PNone) as [v|e]; [|reflexivity].
    destruct (truthy v); [|apply IH].
    destruct (set_add v acc); [apply IH|reflexivity].
  - rewrite IH. unfold typeless in Hd. simpl in *.
    destruct d as [| | | | |?|fields| | |]; try done. simpl.
    destruct (dict_get fields "Type") as [[]|]; try done.
    destruct s; done.
Qed.

Section valid.
Context `{rt : Runtime}.

Lemma analyze_parsed_resources template resources role_name iam :
  py_get template "Resources" (PDict []) = Normal (PDict resources) →
  analyze_parsed template role_name iam =
  resolve_collected (collect_types resources []) role_name iam.
Proof. intros H. rewrite analyze_parsed_spec, H. reflexivity. Qed.

Lemma run_template_of template_content resources role_name iam account_id :
  template_of template_content resources →
  run template_content role_name iam account_id =
  resolve_collected (collect_types resources []) role_name iam.
Proof.
  intros (t & Hparse & Hres).
  rewrite (run_parses _ t) by exact Hparse.
  apply analyze_parsed_resources, Hres.
Qed.

Lemma resolve_collected_strs members role_name iam :
  members ≠ [] →
  resolve_collected (Normal (PStr <$> members)) role_name iam =
  finish role_name iam (needed_for (set_iter members))
    {| stdout :=
         [Analyzing_template_content;
          Found_resource_types (set_iter members)] ++
         (Warning_no_permission_mapping <$> unmapped (set_iter members)) ++
         [Required_permissions (sorted (needed_for (set_iter members)))];
       iam_calls := [] |}.
Proof.
  intros H. unfold resolve_collected. rewrite str_members_fmap.
  destruct members; [contradiction|reflexivity].
Qed.

(** Whatever else a set with a member that is not a string holds, the run
    ends in the catch-all handler with the [TypeError] of the [join]. *)
Lemma resolve_collected_non_str resource_types role_name iam :
  resource_types ≠ [] →
  str_members resource_types = None →
  resolve_collected (Normal resource_types) role_name iam =
  analysis_error TypeError.
Proof.
  intros Hne Hs. unfold resolve_collected. rewrite Hs.
  destruct resource_types; [contradiction|reflexivity].
Qed.

Lemma omap_creation_lines {B} (f : line → option B) tail :
  (∀ l, creation_line l = true → f l = None) →
  forallb creation_line tail = true → omap f tail = [].
Proof.
  intros Hf. induction tail as [|l tail IH]; simpl; [reflexivity|].
  intros [Hl Ht]%andb_true_iff. rewrite (Hf l Hl). apply IH, Ht.
Qed.

(** What can be read from the run when the types resolve. *)
Lemma resolved_run role_name iam names :
  let needed := needed_for names in
  let r := finish role_name iam needed
             {| stdout :=
                  [Analyzing_template_content; Found_resource_types names] ++
                  (Warning_no_permission_mapping <$> unmapped names) ++
                  [Required_permissions (sorted needed)];
                iam_calls := [] |} in
  required_permissions r.1 = Some (sorted needed) ∧
  unknown_types r.1 = unmapped names ∧
  reached_role_creation r.1 = true ∧
  policy_actions r.1 =
    match create_role iam role_name trust_policy role_description with
    | Normal _ => Some (set_iter needed)
    | Raised _ => None
    end.
Proof.
  intros needed r. subst r.
  destruct (finish_spec role_name iam needed
    {| stdout :=
         [Analyzing_template_content; Found_resource_types names] ++
         (Warning_no_permission_mapping <$> unmapped names) ++
         [Required_permissions (sorted needed)];
       iam_calls := [] |}) as (tail & v & -> & Htail).
  cbn [fst snd stdout iam_calls].
  repeat split.
  - unfold required_permissions. cbn [stdout]. rewrite !omap_app.
    rewrite (omap_creation_lines _ tail) by (trivial; intros []; easy).
    simpl. induction (unmapped names); simpl; trivial.
  - unfold unknown_types. cbn [stdout]. rewrite !omap_app.
    rewrite (omap_creation_lines _ tail) by (trivial; intros []; easy).
    simpl. rewrite app_nil_r. induction (unmapped names) as [|t l IH]; simpl;
      [reflexivity|]. f_equal. exact IH.
  - unfold policy_actions. cbn [iam_calls].
    destruct (create_role iam role_name trust_policy role_description);
      simpl; [|reflexivity].
    unfold document_actions. simpl. apply str_members_fmap.
Qed.

Lemma valid_run template_content resources tys role_name iam account_id :
  template_of template_content resources →
  declared_types resources = Some tys →
  tys ≠ [] →
  let w := (run template_content role_name iam account_id).1 in
  let names := set_iter (str_set tys) in
  required_permissions w = Some (sorted (needed_for names)) ∧
  unknown_types w = unmapped names ∧
  reached_role_creation w = true ∧
  policy_actions w =
    match create_role iam role_name trust_policy role_description with
    | Normal _ => Some (set_iter (needed_for names))
    | Raised _ => None
    end.
Proof.
  intros Ht Hd Hne w names. subst w.
  rewrite (run_template_of _ resources) by exact Ht.
  change (@nil pyval) with (PStr <$> @nil string).
  rewrite (collect_types_declared _ tys) by exact Hd.
  rewrite resolve_collected_strs by (rewrite str_set_nil; exact Hne).
  apply resolved_run.
Qed.

Lemma empty_run template_content resources role_name iam account_id :
  template_of template_content resources →
  declared_types resources = Some [] →
  run template_content role_name iam account_id = empty_template.
Proof.
  intros Ht Hd. rewrite (run_template_of _ resources) by exact Ht.
  change (@nil pyval) with (PStr <$> @nil string).
  rewrite (collect_types_declared _ []) by exact Hd. reflexivity.
Qed.

End valid.

Section claims.
Context `{rt : Runtime}.

Lemma valid_resolves template_content resources tys role_name iam account_id :
  template_of template_content resources →
  declared_types resources = Some tys →
  tys ≠ [] →
  resolves_to (run template_content role_name iam account_id).1
    (sorted (needed_for (set_iter (str_set tys)))).
Proof.
  intros Ht Hd Hne.
  destruct (valid_run _ _ _ role_name iam account_id Ht Hd Hne)
    as (Hreq & _ & _ & Hact).
  split; [exact Hreq|]. split.
  - apply sorted_NoDup, NoDup_needed_for.
  - intros actions Ha. rewrite Ha in Hact.
    destruct (create_role iam role_name trust_policy role_description);
      [|discriminate].
    injection Hact as ->. rewrite sorted_Permutation. apply set_iter_perm.
Qed.

Lemma elem_of_resolved tys p :
  p ∈ sorted (needed_for (set_iter (str_set tys))) ↔
  p ∈ CLOUDFORMATION_PERMISSIONS ∨ p ∈ PIPELINE_PERMISSIONS ∨
  ∃ t permissions,
    t ∈ tys ∧ CFN_RESOURCE_TO_IAM_MAPPING !! t = Some permissions ∧
    p ∈ permissions.
Proof.
  rewrite sorted_elem_of, elem_of_needed_for.
  setoid_rewrite (set_iter_perm (str_set tys)).
  setoid_rewrite elem_of_str_set. reflexivity.
Qed.

Lemma declared_type_str fields t :
  dict_get fields "Type" = Some (PStr t) → t ≠ "" →
  declared_type (PDict fields) = Some (Some t).
Proof.
  intros H Ht. unfold declared_type. simpl. rewrite H. simpl.
  destruct (String.eqb_spec t ""); [contradiction|reflexivity].
Qed.

(** C1: a template whose only resource is an ['AWS::S3::Bucket'] resolves to
    the union of the two baseline lists and of the table entry of that type,
    24 permissions without duplicates, although five s3 actions are both in
    the pipeline baseline and in the entry. *)
Theorem C1_bucket_union template_content name fields role_name iam account_id :
  template_of template_content [(name, PDict fields)] →
  dict_get fields "Type" = Some (PStr "AWS::S3::Bucket") →
  ∃ entry permissions,
    CFN_RESOURCE_TO_IAM_MAPPING !! "AWS::S3::Bucket" = Some entry ∧
    resolves_to (run template_content role_name iam account_id).1 permissions ∧
    (∀ p, p ∈ permissions ↔
          p ∈ CLOUDFORMATION_PERMISSIONS ∨ p ∈ PIPELINE_PERMISSIONS ∨
          p ∈ entry) ∧
    (∀ p, p ∈ ["s3:CreateBucket"; "s3:DeleteBucket"; "s3:GetObject";
               "s3:PutObject"; "s3:DeleteObject"] →
          p ∈ PIPELINE_PERMISSIONS ∧ p ∈ entry) ∧
    length permissions = 24.
Proof.
  intros Ht Hty.
  assert (Hd : declared_types [(name, PDict fields)] = Some ["AWS::S3::Bucket"]).
  { simpl. rewrite (declared_type_str _ _ Hty) by discriminate. reflexivity. }
  assert (Hentry : ∃ entry,
    CFN_RESOURCE_TO_IAM_MAPPING !! "AWS::S3::Bucket" = Some entry ∧
    (∀ p, p ∈ ["s3:CreateBucket"; "s3:DeleteBucket"; "s3:GetObject";
               "s3:PutObject"; "s3:DeleteObject"] →
          p ∈ PIPELINE_PERMISSIONS ∧ p ∈ entry) ∧
    length (needed_for ["AWS::S3::Bucket"]) = 24).
  { eexists. split; [vm_compute; reflexivity|]. split; [|vm_compute; reflexivity].
    intros p Hp. rewrite !list_elem_of_In in *. simpl in *. intuition auto. }
  destruct Hentry as (entry & Hentry & Hoverlap & Hlen).
  exists entry, (sorted (needed_for (set_iter (str_set ["AWS::S3::Bucket"])))).
  split; [exact Hentry|]. split.
  { apply (valid_resolves _ _ _ _ _ _ Ht Hd). discriminate. }
  split; [|split; [exact Hoverlap|]].
  - intros p. rewrite elem_of_resolved. split.
    + intros [?|[?|(t & q & ->%list_elem_of_singleton & Hq & ?)]]; auto.
      rewrite Hentry in Hq. injection Hq as <-. auto.
    + intros [?|[?|?]]; auto. right; right.
      exists "AWS::S3::Bucket", entry. split; [left|auto].
  - rewrite sorted_Permutation.
    assert (E : set_iter (str_set ["AWS::S3::Bucket"]) = ["AWS::S3::Bucket"]).
    { apply Permutation_singleton_r, set_iter_perm. }
    rewrite E. exact Hlen.
Qed.

(** C2: a template that parses and declares at least one resource with a
    [Type] resolves to a set that contains both baseline lists, whatever the
    types are. *)
Theorem C2_baseline_included template_content resources tys role_name iam
    account_id :
  template_of template_content resources →
  declared_types resources = Some tys →
  tys ≠ [] →
  ∃ permissions,
    resolves_to (run template_content role_name iam account_id).1 permissions ∧
    CLOUDFORMATION_PERMISSIONS ⊆ permissions ∧
    PIPELINE_PERMISSIONS ⊆ permissions.
Proof.
  intros Ht Hd Hne. eexists. split; [apply (valid_resolves _ _ _ _ _ _ Ht Hd Hne)|].
  split; intros p Hp; apply elem_of_resolved; auto.
Qed.

(** C3: with one resource of a type of the table and one of a type that is
    not in it, the permissions are resolved and handed to the role-creation
    step: they are the two baseline lists and the entry of the known type,
    and the only warning names the other type. *)
Theorem C3_unknown_type_tolerated template_content resources name1 fields1
    name2 fields2 known entry unknown role_name iam account_id :
  template_of template_content resources →
  resources ≡ₚ [(name1, PDict fields1); (name2, PDict fields2)] →
  dict_get fields1 "Type" = Some (PStr known) →
  CFN_RESOURCE_TO_IAM_MAPPING !! known = Some entry →
  dict_get fields2 "Type" = Some (PStr unknown) →
  unknown ≠ "" →
  CFN_RESOURCE_TO_IAM_MAPPING !! unknown = None →
  let w := (run template_content role_name iam account_id).1 in
  reached_role_creation w = true ∧
  unknown_types w = [unknown] ∧
  ∃ permissions,
    resolves_to w permissions ∧
    ∀ p, p ∈ permissions ↔
         p ∈ CLOUDFORMATION_PERMISSIONS ∨ p ∈ PIPELINE_PERMISSIONS ∨
         p ∈ entry.
Proof.
  intros Ht Hperm Hk Hentry Hu Hune Hnone w.
  assert (Hkne : known ≠ "").
  { intros ->. rewrite empty_string_unmapped in Hentry. discriminate Hentry. }
  assert (Hd0 : declared_types [(name1, PDict fields1); (name2, PDict fields2)]
                = Some [known; unknown]).
  { simpl. rewrite (declared_type_str _ _ Hk), (declared_type_str _ _ Hu);
      auto. }
  destruct (declared_types_Permutation _ _ _ (symmetry Hperm) Hd0)
    as (tys & Hd & Htys).
  assert (Hne : tys ≠ []).
  { intros ->. apply Permutation_nil_r in Htys. discriminate. }
  assert (Hmem : ∀ t, t ∈ tys ↔ t = known ∨ t = unknown).
  { intros t. rewrite <- Htys, !elem_of_cons, elem_of_nil. tauto. }
  destruct (valid_run _ _ _ role_name iam account_id Ht Hd Hne)
    as (_ & Hunk & Hreach & _).
  split; [exact Hreach|]. split.
  - subst w. rewrite Hunk. apply Permutation_singleton_r.
    apply NoDup_Permutation.
    + apply NoDup_filter. rewrite set_iter_perm. apply NoDup_str_set.
    + apply NoDup_singleton.
    + intros t. rewrite elem_of_unmapped, set_iter_perm, elem_of_str_set, Hmem,
        list_elem_of_singleton.
      split; [|intros ->; auto].
      intros [[->| ->] H]; [congruence|reflexivity].
  - eexists. split; [apply (valid_resolves _ _ _ _ _ _ Ht Hd Hne)|].
    intros p. rewrite elem_of_resolved. split.
    + intros [?|[?|(t & q & [->| ->]%Hmem & Hq & ?)]]; auto; [|congruence].
      rewrite Hentry in Hq. injection Hq as <-. auto.
    + intros [?|[?|?]]; auto. right; right.
      exists known, entry. rewrite Hmem. auto.
Qed.


(** What the role-creation step reports. *)
Lemma finish_reported role_name iam needed w :
  ∃ v, (finish role_name iam needed w).2 = Normal v ∧
    match reported (finish role_name iam needed w) with
    | Some (AnalysisError _) | Some (RoleCreationError ClientError) => v = PNone
    | Some RoleCreated => True
    | _ => False
    end.
Proof.
  unfold reported, finish, call, try_except, create_execution_role, try_except,
    invoke, mbind, M_bind, lift, print, return_. simpl.
  destruct (create_role iam role_name trust_policy _) as [response|[]]; simpl;
    try (rewrite last_snoc; simpl; eauto).
  destruct (put_role_policy iam role_name _ _) as [?|[]]; simpl;
    try (rewrite last_snoc; simpl; eauto).
  destruct (py_subscript response "Role") as [role|[]]; simpl;
    try (rewrite last_snoc; simpl; eauto).
  destruct (py_subscript role "Arn") as [arn|[]]; simpl;
    rewrite last_snoc; simpl; eauto.
Qed.

(** A template that parsed is never reported as the parse failure. *)
Lemma analyze_parsed_reported template role_name iam :
  reported (analyze_parsed template role_name iam) ≠ Some TemplateParseFailure.
Proof.
  rewrite analyze_parsed_spec.
  destruct (py_get template "Resources" (PDict [])) as [resources|e];
    [|discriminate].
  destruct (py_items resources) as [items|e]; [|discriminate].
  unfold resolve_collected.
  destruct (collect_types items []) as [[|x s]|e]; try discriminate.
  destruct (str_members (x :: s)) as [members|]; [|discriminate].
  match goal with |- context [finish ?r ?i ?n ?w] =>
    destruct (finish_reported r i n w) as (v & _ & Hk);
    destruct (reported (finish r i n w)) as [[| |e|[]|]|];
    try contradiction; discriminate
  end.
Qed.

(** C5, as the code has it: the value [json.loads] returns decides the run,
    whatever YAML would make of the text; [yaml.safe_load] decides it only
    when [json.loads] raised its decode error.  The run is the parse failure
    exactly when [json.loads] raised its decode error and [yaml.safe_load] a
    YAML error: any other exception of either parser, for a text neither of
    them parses, reaches the catch-all handler and is reported as an analysis
    error, without a second attempt when it is [json.loads] that raised
    it. *)
Theorem C5_json_then_yaml template_content role_name iam account_id :
  (∀ template,
     json_loads template_content = Normal template →
     run template_content role_name iam account_id =
       analyze_parsed template role_name iam) ∧
  (∀ template,
     json_loads template_content = Raised JSONDecodeError →
     yaml_safe_load template_content = Normal template →
     run template_content role_name iam account_id =
       analyze_parsed template role_name iam) ∧
  (run template_content role_name iam account_id = parse_failure ↔
   json_loads template_content = Raised JSONDecodeError ∧
   yaml_safe_load template_content = Raised YAMLError) ∧
  (∀ e,
     json_loads template_content = Raised e →
     e ≠ JSONDecodeError →
     run template_content role_name iam account_id = analysis_error e) ∧
  (∀ e,
     json_loads template_content = Raised JSONDecodeError →
     yaml_safe_load template_content = Raised e →
     e ≠ YAMLError →
     run template_content role_name iam account_id = analysis_error e).
Proof.
  rewrite run_cases.
  assert (Hparsed : ∀ t, analyze_parsed t role_name iam ≠ parse_failure).
  { intros t H. apply (analyze_parsed_reported t role_name iam).
    rewrite H. reflexivity. }
  split; [|split; [|split; [|split]]].
  - intros t ->. reflexivity.
  - intros t -> ->. reflexivity.
  - split.
    + destruct (json_loads template_content) as [t|[]];
        try (intros H; discriminate H);
        try (intros H; apply Hparsed in H; contradiction).
      destruct (yaml_safe_load template_content) as [t|[]];
        try (intros H; discriminate H);
        try (intros H; apply Hparsed in H; contradiction).
      intros _. split; reflexivity.
    + intros [-> ->]. reflexivity.
  - intros e -> He. destruct e; try reflexivity. contradiction.
  - intros e -> -> He. destruct e; try reflexivity. contradiction.
Qed.

(** C6, as the code has it: the function never raises, and every run is
    reported by its last line in exactly one of five ways: the parse
    failure, the empty template, an analysis error (the catch-all handler,
    for any other exception), a role-creation error, or the created role.
    Every way but the last returns [None]. *)
Theorem C6_reports template_content role_name iam account_id :
  ∃ v k,
    (run template_content role_name iam account_id).2 = Normal v ∧
    reported (run template_content role_name iam account_id) = Some k ∧
    match k with
    | TemplateParseFailure =>
        run template_content role_name iam account_id = parse_failure
    | EmptyTemplate =>
        run template_content role_name iam account_id = empty_template
    | AnalysisError _ => v = PNone
    | RoleCreationError e => e = ClientError ∧ v = PNone
    | RoleCreated => True
    end.
Proof.
  assert (Herr : ∀ e, ∃ v k,
    (analysis_error e).2 = Normal v ∧ reported (analysis_error e) = Some k ∧
    match k with
    | TemplateParseFailure => analysis_error e = parse_failure
    | EmptyTemplate => analysis_error e = empty_template
    | AnalysisError _ => v = PNone
    | RoleCreationError e => e = ClientError ∧ v = PNone
    | RoleCreated => True
    end).
  { intros e. exists PNone, (AnalysisError e). repeat split. }
  assert (Hparsed : ∀ t, ∃ v k,
    (analyze_parsed t role_name iam).2 = Normal v ∧
    reported (analyze_parsed t role_name iam) = Some k ∧
    match k with
    | TemplateParseFailure => analyze_parsed t role_name iam = parse_failure
    | EmptyTemplate => analyze_parsed t role_name iam = empty_template
    | AnalysisError _ => v = PNone
    | RoleCreationError e => e = ClientError ∧ v = PNone
    | RoleCreated => True
    end).
  { intros t. rewrite analyze_parsed_spec.
    destruct (py_get t "Resources" (PDict [])) as [resources|e]; [|apply Herr].
    destruct (py_items resources) as [items|e]; [|apply Herr].
    unfold resolve_collected.
    destruct (collect_types items []) as [[|x s]|e]; [| |apply Herr].
    { exists PNone, EmptyTemplate. repeat split. }
    destruct (str_members (x :: s)) as [members|]; [|apply Herr].
    match goal with |- context [finish ?r ?i ?n ?w] =>
      destruct (finish_reported r i n w) as (v & Hv & Hk);
      destruct (reported (finish r i n w)) as [[| |e|[]|]|]; try contradiction;
      eexists v, _; (split; [exact Hv|split; [reflexivity|repeat split; auto]])
    end. }
  rewrite run_cases.
  destruct (json_loads template_content) as [t|[]]; try apply Herr;
    try apply Hparsed.
  destruct (yaml_safe_load template_content) as [t|[]]; try apply Herr;
    try apply Hparsed.
  exists PNone, TemplateParseFailure. repeat split.
Qed.

(** C7, as the code has it: the permissions of the "Required permissions"
    line are sorted and without duplicates; the [Action] list handed to
    [put_role_policy], which is called when [create_role] returns, holds the
    same permissions in the iteration order of the set, so that sorting it
    gives the printed list. *)
Theorem C7_printed_sorted template_content resources tys role_name iam
    account_id :
  template_of template_content resources →
  declared_types resources = Some tys →
  tys ≠ [] →
  ∃ permissions,
    resolves_to (run template_content role_name iam account_id).1 permissions ∧
    Sorted str_le permissions ∧
    match create_role iam role_name trust_policy role_description with
    | Normal _ =>
        ∃ needed,
          policy_actions (run template_content role_name iam account_id).1
            = Some (set_iter needed) ∧
          sorted (set_iter needed) = permissions
    | Raised _ =>
        policy_actions (run template_content role_name iam account_id).1 = None
    end.
Proof.
  intros Ht Hd Hne. eexists.
  split; [apply (valid_resolves _ _ _ _ _ _ Ht Hd Hne)|].
  split; [apply sorted_Sorted|].
  destruct (valid_run _ _ _ role_name iam account_id Ht Hd Hne)
    as (_ & _ & _ & Hact).
  destruct (create_role iam role_name trust_policy role_description);
    [|exact Hact].
  eexists. split; [exact Hact|]. apply sorted_set_eq, set_iter_perm.
Qed.

(** The resolved set depends on the members of the list of types only. *)
Lemma resolved_members tys tys' :
  (∀ t, t ∈ tys ↔ t ∈ tys') →
  sorted (needed_for (set_iter (str_set tys))) =
  sorted (needed_for (set_iter (str_set tys'))).
Proof.
  intros H. apply sorted_set_eq, needed_for_members. intros t.
  rewrite !set_iter_perm, !elem_of_str_set. apply H.
Qed.

(** C8: a further declaration of a type that is already declared leaves the
    permission set as it was. *)
Theorem C8_same_type_twice template_content template_content' before after
    name resource_def ty tys role_name iam account_id :
  template_of template_content (before ++ after) →
  template_of template_content' (before ++ (name, resource_def) :: after) →
  declared_types (before ++ after) = Some tys →
  declared_type resource_def = Some (Some ty) →
  ty ∈ tys →
  ∃ permissions,
    resolves_to (run template_content role_name iam account_id).1 permissions ∧
    resolves_to (run template_content' role_name iam account_id).1 permissions.
Proof.
  intros Ht Ht' Hd Hty Hin.
  assert (Hne : tys ≠ []) by (intros ->; inversion Hin).
  rewrite declared_types_app in Hd.
  destruct (declared_types before) as [t1|] eqn:E1; [|discriminate].
  destruct (declared_types after) as [t2|] eqn:E2; [|discriminate].
  injection Hd as <-.
  assert (Hd' : declared_types (before ++ (name, resource_def) :: after)
                = Some (t1 ++ ty :: t2)).
  { rewrite declared_types_app, E1. simpl. rewrite Hty, E2. reflexivity. }
  assert (Hd : declared_types (before ++ after) = Some (t1 ++ t2)).
  { rewrite declared_types_app, E1, E2. reflexivity. }
  exists (sorted (needed_for (set_iter (str_set (t1 ++ t2))))). split.
  - apply (valid_resolves _ _ _ _ _ _ Ht Hd Hne).
  - rewrite (resolved_members (t1 ++ t2) (t1 ++ ty :: t2)).
    + apply (valid_resolves _ _ _ _ _ _ Ht' Hd').
      intros H. apply app_eq_nil in H as [_ H]. discriminate.
    + intros t. rewrite !elem_of_app, elem_of_cons. rewrite elem_of_app in Hin.
      split; [tauto|]. intros [?|[->|?]]; tauto.
Qed.

(** C9: permuting the declarations changes nothing: both templates are
    empty, or both resolve to the same permission set. *)
Theorem C9_order_independent template_content template_content' resources
    resources' tys role_name iam account_id :
  template_of template_content resources →
  template_of template_content' resources' →
  resources ≡ₚ resources' →
  declared_types resources = Some tys →
  (run template_content role_name iam account_id = empty_template ∧
   run template_content' role_name iam account_id = empty_template) ∨
  ∃ permissions,
    resolves_to (run template_content role_name iam account_id).1 permissions ∧
    resolves_to (run template_content' role_name iam account_id).1 permissions.
Proof.
  intros Ht Ht' Hperm Hd.
  destruct (declared_types_Permutation _ _ _ Hperm Hd) as (tys' & Hd' & Htys).
  destruct tys as [|t tys].
  - apply Permutation_nil_l in Htys. subst tys'. left.
    split; eapply empty_run; eassumption.
  - right. exists (sorted (needed_for (set_iter (str_set (t :: tys))))). split.
    + apply (valid_resolves _ _ _ _ _ _ Ht Hd). discriminate.
    + rewrite (resolved_members (t :: tys) tys').
      * apply (valid_resolves _ _ _ _ _ _ Ht' Hd').
        intros ->. apply Permutation_nil_r in Htys. discriminate.
      * intros x. rewrite Htys. reflexivity.
Qed.

(** C10: the declarations whose [Type] is missing or is the empty string
    change nothing: the run is the run of the template without them, so
    they add no permission and no warning; and when every declaration is
    such a one, the run is that of the empty template. *)
Theorem C10_typeless_skipped template_content template_content' resources
    role_name iam account_id :
  template_of template_content resources →
  template_of template_content' (filter (λ d, ¬ typeless d) resources) →
  run template_content role_name iam account_id =
  run template_content' role_name iam account_id ∧
  ((∃ d, d ∈ resources ∧ ¬ typeless d) ∨
   run template_content role_name iam account_id = empty_template).
Proof.
  intros Ht Ht'.
  assert (E : run template_content role_name iam account_id =
              run template_content' role_name iam account_id).
  { rewrite (run_template_of _ _ _ _ _ Ht), (run_template_of _ _ _ _ _ Ht').
    rewrite collect_types_typeless. reflexivity. }
  split; [exact E|].
  destruct (filter (λ d, ¬ typeless d) resources) as [|d l] eqn:Ef.
  - right. rewrite E. apply (empty_run _ [] _ _ _ Ht'). reflexivity.
  - left. exists d.
    assert (Hd : d ∈ filter (λ d, ¬ typeless d) resources)
      by (rewrite Ef; left).
    apply list_elem_of_filter in Hd. tauto.
Qed.

End claims.

(** ** The sample runs *)

Lemma sample_template_of (document : string) (resources : list (pyval * pyval)) :
  json_loads (Runtime:=sample_runtime) document = Raised JSONDecodeError →
  yaml_safe_load (Runtime:=sample_runtime) document
    = Normal (resources_template resources) →
  template_of (rt:=sample_runtime) document resources.
Proof.
  intros Hj Hy. exists (resources_template resources).
  split; [right; split; assumption|reflexivity].
Defined.

(** The theorems at the sample documents. *)

Lemma C1_bucket_union_witness :
  template_of (rt:=sample_runtime) bucket_yaml bucket_resources ∧
  dict_get [(PStr "Type", PStr "AWS::S3::Bucket")] "Type"
    = Some (PStr "AWS::S3::Bucket") ∧
  ∃ entry permissions,
    CFN_RESOURCE_TO_IAM_MAPPING !! "AWS::S3::Bucket" = Some entry ∧
    resolves_to
      (run (rt:=sample_runtime) bucket_yaml "DeployRole" ok_client
         "123456789012").1 permissions ∧
    (∀ p, p ∈ permissions ↔
          p ∈ CLOUDFORMATION_PERMISSIONS ∨ p ∈ PIPELINE_PERMISSIONS ∨
          p ∈ entry) ∧
    (∀ p, p ∈ ["s3:CreateBucket"; "s3:DeleteBucket"; "s3:GetObject";
               "s3:PutObject"; "s3:DeleteObject"] →
          p ∈ PIPELINE_PERMISSIONS ∧ p ∈ entry) ∧
    length permissions = 24.
Proof.
  assert (Ht : template_of (rt:=sample_runtime) bucket_yaml bucket_resources)
    by (apply sample_template_of; reflexivity).
  split; [exact Ht|]. split; [reflexivity|].
  apply (C1_bucket_union (rt:=sample_runtime) bucket_yaml (PStr "Bucket")
           [(PStr "Type", PStr "AWS::S3::Bucket")]
           "DeployRole" ok_client "123456789012" Ht).
  reflexivity.
Defined.

Lemma C2_baseline_included_witness :
  template_of (rt:=sample_runtime) mixed_yaml mixed_resources ∧
  declared_types mixed_resources
    = Some ["AWS::Lambda::Function"; "AWS::KMS::Key"] ∧
  ["AWS::Lambda::Function"; "AWS::KMS::Key"] ≠ [] ∧
  ∃ permissions,
    resolves_to
      (run (rt:=sample_runtime) mixed_yaml "DeployRole" ok_client
         "123456789012").1 permissions ∧
    CLOUDFORMATION_PERMISSIONS ⊆ permissions ∧
    PIPELINE_PERMISSIONS ⊆ permissions.
Proof.
  assert (Ht : template_of (rt:=sample_runtime) mixed_yaml mixed_resources)
    by (apply sample_template_of; reflexivity).
  split; [exact Ht|]. split; [reflexivity|]. split; [discriminate|].
  apply (C2_baseline_included (rt:=sample_runtime) mixed_yaml mixed_resources
           ["AWS::Lambda::Function"; "AWS::KMS::Key"]
           "DeployRole" ok_client "123456789012" Ht);
    [reflexivity|discriminate].
Defined.

Lemma C3_unknown_type_tolerated_witness :
  template_of (rt:=sample_runtime) swapped_yaml swapped_resources ∧
  swapped_resources ≡ₚ mixed_resources ∧
  CFN_RESOURCE_TO_IAM_MAPPING !! "AWS::Lambda::Function" =
    Some ["lambda:CreateFunction"; "lambda:DeleteFunction";
          "lambda:GetFunction"; "lambda:GetFunctionConfiguration";
          "lambda:UpdateFunctionCode"; "lambda:UpdateFunctionConfiguration";
          "lambda:AddPermission"; "lambda:RemovePermission"] ∧
  CFN_RESOURCE_TO_IAM_MAPPING !! "AWS::KMS::Key" = None ∧
  let w := (run (rt:=sample_runtime) swapped_yaml "DeployRole" ok_client
              "123456789012").1 in
  reached_role_creation w = true ∧
  unknown_types w = ["AWS::KMS::Key"] ∧
  ∃ permissions,
    resolves_to w permissions ∧
    ∀ p, p ∈ permissions ↔
         p ∈ CLOUDFORMATION_PERMISSIONS ∨ p ∈ PIPELINE_PERMISSIONS ∨
         p ∈ ["lambda:CreateFunction"; "lambda:DeleteFunction";
              "lambda:GetFunction"; "lambda:GetFunctionConfiguration";
              "lambda:UpdateFunctionCode"; "lambda:UpdateFunctionConfiguration";
              "lambda:AddPermission"; "lambda:RemovePermission"].
Proof.
  assert (Ht : template_of (rt:=sample_runtime) swapped_yaml swapped_resources)
    by (apply sample_template_of; reflexivity).
  assert (Hp : swapped_resources ≡ₚ mixed_resources) by apply perm_swap.
  assert (Hk : CFN_RESOURCE_TO_IAM_MAPPING !! "AWS::Lambda::Function" =
    Some ["lambda:CreateFunction"; "lambda:DeleteFunction";
          "lambda:GetFunction"; "lambda:GetFunctionConfiguration";
          "lambda:UpdateFunctionCode"; "lambda:UpdateFunctionConfiguration";
          "lambda:AddPermission"; "lambda:RemovePermission"])
    by (vm_compute; reflexivity).
  assert (Hu : CFN_RESOURCE_TO_IAM_MAPPING !! "AWS::KMS::Key" = None)
    by (vm_compute; reflexivity).
  split; [exact Ht|]. split; [exact Hp|]. split; [exact Hk|].
  split; [exact Hu|].
  apply (C3_unknown_type_tolerated (rt:=sample_runtime) swapped_yaml
           swapped_resources
           (PStr "Fn") [(PStr "Type", PStr "AWS::Lambda::Function")]
           (PStr "Key") [(PStr "Type", PStr "AWS::KMS::Key")]
           "AWS::Lambda::Function" _ "AWS::KMS::Key"
           "DeployRole" ok_client "123456789012" Ht Hp eq_refl Hk eq_refl);
    [discriminate|exact Hu].
Defined.



(** C5, as the claim has it, fails on the document [Description: 2001-99-99]:
    [json.loads] raises its decode error, [yaml.safe_load] raises the
    [ValueError] of the date it builds, which is no YAML error, and the run
    ends with "Error analyzing template", not with the parse failure. *)
Lemma C5_counterexample :
  let r := run (rt:=edge_runtime) dated_yaml "DeployRole" ok_client
             "123456789012" in
  json_loads (Runtime:=edge_runtime) dated_yaml = Raised JSONDecodeError ∧
  yaml_safe_load (Runtime:=edge_runtime) dated_yaml = Raised OtherException ∧
  r.2 = Normal PNone ∧
  reported r = Some (AnalysisError OtherException) ∧
  r ≠ parse_failure.
Proof. vm_compute. repeat split; intros [=]. Qed.

(** C6, as the claim has it, fails on the JSON document [[]]: it parses, to
    a list, the run fails, and the failure is reported as an analysis error,
    neither as the parse failure nor as the empty template. *)
Lemma C6_counterexample :
  let r := run (rt:=sample_runtime) "[]" "DeployRole" ok_client
             "123456789012" in
  json_loads (Runtime:=sample_runtime) "[]" = Normal (PList []) ∧
  r.2 = Normal PNone ∧
  reported r = Some (AnalysisError AttributeError) ∧
  r ≠ parse_failure ∧
  r ≠ empty_template.
Proof. vm_compute. repeat split; intros [=]. Qed.

(** C7, as the claim has it, fails on the one-bucket template when the set
    is iterated in insertion order: the [Action] list handed to
    [put_role_policy] is not sorted. *)
Lemma C7_counterexample :
  ∃ actions,
    policy_actions
      (run (rt:=sample_runtime) bucket_yaml "DeployRole" ok_client
         "123456789012").1 = Some actions ∧
    ¬ Sorted str_le actions.
Proof.
  eexists. split; [vm_compute; reflexivity|].
  intros H.
  do 4 (apply Sorted_inv in H; destruct H as [H _]).
  apply Sorted_inv in H. destruct H as [_ H].
  inversion H as [|? ? Hle]. vm_compute in Hle. discriminate.
Qed.

Lemma C7_printed_sorted_witness :
  template_of (rt:=sample_runtime) bucket_yaml bucket_resources ∧
  declared_types bucket_resources = Some ["AWS::S3::Bucket"] ∧
  ["AWS::S3::Bucket"] ≠ [] ∧
  ∃ permissions,
    resolves_to
      (run (rt:=sample_runtime) bucket_yaml "DeployRole" ok_client
         "123456789012").1 permissions ∧
    Sorted str_le permissions ∧
    ∃ needed,
      policy_actions
        (run (rt:=sample_runtime) bucket_yaml "DeployRole" ok_client
           "123456789012").1 = Some needed ∧
      sorted needed = permissions.
Proof.
  assert (Ht : template_of (rt:=sample_runtime) bucket_yaml bucket_resources)
    by (apply sample_template_of; reflexivity).
  split; [exact Ht|]. split; [reflexivity|]. split; [discriminate|].
  apply (C7_printed_sorted (rt:=sample_runtime) bucket_yaml bucket_resources
           ["AWS::S3::Bucket"] "DeployRole" ok_client "123456789012" Ht);
    [reflexivity|discriminate].
Defined.

Lemma C8_same_type_twice_witness :
  template_of (rt:=sample_runtime) function_yaml function_resources ∧
  template_of (rt:=sample_runtime) two_functions_yaml two_functions_resources ∧
  declared_types function_resources = Some ["AWS::Lambda::Function"] ∧
  declared_type (PDict [(PStr "Type", PStr "AWS::Lambda::Function")])
    = Some (Some "AWS::Lambda::Function") ∧
  "AWS::Lambda::Function" ∈ ["AWS::Lambda::Function"] ∧
  ∃ permissions,
    resolves_to
      (run (rt:=sample_runtime) function_yaml "DeployRole" ok_client
         "123456789012").1 permissions ∧
    resolves_to
      (run (rt:=sample_runtime) two_functions_yaml "DeployRole" ok_client
         "123456789012").1 permissions.
Proof.
  assert (Ht : template_of (rt:=sample_runtime) function_yaml
                 function_resources)
    by (apply sample_template_of; reflexivity).
  assert (Ht' : template_of (rt:=sample_runtime) two_functions_yaml
                  two_functions_resources)
    by (apply sample_template_of; reflexivity).
  assert (Hin : "AWS::Lambda::Function" ∈ ["AWS::Lambda::Function"])
    by apply list_elem_of_here.
  split; [exact Ht|]. split; [exact Ht'|]. split; [reflexivity|].
  split; [reflexivity|]. split; [exact Hin|].
  apply (C8_same_type_twice (rt:=sample_runtime) function_yaml
           two_functions_yaml function_resources []
           (PStr "Fn2") (PDict [(PStr "Type", PStr "AWS::Lambda::Function")])
           "AWS::Lambda::Function" ["AWS::Lambda::Function"]
           "DeployRole" ok_client "123456789012" Ht Ht' eq_refl eq_refl Hin).
Defined.

Lemma C9_order_independent_witness :
  template_of (rt:=sample_runtime) mixed_yaml mixed_resources ∧
  template_of (rt:=sample_runtime) swapped_yaml swapped_resources ∧
  mixed_resources ≡ₚ swapped_resources ∧
  declared_types mixed_resources
    = Some ["AWS::Lambda::Function"; "AWS::KMS::Key"] ∧
  ((run (rt:=sample_runtime) mixed_yaml "DeployRole" ok_client "123456789012"
      = empty_template ∧
    run (rt:=sample_runtime) swapped_yaml "DeployRole" ok_client
      "123456789012" = empty_template) ∨
   ∃ permissions,
     resolves_to
       (run (rt:=sample_runtime) mixed_yaml "DeployRole" ok_client
          "123456789012").1 permissions ∧
     resolves_to
       (run (rt:=sample_runtime) swapped_yaml "DeployRole" ok_client
          "123456789012").1 permissions).
Proof.
  assert (Ht : template_of (rt:=sample_runtime) mixed_yaml mixed_resources)
    by (apply sample_template_of; reflexivity).
  assert (Ht' : template_of (rt:=sample_runtime) swapped_yaml
                  swapped_resources)
    by (apply sample_template_of; reflexivity).
  assert (Hp : mixed_resources ≡ₚ swapped_resources) by apply perm_swap.
  split; [exact Ht|]. split; [exact Ht'|]. split; [exact Hp|].
  split; [reflexivity|].
  apply (C9_order_independent (rt:=sample_runtime) mixed_yaml swapped_yaml
           mixed_resources swapped_resources
           ["AWS::Lambda::Function"; "AWS::KMS::Key"]
           "DeployRole" ok_client "123456789012" Ht Ht' Hp eq_refl).
Defined.

Lemma C10_typeless_skipped_witness :
  template_of (rt:=sample_runtime) draft_yaml draft_resources ∧
  template_of (rt:=sample_runtime) bucket_yaml
    (filter (λ d, ¬ typeless d) draft_resources) ∧
  run (rt:=sample_runtime) draft_yaml "DeployRole" ok_client "123456789012" =
  run (rt:=sample_runtime) bucket_yaml "DeployRole" ok_client "123456789012" ∧
  ((∃ d, d ∈ draft_resources ∧ ¬ typeless d) ∨
   run (rt:=sample_runtime) draft_yaml "DeployRole" ok_client "123456789012"
     = empty_template).
Proof.
  assert (Ht : template_of (rt:=sample_runtime) draft_yaml draft_resources)
    by (apply sample_template_of; reflexivity).
  assert (Ht' : template_of (rt:=sample_runtime) bucket_yaml
                  (filter (λ d, ¬ typeless d) draft_resources))
    by (apply sample_template_of; reflexivity).
  split; [exact Ht|]. split; [exact Ht'|].
  apply (C10_typeless_skipped (rt:=sample_runtime) draft_yaml bucket_yaml
           draft_resources "DeployRole" ok_client "123456789012" Ht Ht').
Defined.

(** * The rest of the script: properties *)

(** ** Strings *)

Lemma chars_str l : chars (str l) = l.
Proof. apply list_ascii_of_string_of_list_ascii. Qed.

Lemma str_chars s : str (chars s) = s.
Proof. apply string_of_list_ascii_of_string. Qed.

Lemma length_chars s : length (chars s) = String.length s.
Proof. induction s as [|c s IH]; simpl; [reflexivity|]. rewrite IH. reflexivity. Qed.

Lemma chars_append s1 s2 : chars (s1 +:+ s2) = chars s1 ++ chars s2.
Proof. induction s1 as [|c s1 IH]; simpl; [reflexivity|]. rewrite IH. reflexivity. Qed.

Lemma length_str l : String.length (str l) = length l.
Proof. rewrite <- length_chars, chars_str. reflexivity. Qed.

Lemma lower_char_name c : region_char c = true → name_char (lower_char c) = true.
Proof.
  destruct c as [[] [] [] [] [] [] [] []]; vm_compute; congruence.
Qed.

Lemma name_char_alnum c :
  name_char c = true → c ∉ ["-"; "."]%char → alnum c = true.
Proof.
  unfold name_char. intros H Hc.
  destruct (alnum c); [reflexivity|]. simpl in H.
  apply orb_true_iff in H as [H|H]; apply Ascii.eqb_eq in H; subst c;
    exfalso; apply Hc; repeat constructor.
Qed.

(** ** The name of the artifact bucket *)

Lemma bucket_name_chars region account_id uuid :
  bucket_name region account_id uuid =
  let l := cut_name (full_name region account_id uuid) in
  match last l with
  | Some c =>
      Done (if bool_decide (c ∈ ["-"; "."]%char)
            then str (take (length l - 1) l ++ chars "a")
            else str l)
  | None => Failed IndexError
  end.
Proof.
  unfold bucket_name, cut_name, full_name, last_char, but_last, prefix, lower.
  set (short := if (8 <? String.length account_id)%nat then _ else _).
  set (b := "pipeline-" +:+ _).
  assert (Hb : chars b =
    chars "pipeline-" ++ (lower_char <$> chars region) ++ chars "-" ++
    chars short ++ chars "-" ++ (lower_char <$> take 8 (chars uuid))).
  { unfold b. rewrite !chars_append, !chars_str. reflexivity. }
  rewrite <- Hb, length_chars. cbv zeta.
  destruct (63 <? String.length b)%nat.
  - rewrite chars_str, length_str.
    destruct (last (take 63 (chars b))) as [c|]; [|reflexivity].
    case_bool_decide; [|reflexivity].
    f_equal. rewrite <- (str_chars (_ +:+ "a")), chars_append, chars_str.
    reflexivity.
  - rewrite str_chars.
    destruct (last (chars b)) as [c|]; [|reflexivity].
    case_bool_decide; [|reflexivity].
    f_equal. rewrite <- (str_chars (_ +:+ "a")), chars_append, chars_str,
      length_chars. reflexivity.
Qed.

Lemma forallb_Forall_true {A} (f : A → bool) l :
  forallb f l = true ↔ Forall (λ x, f x = true) l.
Proof.
  induction l as [|x l IH]; simpl.
  - split; [constructor|reflexivity].
  - rewrite andb_true_iff, IH, Forall_cons. reflexivity.
Qed.

Lemma andb5 (a b c d e : bool) :
  a = true → b = true → c = true → d = true → e = true →
  a && b && c && d && e = true.
Proof. intros -> -> -> -> ->. reflexivity. Qed.

(** X1: with a region of letters, numbers, dots and hyphens, an account id of
    lowercase letters, numbers, dots and hyphens, and a UUID that begins so,
    the bucket name is computed (no [IndexError]) and follows the naming
    rules the function states: 3 to 63 characters, lowercase letters,
    numbers, dots and hyphens only, a letter or a number first and last, not
    the format of an IP address. *)
Theorem bucket_name_follows_rules region account_id uuid :
  forallb region_char (chars region) = true →
  forallb name_char (chars account_id) = true →
  forallb region_char (chars (prefix 8 uuid)) = true →
  ∃ name,
    bucket_name region account_id uuid = Done name ∧ s3_name name = true.
Proof.
  intros Hr Ha Hu. rewrite bucket_name_chars. cbv zeta.
  set (full := full_name region account_id uuid).
  assert (Hfull : Forall (λ c, name_char c = true) full).
  { unfold full, full_name. rewrite !Forall_app. repeat split.
    - apply forallb_Forall_true. reflexivity.
    - apply Forall_fmap. apply forallb_Forall_true in Hr.
      eapply Forall_impl; [exact Hr|]. intros c. apply lower_char_name.
    - apply forallb_Forall_true. reflexivity.
    - apply forallb_Forall_true in Ha.
      destruct (8 <? String.length account_id)%nat; [|exact Ha].
      unfold suffix. rewrite chars_str. apply Forall_drop, Ha.
    - apply forallb_Forall_true. reflexivity.
    - apply Forall_fmap. unfold prefix in Hu. rewrite chars_str in Hu.
      apply forallb_Forall_true in Hu.
      eapply Forall_impl; [exact Hu|]. intros c. apply lower_char_name. }
  assert (Hshape : ∃ rest, full = "p"%char :: "i"%char :: rest ∧ (9 ≤ length rest)%nat).
  { unfold full, full_name.
    change (chars "pipeline-") with ("p"%char :: "i"%char :: chars "peline-").
    rewrite <- !app_comm_cons. eexists. split; [reflexivity|].
    rewrite !length_app.
    change (length (chars "peline-")) with 7.
    change (length (chars "-")) with 1. lia. }
  destruct Hshape as (rest & Efull & Hlen).
  set (l := cut_name full).
  assert (Hl : Forall (λ c, name_char c = true) l ∧
               (∃ rest', l = "p"%char :: "i"%char :: rest') ∧
               (11 ≤ length l ≤ 63)%nat).
  { assert (Hfl : (11 ≤ length full)%nat) by (rewrite Efull; simpl; lia).
    unfold l, cut_name. destruct (63 <? length full)%nat eqn:E.
    - apply Nat.ltb_lt in E. split; [apply Forall_take, Hfull|]. split.
      + rewrite Efull. simpl. eauto.
      + rewrite length_take. lia.
    - apply Nat.ltb_ge in E. split; [exact Hfull|]. split; [eauto|]. lia. }
  destruct Hl as (Hchars & (rest' & El) & Hbounds).
  destruct (last l) as [c|] eqn:Elast.
  2:{ apply last_None in Elast. rewrite Elast in El. discriminate. }
  eexists. split; [reflexivity|].
  apply last_Some in Elast as [front Efront].
  assert (Hc : name_char c = true).
  { rewrite Efront in Hchars. apply Forall_app in Hchars as [_ Hc].
    inversion Hc. assumption. }
  unfold s3_name, last_char, ip_like. case_bool_decide as Hdash.
  - rewrite length_str, chars_str, length_app, length_take.
    assert (Etake : take (length l - 1) l = front).
    { rewrite Efront, length_app. simpl.
      replace (length front + 1 - 1) with (length front) by lia.
      apply take_app_length. }
    rewrite Etake.
    assert (Hfront : length front + 1 = length l)
      by (rewrite Efront, length_app; reflexivity).
    assert (Efront' : ∃ r, front = "p"%char :: r).
    { destruct front as [|x [|y r]]; simpl in *; try lia.
      rewrite El in Efront. injection Efront as -> _. eauto. }
    destruct Efront' as (r & ->).
    change (chars "a") with ["a"%char].
    assert (Hfront' : Forall (λ c, name_char c = true) ("p"%char :: r)).
    { rewrite Efront in Hchars. apply Forall_app in Hchars as [Hf _].
      exact Hf. }
    apply andb_true_iff. split; [|reflexivity].
    apply andb5.
    + apply Nat.leb_le. simpl in *. lia.
    + apply Nat.leb_le. simpl in *. lia.
    + rewrite forallb_app. apply andb_true_iff. split; [|reflexivity].
      apply forallb_Forall_true, Hfront'.
    + reflexivity.
    + rewrite last_snoc. reflexivity.
  - rewrite length_str, chars_str.
    apply andb_true_iff. split; [|rewrite El; reflexivity].
    apply andb5.
    + apply Nat.leb_le. lia.
    + apply Nat.leb_le. lia.
    + apply forallb_Forall_true, Hchars.
    + rewrite El. reflexivity.
    + rewrite Efront, last_snoc. simpl. apply name_char_alnum; assumption.
Qed.

Lemma str_app l1 l2 : str (l1 ++ l2) = str l1 +:+ str l2.
Proof. induction l1 as [|c l1 IH]; simpl; [reflexivity|]. rewrite IH. reflexivity. Qed.

Lemma lower_char_hex c : is_hex c = true → lower_char c = c.
Proof. destruct c as [[] [] [] [] [] [] [] []]; vm_compute; congruence. Qed.

Lemma hex_not_dash c : is_hex c = true → c ∉ ["-"; "."]%char.
Proof.
  intros H Hc. apply elem_of_cons in Hc as [->|Hc]; [discriminate|].
  apply list_elem_of_singleton in Hc as ->. discriminate.
Qed.

(** X2: for a region and an account id of ASCII characters, the region of at
    most 36 of them, and a UUID that begins with hexadecimal digits, as
    [uuid4] gives, nothing is cut and nothing replaced: the name is
    [pipeline-], the region in lower case, the last 8 characters of the
    account id and the first 8 of the UUID, joined by hyphens. *)
Theorem bucket_name_format region account_id uuid :
  forallb is_ascii (chars region) = true →
  forallb is_ascii (chars account_id) = true →
  (String.length region ≤ 36)%nat →
  uuid ≠ "" →
  forallb is_hex (chars (prefix 8 uuid)) = true →
  bucket_name region account_id uuid =
  Done ("pipeline-" +:+ lower region +:+ "-" +:+
        (if (8 <? String.length account_id)%nat then suffix 8 account_id
         else account_id) +:+ "-" +:+ prefix 8 uuid).
Proof.
  intros _ _ Hr Hne Hhex. rewrite bucket_name_chars. cbv zeta.
  set (short := if (8 <? String.length account_id)%nat then _ else _).
  unfold prefix in Hhex. rewrite chars_str in Hhex.
  apply forallb_Forall_true in Hhex.
  assert (Hlow : lower_char <$> take 8 (chars uuid) = take 8 (chars uuid)).
  { induction Hhex as [|c l Hc Hl IH]; [reflexivity|]. csimpl.
    rewrite IH, (lower_char_hex c Hc). reflexivity. }
  assert (Hshort : (length (chars short) ≤ 8)%nat).
  { unfold short. destruct (8 <? String.length account_id)%nat eqn:E.
    - unfold suffix. rewrite chars_str, length_drop, length_chars.
      apply Nat.ltb_lt in E. lia.
    - rewrite length_chars. apply Nat.ltb_ge in E. lia. }
  assert (Hfull : full_name region account_id uuid =
    chars "pipeline-" ++ (lower_char <$> chars region) ++ chars "-" ++
    chars short ++ chars "-" ++ take 8 (chars uuid)).
  { unfold full_name. fold short. rewrite Hlow. reflexivity. }
  assert (Hcut : cut_name (full_name region account_id uuid) =
                 full_name region account_id uuid).
  { unfold cut_name. rewrite Hfull.
    replace (63 <? _)%nat with false; [reflexivity|].
    symmetry. apply Nat.ltb_ge.
    rewrite !length_app, length_fmap, length_take, (length_chars region).
    change (length (chars "pipeline-")) with 9.
    change (length (chars "-")) with 1. lia. }
  rewrite Hcut.
  assert (HT : ∃ c, last (take 8 (chars uuid)) = Some c ∧ is_hex c = true).
  { destruct uuid as [|u0 uuid]; [contradiction|].
    change (chars (String u0 uuid)) with (u0 :: chars uuid) in *.
    change (take 8 (u0 :: chars uuid)) with (u0 :: take 7 (chars uuid)) in *.
    destruct (last (u0 :: take 7 (chars uuid))) as [c|] eqn:Elast.
    - exists c. split; [reflexivity|].
      apply last_Some_elem_of in Elast.
      rewrite Forall_forall in Hhex. apply Hhex, Elast.
    - apply last_None in Elast. discriminate. }
  destruct HT as (c & HT & Hc).
  assert (Hlast : last (full_name region account_id uuid) = Some c).
  { rewrite Hfull, !last_app, HT. reflexivity. }
  rewrite Hlast.
  rewrite bool_decide_eq_false_2 by (apply hex_not_dash, Hc).
  f_equal. rewrite Hfull, !str_app, !str_chars.
  reflexivity.
Qed.

(** ** [select_option] *)

Section select.
Context `{env : Environment}.

Lemma select_loop_member options keys shown :
  match (select_loop options keys shown).2 with
  | Done x => x ∈ options
  | Failed e => e = EOFError
  end.
Proof.
  revert shown. induction keys as [|[answer|] keys IH]; intros shown; simpl;
    try reflexivity.
  destruct (py_int answer) as [choice|]; [|apply IH].
  case_bool_decide as Hc; [|apply IH].
  destruct (options !! Z.to_nat (choice - 1)) as [x|] eqn:E; simpl.
  - eapply list_elem_of_lookup_2, E.
  - apply lookup_ge_None in E. lia.
Qed.

(** X3: [select_option] returns nothing but one of the options, and fails in
    no way but the end of the input: the subscript of line 452 is never out
    of range, and without options the function cannot return. *)
Theorem select_option_member options p :
  match (select_option options p).2 with
  | Done x => x ∈ options
  | Failed e => e = EOFError
  end.
Proof.
  unfold select_option.
  pose proof (select_loop_member options (keyboard p)
    (console p ++ Printed "Available options:" ::
       imap (λ i option, Printed (pretty (S i) +:+ ". " +:+ option)) options))
    as H.
  destruct (select_loop _ _ _) as [[shown keys] r]. exact H.
Qed.

Lemma times_asked_app prompt l k :
  times_asked prompt (l ++ k) = times_asked prompt l + times_asked prompt k.
Proof. unfold times_asked. rewrite filter_app, length_app. reflexivity. Qed.

Lemma select_loop_first options bad good choice x rest shown :
  Forall (turned_down options) bad →
  py_int good = Some choice →
  (1 ≤ choice)%Z →
  options !! Z.to_nat (choice - 1) = Some x →
  ∃ shown',
    select_loop options ((Some <$> bad) ++ Some good :: rest) shown =
    (shown', rest, Done x) ∧
    times_asked select_prompt shown' =
    times_asked select_prompt shown + length bad + 1.
Proof.
  intros Hbad Hgood Hone Hx. revert shown.
  induction Hbad as [|a bad Ha Hbad IH]; intros shown.
  - simpl. rewrite Hgood.
    rewrite bool_decide_eq_true_2.
    2:{ split; [exact Hone|]. apply lookup_lt_Some in Hx. lia. }
    rewrite Hx. eexists. split; [reflexivity|].
    rewrite times_asked_app.
    change (times_asked select_prompt [Asked select_prompt (Some good)]) with 1.
    lia.
  - csimpl. unfold turned_down in Ha.
    destruct (py_int a) as [n|].
    + rewrite bool_decide_eq_false_2 by exact Ha.
      destruct (IH ((shown ++ [Asked select_prompt (Some a)]) ++
                    [Printed "Invalid option. Please try again."]))
        as (shown' & -> & Hn).
      eexists. split; [reflexivity|]. rewrite Hn, !times_asked_app.
      change (times_asked select_prompt [Asked select_prompt (Some a)]) with 1.
      change (times_asked select_prompt [Printed _]) with 0.
      simpl. lia.
    + destruct (IH ((shown ++ [Asked select_prompt (Some a)]) ++
                    [Printed "Please enter a number."]))
        as (shown' & -> & Hn).
      eexists. split; [reflexivity|]. rewrite Hn, !times_asked_app.
      change (times_asked select_prompt [Asked select_prompt (Some a)]) with 1.
      change (times_asked select_prompt [Printed _]) with 0.
      simpl. lia.
Qed.

Lemma times_asked_menu prompt (f : nat → string → string) options :
  times_asked prompt (imap (λ i option, Printed (f i option)) options) = 0.
Proof.
  revert f. induction options as [|o options IH]; intros f; [reflexivity|].
  simpl. unfold times_asked in *. rewrite filter_cons_False by discriminate.
  apply (IH (λ i, f (S i))).
Qed.

(** X4: [select_option] asks until a line is a number from 1 to the number of
    options: it returns the option of that number, leaves the lines typed
    after it unread, makes no request, and has asked once for every line
    turned down and once more. *)
Theorem select_option_first_valid options bad good choice x rest p :
  keyboard p = (Some <$> bad) ++ Some good :: rest →
  Forall (turned_down options) bad →
  py_int good = Some choice →
  (1 ≤ choice)%Z →
  options !! Z.to_nat (choice - 1) = Some x →
  (select_option options p).2 = Done x ∧
  keyboard (select_option options p).1 = rest ∧
  history (select_option options p).1 = history p ∧
  times_asked select_prompt (console (select_option options p).1) =
  times_asked select_prompt (console p) + length bad + 1.
Proof.
  intros Hk Hbad Hgood Hone Hx. unfold select_option. rewrite Hk.
  destruct (select_loop_first options bad good choice x rest
    (console p ++ Printed "Available options:" ::
       imap (λ i option, Printed (pretty (S i) +:+ ". " +:+ option)) options)
    Hbad Hgood Hone Hx) as (shown' & -> & Hn).
  simpl. repeat split. rewrite Hn.
  rewrite times_asked_app.
  change (Printed "Available options:" :: ?l)
    with ([Printed "Available options:"] ++ l).
  rewrite times_asked_app, times_asked_menu.
  change (times_asked select_prompt [Printed "Available options:"]) with 0.
  lia.
Qed.

End select.

(** ** The connection chosen *)

(** X5: for a name among those of the connections, line 515 finds an ARN, that
    of the first connection of that name: of two connections of one name the
    second cannot be chosen. *)
Theorem connection_arn_of_first connections selected :
  selected ∈ ConnectionName <$> connections →
  ∃ before c after,
    connections = before ++ c :: after ∧
    ConnectionName c = selected ∧
    Forall (λ c', ConnectionName c' ≠ selected) before ∧
    connection_arn_of connections selected = Done (ConnectionArn c).
Proof.
  intros Hin. unfold connection_arn_of.
  induction connections as [|c0 connections IH]; [inversion Hin|].
  csimpl in *. case_decide as Hc0.
  - exists [], c0, connections. repeat split; auto.
  - apply elem_of_cons in Hin as [Heq|Hin]; [congruence|].
    destruct (IH Hin) as (before & c & after & -> & Hc & Hbefore & Hfind).
    exists (c0 :: before), c, after. repeat split; auto.
    destruct (list_find _ (ConnectionName <$> before ++ c :: after))
      as [[i y]|]; [|discriminate].
    simpl. exact Hfind.
Qed.

(** ** Processes that only grow *)

Lemma extends_refl p : extends p p.
Proof. split; reflexivity. Qed.

Lemma extends_trans p1 p2 p3 : extends p1 p2 → extends p2 p3 → extends p1 p3.
Proof. intros [? ?] [? ?]. split; etransitivity; eassumption. Qed.

#[global] Instance stable_true : Stable (λ _, True).
Proof. intros p p' _ _. exact I. Qed.

#[global] Instance stable_and (P Q : process → Prop) :
  Stable P → Stable Q → Stable (λ p, P p ∧ Q p).
Proof. intros HP HQ p p' He [? ?]. split; [eapply HP|eapply HQ]; eassumption. Qed.

#[global] Instance stable_or (P Q : process → Prop) :
  Stable P → Stable Q → Stable (λ p, P p ∨ Q p).
Proof.
  intros HP HQ p p' He [?|?]; [left; eapply HP|right; eapply HQ]; eassumption.
Qed.

#[global] Instance stable_exist {A} (P : A → process → Prop) :
  (∀ a, Stable (P a)) → Stable (λ p, ∃ a, P a p).
Proof. intros HP p p' He [a Ha]. exists a. eapply HP; eassumption. Qed.

#[global] Instance stable_pure (P : Prop) : Stable (λ _, P).
Proof. intros p p' _ H. exact H. Qed.

#[global] Instance stable_asked prompt answer : Stable (asked prompt answer).
Proof.
  intros p p' [[k Hk] _] H. unfold asked in *. rewrite Hk.
  apply elem_of_app. left. exact H.
Qed.

#[global] Instance stable_answered {A} a (answer : list action → result A) x :
  Stable (answered a answer x).
Proof.
  intros p p' [_ [k Hk]] (before & after & Hh & Ha).
  exists before, (after ++ k). split; [|exact Ha].
  rewrite Hk, Hh, <- app_assoc. reflexivity.
Qed.

#[global] Instance stable_unguarded : Stable (licence unguarded).
Proof. intros p p' _ _. exact I. Qed.

#[global] Instance stable_permit_unguarded a : Stable (permit unguarded a).
Proof. intros p p' _ _. exact I. Qed.

(** ** The rules *)

Section rules.
Context `{rt : Runtime} `{env : Environment}.
Variable g : guard.
Context `{stable_licence : !Stable (licence g)}
        `{stable_permit : !∀ a, Stable (permit g a)}.

Lemma respects_extends p p' : respects g p p' → extends p p'.
Proof. intros (c & h & Hc & Hh & _). split; eexists; eassumption. Qed.

Lemma respects_refl p : respects g p p.
Proof.
  exists [], []. rewrite !app_nil_r. repeat split.
  - intros (q & a & H & _). inversion H.
  - intros a H. inversion H.
Qed.

(** A step that shows [shown] and requests [requests], none of them
    watched or critical. *)
Lemma respects_quiet p p' shown requests :
  console p' = console p ++ shown →
  history p' = history p ++ requests →
  (∀ q a, Asked q a ∈ shown → watched g q = false) →
  (∀ a, a ∈ requests → critical g a = false) →
  respects g p p'.
Proof.
  intros Hc Hh Hs Hr. exists shown, requests. repeat split; try assumption.
  - intros (q & a & H & Hw). rewrite (Hs q a H) in Hw. discriminate.
  - intros a H Ha. rewrite (Hr a H) in Ha. discriminate.
Qed.

Lemma respects_trans p1 p2 p3 :
  respects g p1 p2 → respects g p2 p3 → respects g p1 p3.
Proof.
  intros H12 H23. pose proof (respects_extends _ _ H23) as He.
  destruct H12 as (c1 & h1 & Hc1 & Hh1 & L1).
  destruct H23 as (c2 & h2 & Hc2 & Hh2 & L2).
  destruct L1 as [L1 P1], L2 as [L2 P2].
  exists (c1 ++ c2), (h1 ++ h2). rewrite Hc2, Hc1, Hh2, Hh1, !app_assoc.
  repeat split.
  - intros (q & a & [H|H]%elem_of_app & Hw).
    + eapply stable; [exact He|]. apply L1. eauto.
    + apply L2. eauto.
  - intros a [H|H]%elem_of_app Ha.
    + eapply stable; [exact He|]. apply P1; assumption.
    + apply P2; assumption.
Qed.

Section with_given.
Context {A : Type} (G : process → Prop) (Q : A → process → Prop).

Lemma obeys_fail e : obeys g G (fail e) Q.
Proof. intros p _. split; [apply respects_refl|exact I]. Qed.

Lemma obeys_exit code : obeys g G (exit code) Q.
Proof. apply obeys_fail. Qed.

Lemma obeys_ret x : (∀ p, G p → Q x p) → obeys g G (mret x) Q.
Proof. intros H p Hp. split; [apply respects_refl|]. apply H, Hp. Qed.

Lemma obeys_pure (r : outcome A) :
  (∀ x p, G p → r = Done x → Q x p) → obeys g G (λ p, (p, r)) Q.
Proof.
  intros H p Hp. split; [apply respects_refl|]. simpl.
  destruct r; [|exact I]. apply H; [exact Hp|reflexivity].
Qed.

Lemma obeys_weaken (G' : process → Prop) (Q' : A → process → Prop) m :
  obeys g G' m Q' →
  (∀ p, G p → G' p) → (∀ x p, Q' x p → Q x p) →
  obeys g G m Q.
Proof.
  intros Hm HG HQ p Hp. destruct (Hm p (HG p Hp)) as [Hr Hq].
  split; [exact Hr|]. destruct (m p).2; [apply HQ, Hq|exact I].
Qed.

(** Once what is given grants the licence and every permit, whatever only
    makes the process grow obeys the guard. *)
Lemma obeys_licensed m `{!Stable G} :
  (∀ p, G p → licence g p) → (∀ a p, G p → permit g a p) →
  monotone m → (∀ x p, G p → Q x p) →
  obeys g G m Q.
Proof.
  intros HL HP Hm HQ p Hp. pose proof (Hm p) as He.
  assert (HG' : G (m p).1) by (eapply stable; eassumption).
  split.
  - destruct He as [[c Hc] [h Hh]]. exists c, h. repeat split; try assumption.
    + intros _. apply HL, HG'.
    + intros a _ _. apply HP, HG'.
  - destruct (m p).2; [apply HQ, HG'|exact I].
Qed.

Lemma obeys_request `{!Stable G} a (answer : list action → result A) :
  critical g a = false →
  (∀ x p, G p → answered a answer x p → Q x p) →
  obeys g G (request a answer) Q.
Proof.
  intros Ha HQ p Hp. unfold request. cbn [fst snd].
  assert (He : extends p {| console := console p; keyboard := keyboard p;
                            history := history p ++ [a] |}).
  { split; simpl; [reflexivity|]. eexists. reflexivity. }
  split.
  - apply (respects_quiet _ _ [] [a]); cbn; try reflexivity.
    + rewrite app_nil_r. reflexivity.
    + intros q x H. inversion H.
    + intros a' H. apply list_elem_of_singleton in H. subst a'. exact Ha.
  - destruct (answer (history p)) as [x|e] eqn:E; [|exact I].
    apply HQ; [eapply stable; eassumption|].
    exists (history p), []. split; [reflexivity|exact E].
Qed.

(** A critical request, made with its permit. *)
Lemma obeys_request_permitted `{!Stable G} a
    (answer : list action → result A) :
  (∀ p, G p → permit g a p) →
  (∀ x p, G p → answered a answer x p → Q x p) →
  obeys g G (request a answer) Q.
Proof.
  intros Ha HQ p Hp. unfold request. cbn [fst snd].
  assert (He : extends p {| console := console p; keyboard := keyboard p;
                            history := history p ++ [a] |}).
  { split; simpl; [reflexivity|]. eexists. reflexivity. }
  split.
  - exists [], [a]. cbn. rewrite app_nil_r. repeat split.
    + intros (q & x & H & _). inversion H.
    + intros a' H _. apply list_elem_of_singleton in H. subst a'.
      eapply stable; [exact He|]. apply Ha, Hp.
  - destruct (answer (history p)) as [x|e] eqn:E; [|exact I].
    apply HQ; [eapply stable; eassumption|].
    exists (history p), []. split; [reflexivity|exact E].
Qed.

End with_given.

Section with_unit.
Context (G : process → Prop) `{!Stable G}.

Lemma obeys_emit (Q : () → process → Prop) o :
  asked_any g o = false →
  (∀ p, G p → Q () p) →
  obeys g G (emit o) Q.
Proof.
  intros Ho HQ p Hp. unfold emit. cbn [fst snd].
  assert (He : extends p {| console := console p ++ [o];
                            keyboard := keyboard p; history := history p |}).
  { split; simpl; [|reflexivity]. eexists. reflexivity. }
  split.
  - apply (respects_quiet _ _ [o] []); cbn; try reflexivity.
    + rewrite app_nil_r. reflexivity.
    + intros q x H. apply list_elem_of_singleton in H. subst o. exact Ho.
    + intros a H. inversion H.
  - apply HQ. eapply stable; eassumption.
Qed.

Lemma obeys_say (Q : () → process → Prop) text :
  (∀ p, G p → Q () p) → obeys g G (say text) Q.
Proof. apply obeys_emit. reflexivity. Qed.

Lemma obeys_input (Q : string → process → Prop) prompt :
  watched g prompt = false →
  (∀ a p, G p → asked prompt a p → Q a p) →
  obeys g G (input prompt) Q.
Proof.
  intros Hw HQ p Hp. unfold input.
  assert (Hr : ∀ answer rest,
    respects g p {| console := console p ++ [Asked prompt answer];
                    keyboard := rest; history := history p |}).
  { intros answer rest.
    apply (respects_quiet _ _ [Asked prompt answer] []); cbn;
      try reflexivity.
    - rewrite app_nil_r. reflexivity.
    - intros q x H. apply list_elem_of_singleton in H.
      injection H as -> _. exact Hw.
    - intros a H. inversion H. }
  destruct (keyboard p) as [|[answer|] rest]; cbn [fst snd];
    (split; [apply Hr|]); try exact I.
  apply HQ.
  - eapply stable; [|exact Hp]. eapply respects_extends, Hr.
  - unfold asked. cbn. apply elem_of_app. right. left.
Qed.

Lemma obeys_read (Q : string → process → Prop) path :
  critical g (Read_file path) = false →
  (∀ x p, G p → Q x p) →
  obeys g G (read path) Q.
Proof.
  intros Ha HQ p Hp. unfold read. cbn [fst snd].
  assert (He : extends p {| console := console p; keyboard := keyboard p;
                            history := history p ++ [Read_file path] |}).
  { split; simpl; [reflexivity|]. eexists. reflexivity. }
  split.
  - apply (respects_quiet _ _ [] [Read_file path]); cbn; try reflexivity.
    + rewrite app_nil_r. reflexivity.
    + intros q x H. inversion H.
    + intros a' H. apply list_elem_of_singleton in H. subst a'. exact Ha.
  - destruct (read_file (history p) path); [|exact I].
    apply HQ. eapply stable; eassumption.
Qed.

End with_unit.

Lemma obeys_bind {A B} (G : process → Prop) (m : Script A) (f : A → Script B)
    (Q1 : A → process → Prop) (Q : B → process → Prop) :
  obeys g G m Q1 → (∀ x, obeys g (Q1 x) (f x) Q) → obeys g G (m ≫= f) Q.
Proof.
  intros Hm Hf p Hp. destruct (Hm p Hp) as [Hr Hq].
  unfold mbind, Script_bind. destruct (m p) as [p1 [x|e]]; cbn [fst snd] in *.
  - destruct (Hf x p1 Hq) as [Hr' Hq']. split; [|exact Hq'].
    eapply respects_trans; eassumption.
  - split; [exact Hr|exact I].
Qed.

Lemma obeys_attempt {A} (G : process → Prop) `{!Stable G} (body : Script A)
    handler (Q : A → process → Prop) :
  obeys g G body Q →
  (∀ e h, handler e = Some h → obeys g G h Q) →
  obeys g G (attempt body handler) Q.
Proof.
  intros Hb Hh p Hp. destruct (Hb p Hp) as [Hr Hq]. unfold attempt.
  destruct (body p) as [p1 [x|e]]; cbn [fst snd] in *; [split; assumption|].
  destruct (handler e) as [h|] eqn:E; cbn [fst snd]; [|split; [exact Hr|exact I]].
  assert (HG1 : G p1).
  { eapply stable; [|exact Hp]. eapply respects_extends, Hr. }
  destruct (Hh e h E p1 HG1) as [Hr' Hq']. split; [|exact Hq'].
  eapply respects_trans; eassumption.
Qed.

End rules.

(** ** The functions under a guard *)

Ltac obey_post :=
  try solve [ intros; cbv beta in *; first [ assumption | tauto | eauto ] ].

Ltac obey_handler :=
  let e := fresh "e" in let h := fresh "h" in let Hh := fresh "Hh" in
  intros e h Hh;
  destruct e as [[]| | | | |]; try discriminate Hh;
  injection Hh as <-.

Ltac obey_side := first [reflexivity | assumption | auto].

Ltac obey_basic :=
  lazymatch goal with
  | |- obeys ?g ?G (mbind ?f ?m) ?Q =>
      lazymatch m with
      | input ?q =>
          apply (obeys_bind g G m f (λ a p, G p ∧ asked q a p) Q);
          [ apply obeys_input; try exact _;
            [ obey_side | intros; split; assumption ]
          | intros ?; cbv beta zeta ]
      | request ?a ?ans =>
          apply (obeys_bind g G m f (λ x p, G p ∧ answered a ans x p) Q);
          [ apply obeys_request; try exact _;
            [ obey_side | intros; split; assumption ]
          | intros ?; cbv beta zeta ]
      | _ =>
          apply (obeys_bind g G m f (λ _ p, G p) Q);
          [ | intros ?; cbv beta zeta ]
      end
  | |- obeys _ _ (if ?b then _ else _) _ => destruct b eqn:?
  | |- obeys _ _ (match ?x with _ => _ end) _ => destruct x eqn:?
  | |- obeys _ _ (mret _) _ => apply obeys_ret; obey_post
  | |- obeys _ _ (fail _) _ => apply obeys_fail
  | |- obeys _ _ (exit _) _ => apply obeys_exit
  | |- obeys _ _ (say _) _ => apply obeys_say; try exact _; obey_post
  | |- obeys _ _ (emit _) _ =>
      apply obeys_emit; try exact _; [ reflexivity | obey_post ]
  | |- obeys _ _ (input _) _ =>
      apply obeys_input; try exact _; [ obey_side | obey_post ]
  | |- obeys _ _ (request _ _) _ =>
      apply obeys_request; try exact _; [ obey_side | obey_post ]
  | |- obeys _ _ (read _) _ =>
      apply obeys_read; try exact _; [ obey_side | obey_post ]
  | |- obeys _ _ (fmap _ _) _ => unfold fmap, Script_fmap
  | |- obeys _ _ (attempt _ _) _ =>
      apply obeys_attempt; try exact _; [ | obey_handler ]
  | |- obeys _ _ (λ p, (p, _)) _ => apply obeys_pure; obey_post
  end.

Section functions.
Context `{rt : Runtime} `{env : Environment}.
Variable g : guard.
Context `{stable_licence : !Stable (licence g)}
        `{stable_permit : !∀ a, Stable (permit g a)}.
Variable G : process → Prop.
Context `{!Stable G}.

Lemma select_loop_grows options keys shown :
  ∃ added,
    (select_loop options keys shown).1.1 = shown ++ added ∧
    ∀ q a, Asked q a ∈ added → q = select_prompt.
Proof.
  revert shown. induction keys as [|[answer|] keys IH]; intros shown; simpl.
  - eexists. split; [reflexivity|].
    intros q a H. apply list_elem_of_singleton in H. congruence.
  - assert (Hone : ∀ q a, Asked q a ∈ [Asked select_prompt (Some answer)] →
                          q = select_prompt).
    { intros q a H. apply list_elem_of_singleton in H. congruence. }
    destruct (py_int answer) as [choice|].
    + case_bool_decide.
      * destruct (options !! Z.to_nat (choice - 1)); simpl;
          (eexists; split; [reflexivity|exact Hone]).
      * destruct (IH ((shown ++ [Asked select_prompt (Some answer)]) ++
                      [Printed "Invalid option. Please try again."]))
          as (added & -> & Ha).
        eexists. split; [rewrite <- !app_assoc; reflexivity|].
        intros q a [Hq|[Hq|Hq]%elem_of_app]%elem_of_app; eauto.
        apply list_elem_of_singleton in Hq. discriminate.
    + destruct (IH ((shown ++ [Asked select_prompt (Some answer)]) ++
                    [Printed "Please enter a number."]))
        as (added & -> & Ha).
      eexists. split; [rewrite <- !app_assoc; reflexivity|].
      intros q a [Hq|[Hq|Hq]%elem_of_app]%elem_of_app; eauto.
      apply list_elem_of_singleton in Hq. discriminate.
  - eexists. split; [reflexivity|].
    intros q a H. apply list_elem_of_singleton in H. congruence.
Qed.

Lemma obeys_select_option options (Q : string → process → Prop) :
  watched g select_prompt = false →
  (∀ x p, G p → x ∈ options → Q x p) →
  obeys g G (select_option options) Q.
Proof.
  intros Hw HQ p Hp. unfold select_option.
  set (menu := Printed "Available options:" :: imap _ options).
  pose proof (select_loop_member options (keyboard p) (console p ++ menu))
    as Hmem.
  destruct (select_loop_grows options (keyboard p) (console p ++ menu))
    as (added & Hadd & Hprompt).
  destruct (select_loop options (keyboard p) (console p ++ menu))
    as [[shown keys] r]. cbn [fst snd] in *. subst shown.
  assert (Hr : respects g p {| console := (console p ++ menu) ++ added;
                               keyboard := keys; history := history p |}).
  { apply (respects_quiet g _ _ (menu ++ added) []).
    - cbn [console]. rewrite app_assoc. reflexivity.
    - cbn [history]. rewrite app_nil_r. reflexivity.
    - intros q a [H|H]%elem_of_app.
      + exfalso. unfold menu in H. apply elem_of_cons in H as [H|H];
          [discriminate|].
        apply elem_of_lookup_imap in H as (i & o & H & _). discriminate.
      + apply Hprompt in H. subst q. exact Hw.
    - intros a H. inversion H. }
  split; [exact Hr|]. destruct r as [x|e]; [|exact I].
  apply HQ; [|exact Hmem].
  eapply stable; [|exact Hp]. eapply respects_extends, Hr.
Qed.

Lemma paste_loop_grows keys template_lines shown :
  ∃ added,
    (paste_loop keys template_lines shown).1.1 = shown ++ added ∧
    ∀ q a, Asked q a ∈ added → q = "".
Proof.
  revert template_lines shown.
  induction keys as [|[line|] keys IH]; intros template_lines shown; simpl.
  - eexists. split; [reflexivity|].
    intros q a H. apply list_elem_of_singleton in H. congruence.
  - destruct (IH (template_lines ++ [line]) (shown ++ [Asked "" (Some line)]))
      as (added & -> & Ha).
    eexists. split; [rewrite <- app_assoc; reflexivity|].
    intros q a [H|H]%elem_of_app; eauto.
    apply list_elem_of_singleton in H. congruence.
  - eexists. split; [reflexivity|].
    intros q a H. apply list_elem_of_singleton in H. congruence.
Qed.

Lemma obeys_paste (Q : option string → process → Prop) :
  watched g "" = false →
  (∀ x p, G p → Q x p) →
  obeys g G paste Q.
Proof.
  intros Hw HQ p Hp. unfold paste.
  destruct (paste_loop_grows (keyboard p) [] (console p))
    as (added & Hadd & Hprompt).
  destruct (paste_loop (keyboard p) [] (console p)) as [[shown keys] lines].
  cbn [fst snd] in *. subst shown.
  assert (Hr : respects g p {| console := console p ++ added;
                               keyboard := keys; history := history p |}).
  { apply (respects_quiet g _ _ added []); cbn; try reflexivity.
    - rewrite app_nil_r. reflexivity.
    - intros q a H. apply Hprompt in H. subst q. exact Hw.
    - intros a H. inversion H. }
  split; [exact Hr|]. apply HQ.
  eapply stable; [|exact Hp]. eapply respects_extends, Hr.
Qed.

Lemma obeys_analyze template_content role_name account_id
    (Q : pyval → process → Prop) :
  (∀ c, critical g (Iam c) = false) →
  (∀ x p, G p → Q x p) →
  obeys g G (analyze template_content role_name account_id) Q.
Proof.
  intros Hc HQ p Hp. unfold analyze.
  set (r := run _ _ _ _). cbn [fst snd].
  assert (Hr : respects g p
    {| console := console p ++ (Analysis <$> stdout r.1);
       keyboard := keyboard p;
       history := history p ++ (Iam <$> iam_calls r.1) |}).
  { apply (respects_quiet g _ _ (Analysis <$> stdout r.1)
             (Iam <$> iam_calls r.1)); cbn; try reflexivity.
    - intros q a H. apply list_elem_of_fmap in H as (l & [=] & _).
    - intros a H. apply list_elem_of_fmap in H as (c & -> & _). apply Hc. }
  split; [exact Hr|]. destruct (r.2); [|exact I].
  apply HQ. eapply stable; [|exact Hp]. eapply respects_extends, Hr.
Qed.

Lemma obeys_create_pipeline_role role_name account_id
    (Q : string → process → Prop) :
  (∀ c, critical g (Iam c) = false) →
  (∀ arn p,
     G p →
     answered
       (Iam (Create_role role_name pipeline_trust_policy
               pipeline_role_description))
       (λ h, iam_create_role h role_name pipeline_trust_policy
               pipeline_role_description) arn p →
     answered
       (Iam (Put_role_policy role_name (role_name +:+ "Policy")
               (pipeline_policy account_id)))
       (λ h, iam_put_role_policy h role_name (role_name +:+ "Policy")
               (pipeline_policy account_id)) () p →
     Q arn p) →
  obeys g G (create_pipeline_role role_name account_id) Q.
Proof.
  intros Hc HQ. unfold create_pipeline_role.
  repeat obey_basic.
  intros p [[HG H1] H2]. destruct x1. apply HQ; assumption.
Qed.

Lemma obeys_create_cloudformation_role role_name
    (Q : string → process → Prop) :
  (∀ c, critical g (Iam c) = false) →
  critical g (Attach_role_policy role_name AdministratorAccess) = false →
  (∀ arn p,
     G p →
     answered
       (Iam (Create_role role_name cloudformation_trust_policy
               admin_role_description))
       (λ h, iam_create_role h role_name cloudformation_trust_policy
               admin_role_description) arn p →
     answered (Attach_role_policy role_name AdministratorAccess)
       (λ h, iam_attach_role_policy h role_name AdministratorAccess) () p →
     Q arn p) →
  obeys g G (create_cloudformation_role role_name) Q.
Proof.
  intros Hc Ha HQ. unfold create_cloudformation_role.
  repeat obey_basic.
  intros p [[HG H1] H2]. destruct x1. apply HQ; assumption.
Qed.

Lemma obeys_create_artifact_bucket region (Q : string → process → Prop) :
  (∀ s, critical g (Client s) = false) →
  critical g Get_caller_identity = false →
  critical g Uuid4 = false →
  (∀ b l, critical g (Create_bucket b l) = false) →
  (∀ name p, G p → bucket_created region name p → Q name p) →
  obeys g G (create_artifact_bucket region) Q.
Proof.
  intros Hc Hi Hu Hb HQ. unfold create_artifact_bucket.
  do 3 obey_basic.
  lazymatch goal with
  | |- obeys ?g ?G' (mbind ?f ?m) ?Q' =>
      apply (obeys_bind g G' m f (λ r p, G' p ∧ region = Some r) Q')
  end.
  { destruct region; [|apply obeys_fail].
    apply obeys_ret. intros p Hp. split; [exact Hp|reflexivity]. }
  intros r. cbv beta zeta. obey_basic. obey_basic; [obey_basic|].
  apply obeys_attempt; try exact _; [|obey_handler; repeat obey_basic].
  lazymatch goal with
  | |- obeys ?g ?G' (mbind ?f ?m) ?Q' =>
      apply (obeys_bind g G' m f
               (λ _ p, G' p ∧ bucket_created region x3 p) Q')
  end.
  { destruct (String.eqb r "us-east-1") eqn:E;
      (apply obeys_request; try exact _; [apply Hb|]);
      intros [] p Hp Ha; (split; [exact Hp|]); exists r; rewrite E;
      (split; [tauto|exact Ha]). }
  intros _. repeat obey_basic.
  intros p [Hp Hcreated]. apply HQ; [tauto|exact Hcreated].
Qed.

End functions.

(** ** [main] under a guard *)

Lemma obeys_monotone `{rt : Runtime} `{env : Environment} {A} (m : Script A) :
  obeys unguarded (λ _, True) m (λ _ _, True) → monotone m.
Proof.
  intros H p. destruct (H p I) as [Hr _].
  eapply (respects_extends unguarded), Hr.
Qed.

(** From the start, every critical request of a run that obeys a guard
    has its permit at the end, and the licence holds there if a watched
    prompt was asked. *)
Lemma permit_from_start (g : guard) {A} (m : Script A) keys a :
  obeys g (λ _, True) m (λ _ _, True) →
  a ∈ history (m (start keys)).1 →
  critical g a = true →
  permit g a (m (start keys)).1.
Proof.
  intros H Ha Hc.
  destruct (H (start keys) I) as [(shown & requests & _ & Hh & _ & HP) _].
  apply HP; [|exact Hc]. unfold start in *. cbn [history app] in Hh.
  rewrite <- Hh. exact Ha.
Qed.

Lemma licence_from_start (g : guard) {A} (m : Script A) keys q a :
  obeys g (λ _, True) m (λ _ _, True) →
  Asked q a ∈ console (m (start keys)).1 →
  watched g q = true →
  licence g (m (start keys)).1.
Proof.
  intros H Ha Hw.
  destruct (H (start keys) I) as [(shown & requests & Hc & _ & HL & _) _].
  apply HL. exists q, a. split; [|exact Hw].
  unfold start in *. cbn [console app] in Hc. rewrite <- Hc. exact Ha.
Qed.

Ltac obey_call :=
  lazymatch goal with
  | |- obeys _ _ (select_option _) _ =>
      apply obeys_select_option; try exact _; [ obey_side | obey_post ]
  | |- obeys _ _ paste _ =>
      apply obeys_paste; try exact _; [ obey_side | obey_post ]
  | |- obeys _ _ (analyze _ _ _) _ =>
      apply obeys_analyze; try exact _; [ obey_side | obey_post ]
  | |- obeys _ _ (create_pipeline_role _ _) _ => unfold create_pipeline_role
  | |- obeys _ _ (create_cloudformation_role _) _ =>
      unfold create_cloudformation_role
  | |- obeys _ _ (create_artifact_bucket _) _ => unfold create_artifact_bucket
  | |- obeys _ _ (execution_role _ _) _ => unfold execution_role
  | |- obeys _ _ (deploy _ _) _ => unfold deploy
  | |- obeys _ _ (configure _ _ _) _ => unfold configure
  | |- obeys _ _ (main _ _) _ => unfold main
  end.

Ltac obey := repeat first [ obey_call | obey_basic ].

Ltac grows := apply obeys_monotone; obey.

Ltac confirmed_by_answer :=
  let p := fresh "p" in let Hp := fresh "Hp" in
  intros p Hp;
  match goal with
  | H : yes ?a = true |- _ => exists a; split; [tauto|exact H]
  end.

Ltac obey_consent :=
  lazymatch goal with
  | |- obeys consent_guard _ (mbind _ (request (Create_pipeline _) _)) _ =>
      apply obeys_licensed; try exact _;
      [ intros; exact I | intros ?; confirmed_by_answer | grows | obey_post ]
  end.

Ltac split_given H :=
  repeat match type of H with
         | _ ∧ _ => let H' := fresh "Hfact" in destruct H as [H H']
         end.

Ltac started_by_answer :=
  let p := fresh "p" in let Hp := fresh "Hp" in
  intros p Hp; split_given Hp; split;
  [ do 2 eexists; eassumption
  | match goal with
    | H : yes ?a = true |- _ => exists a; split; [assumption|exact H]
    end ].

Ltac obey_start :=
  lazymatch goal with
  | |- obeys start_guard _
         (mbind _ (request (Start_pipeline_execution _) _)) _ =>
      apply obeys_licensed; try exact _;
      [ intros; exact I | intros ?; started_by_answer | grows | obey_post ]
  end.

Ltac admin_by_answer :=
  let p := fresh "p" in let Hp := fresh "Hp" in
  intros p Hp; split_given Hp;
  first
    [ left;
      match goal with
      | H : String.eqb ?a "1" = true |- _ =>
          apply String.eqb_eq in H; subst a; assumption
      end
    | right;
      match goal with
      | H : yes ?a = true |- _ => exists a; split; [assumption|exact H]
      end ].

Ltac obey_admin :=
  lazymatch goal with
  | |- obeys admin_guard _ (fmap PStr (create_cloudformation_role _)) _ =>
      apply obeys_licensed; try exact _;
      [ intros; exact I | intros ?; admin_by_answer | grows | obey_post ]
  end.

Ltac obey_connection :=
  lazymatch goal with
  | |- obeys connection_guard ?G
         (mbind ?f (if bool_decide (length ?c = 0) then ?m else mret ()))
         ?Q =>
      apply (obeys_bind connection_guard G
               (if bool_decide (length c = 0) then m else mret ()) f
               (λ _ p, G p ∧ c ≠ []) Q);
      [ case_bool_decide;
        [ repeat obey_basic
        | apply obeys_ret; intros; split; [assumption|];
          let Heq := fresh "Heq" in
          intros Heq;
          match goal with
          | H : length _ ≠ 0 |- _ => apply H; rewrite Heq; reflexivity
          end ]
      | intros _; apply obeys_licensed; try exact _;
        [ intros; exact I
        | let p := fresh "p" in let Hp := fresh "Hp" in
          intros ? p Hp; split_given Hp; eexists; split; eassumption
        | grows
        | obey_post ] ]
  end.

Ltac obey_provision :=
  lazymatch goal with
  | |- obeys provision_guard ?G (mbind ?f (create_pipeline_role ?n ?a)) ?Q =>
      apply (obeys_bind provision_guard G (create_pipeline_role n a) f
               (λ arn p, G p ∧ pipeline_role_created n a arn p) Q);
      [ apply obeys_create_pipeline_role; try exact _;
        [ reflexivity | intros; split; [assumption|split; assumption] ]
      | intros ?; cbv beta zeta ]
  | |- obeys provision_guard ?G (mbind ?f (create_artifact_bucket ?r)) ?Q =>
      apply (obeys_bind provision_guard G (create_artifact_bucket r) f
               (λ name p, G p ∧ bucket_created r name p) Q);
      [ apply obeys_create_artifact_bucket; try exact _;
        [ reflexivity | reflexivity | reflexivity | reflexivity
        | intros; split; assumption ]
      | intros ?; cbv beta zeta ]
  | |- obeys provision_guard _ (deploy _ _) _ =>
      apply obeys_licensed; try exact _;
      [ let p := fresh "p" in let Hp := fresh "Hp" in
        intros p Hp; split_given Hp; do 5 eexists; split; eassumption
      | intros; exact I
      | grows
      | obey_post ]
  end.

Ltac obey_region :=
  lazymatch goal with
  | |- obeys region_guard ?G
         (mbind ?f (if yes ?a
                    then mbind ?k (request (Client "ec2") ?c) else ?m2)) ?Q =>
      apply (obeys_bind region_guard G
               (if yes a then mbind k (request (Client "ec2") c) else m2) f
               (λ region p, G p ∧ (region = None ∨ region_known p)) Q);
      [ destruct (yes a) eqn:?; repeat first [ obey_call | obey_basic ]
      | intros ?; cbv beta zeta ]
  | |- obeys region_guard ?G (mbind ?f (create_artifact_bucket ?r)) ?Q =>
      destruct r;
      [ apply obeys_licensed; try exact _;
        [ intros; exact I
        | let p := fresh "p" in let Hp := fresh "Hp" in
          intros ? p Hp; split_given Hp;
          match goal with
          | H : _ = None ∨ region_known p |- _ =>
              destruct H as [H|H]; [discriminate H|exact H]
          end
        | grows
        | obey_post ]
      | lazymatch goal with
        | |- obeys _ ?G' (mbind ?f' _) ?Q' =>
            apply (obeys_bind region_guard G' (create_artifact_bucket None) f'
                     (λ _ _, False) Q')
        end;
        [ unfold create_artifact_bucket; do 3 obey_basic;
          apply (obeys_bind region_guard _ _ _ (λ _ _, False) _);
          [ apply obeys_fail | intros ? ? [] ]
        | intros ? ? [] ] ]
  end.

Section main.
Context `{rt : Runtime} `{env : Environment}.

Lemma main_monotone script args : monotone (main script args).
Proof. grows. Qed.

Lemma main_obeys_consent_guard script args :
  obeys consent_guard (λ _, True) (main script args) (λ _ _, True).
Proof. repeat first [ obey_consent | obey_call | obey_basic ]. Qed.

(** *** Starting the pipeline *)

Lemma main_obeys_start_guard script args :
  obeys start_guard (λ _, True) (main script args) (λ _ _, True).
Proof. repeat first [ obey_start | obey_call | obey_basic ]. Qed.

(** *** Administrator access *)

Lemma main_obeys_admin_guard script args :
  obeys admin_guard (λ _, True) (main script args) (λ _ _, True).
Proof. repeat first [ obey_admin | obey_call | obey_basic ]. Qed.

(** *** Connections *)

Lemma main_obeys_connection_guard script args :
  obeys connection_guard (λ _, True) (main script args) (λ _ _, True).
Proof. repeat first [ obey_connection | obey_call | obey_basic ]. Qed.

(** *** What is there when the confirmation is asked for *)

Lemma main_obeys_provision_guard script args :
  obeys provision_guard (λ _, True) (main script args) (λ _ _, True).
Proof. repeat first [ obey_provision | obey_call | obey_basic ]. Qed.

(** *** The region *)

Lemma main_obeys_region_guard script args :
  obeys region_guard (λ _, True) (main script args) (λ _ _, True).
Proof.
  repeat first [ obey_region | obey_call | obey_basic ].
  - intros p Hp. split_given Hp. split; [tauto|].
    right. right. eexists _, _. split; eassumption.
  - intros p Hp. split_given Hp. split; [tauto|].
    destruct x as [region|]; [right|left; reflexivity].
    left. eexists _, _. eassumption.
Qed.

(** *** The guards, from the start *)

(** X6: whatever is typed and whatever the services answer, [main] asks for
    the pipeline to be created, or for its execution to be started, only in a
    run in which the user has answered ["y"] or ["Y"] to the question whether
    to proceed with the deployment. *)
Theorem deployment_needs_consent script args keys a :
  a ∈ history (main script args (start keys)).1 →
  deploys a = true →
  ∃ answer,
    Asked confirm_prompt (Some answer) ∈
      console (main script args (start keys)).1 ∧
    yes answer = true.
Proof.
  intros Ha Hd.
  exact (permit_from_start consent_guard (main script args) keys a
           (main_obeys_consent_guard script args) Ha Hd).
Qed.

(** X7: [main] asks for the execution of the pipeline to be started only in
    a run in which [create_pipeline] has been requested and has returned, and
    the user has answered ["y"] or ["Y"] to the question whether to start it
    now. *)
Theorem execution_started_on_request script args keys name :
  Start_pipeline_execution name ∈ history (main script args (start keys)).1 →
  (∃ definition response before after,
     history (main script args (start keys)).1 =
       before ++ Create_pipeline definition :: after ∧
     codepipeline_create_pipeline before definition = Normal response) ∧
  ∃ answer,
    Asked start_prompt (Some answer) ∈
      console (main script args (start keys)).1 ∧
    yes answer = true.
Proof.
  intros Ha.
  destruct (permit_from_start start_guard (main script args) keys _
              (main_obeys_start_guard script args) Ha eq_refl) as [Hc Hs].
  split; [|exact Hs].
  destruct Hc as (definition & response & before & after & H1 & H2).
  exists definition, response, before, after. split; assumption.
Qed.

(** X8: [main] attaches a managed policy to a role, which the script does
    for [AdministratorAccess], only in a run in which the user has typed
    ["1"] at the choice between the two kinds of role, or has answered ["y"]
    or ["Y"] to the offer of an administrator role after the scoped one
    failed. *)
Theorem admin_access_on_choice script args keys role_name policy :
  Attach_role_policy role_name policy ∈
    history (main script args (start keys)).1 →
  Asked role_type_prompt (Some "1") ∈
    console (main script args (start keys)).1 ∨
  ∃ answer,
    Asked fallback_prompt (Some answer) ∈
      console (main script args (start keys)).1 ∧
    yes answer = true.
Proof.
  intros Ha.
  exact (permit_from_start admin_guard (main script args) keys _
           (main_obeys_admin_guard script args) Ha eq_refl).
Qed.

(** X9: [main] creates nothing (no role, no policy, no bucket, no pipeline)
    and starts nothing unless [list_connections] has returned at least one
    connection. *)
Theorem nothing_created_without_connection script args keys a :
  a ∈ history (main script args (start keys)).1 →
  creates a = true →
  ∃ connections_response before after,
    history (main script args (start keys)).1 =
      before ++ List_connections :: after ∧
    list_connections before = Normal connections_response ∧
    default [] connections_response ≠ [].
Proof.
  intros Ha Hc.
  destruct (permit_from_start connection_guard (main script args) keys a
              (main_obeys_connection_guard script args) Ha Hc)
    as (response & (before & after & H1 & H2) & Hne).
  exists response, before, after. repeat split; assumption.
Qed.

(** X10: in a run in which [main] gets to ask whether to proceed with the
    deployment, whatever the answer, the role of the pipeline has been
    created and given its policy and the artifact bucket has been created,
    each request having returned: an answer other than ["y"] leaves them
    behind. *)
Theorem provisioned_before_confirmation script args keys answer :
  Asked confirm_prompt answer ∈ console (main script args (start keys)).1 →
  ∃ role_name account_id arn region bucket,
    pipeline_role_created role_name account_id arn
      (main script args (start keys)).1 ∧
    bucket_created region bucket (main script args (start keys)).1.
Proof.
  intros Ha.
  exact (licence_from_start provision_guard (main script args) keys
           confirm_prompt answer (main_obeys_provision_guard script args)
           Ha eq_refl).
Qed.

(** X11: [main] asks for the bucket and for the pipeline only in a run in
    which the session of the profile had a region or the user has answered
    ["y"] or ["Y"] to the offer of another region: with no region,
    [region.lower()] raises before the bucket is asked for. *)
Theorem deployment_needs_region script args keys a :
  a ∈ history (main script args (start keys)).1 →
  needs_region a = true →
  (∃ profile region before after,
     history (main script args (start keys)).1 =
       before ++ New_session profile None :: after ∧
     new_session before profile None = Normal (Some region)) ∨
  (∃ default_region answer,
     Asked (region_prompt default_region) (Some answer) ∈
       console (main script args (start keys)).1 ∧
     yes answer = true).
Proof.
  intros Ha Hc.
  destruct (permit_from_start region_guard (main script args) keys a
              (main_obeys_region_guard script args) Ha Hc)
    as [(profile & region & before & after & H1 & H2)|H].
  - left. exists profile, region, before, after. split; assumption.
  - right. exact H.
Qed.

End main.

(** ** The resolver and the client *)

Section calls.
Context `{rt : Runtime}.

(** A run ends before the role-creation step, the client not called and
    [None] returned, or it ends in that step. *)
Lemma run_shape template_content role_name iam account_id :
  (iam_calls (run template_content role_name iam account_id).1 = [] ∧
   (run template_content role_name iam account_id).2 = Normal PNone) ∨
  ∃ needed w,
    run template_content role_name iam account_id =
      finish role_name iam needed w ∧ iam_calls w = [].
Proof.
  assert (Hparsed : ∀ t,
    (iam_calls (analyze_parsed t role_name iam).1 = [] ∧
     (analyze_parsed t role_name iam).2 = Normal PNone) ∨
    ∃ needed w,
      analyze_parsed t role_name iam = finish role_name iam needed w ∧
      iam_calls w = []).
  { intros t. rewrite analyze_parsed_spec.
    destruct (py_get t "Resources" (PDict [])) as [resources|e];
      [|left; split; reflexivity].
    destruct (py_items resources) as [items|e]; [|left; split; reflexivity].
    unfold resolve_collected.
    destruct (collect_types items []) as [[|x s]|e];
      try (left; split; reflexivity).
    destruct (str_members (x :: s)) as [members|];
      [|left; split; reflexivity].
    right. eexists _, _. split; reflexivity. }
  rewrite run_cases.
  destruct (json_loads template_content) as [t|[]];
    try apply Hparsed; try (left; split; reflexivity).
  destruct (yaml_safe_load template_content) as [t|[]];
    try apply Hparsed; left; split; reflexivity.
Qed.

(** What the role-creation step returns and calls. *)
Lemma finish_outcome role_name iam needed w :
  iam_calls w = [] →
  ∃ v,
    (finish role_name iam needed w).2 = Normal v ∧
    (v = PNone ∨
     ∃ response role ok,
       create_role iam role_name trust_policy role_description =
         Normal response ∧
       put_role_policy iam role_name (role_name +:+ "Policy")
         (permission_policy needed) = Normal ok ∧
       py_subscript response "Role" = Normal role ∧
       py_subscript role "Arn" = Normal v ∧
       iam_calls (finish role_name iam needed w).1 =
         [Create_role role_name trust_policy role_description;
          Put_role_policy role_name (role_name +:+ "Policy")
            (permission_policy needed)]).
Proof.
  intros Hw.
  unfold finish, call, try_except, create_execution_role, try_except, invoke,
    mbind, M_bind, lift, print, return_. simpl. rewrite Hw.
  destruct (create_role iam role_name trust_policy _) as [response|[]] eqn:E1;
    simpl;
    try (exists PNone; split; [reflexivity|left; reflexivity]).
  destruct (put_role_policy iam role_name _ _) as [ok|[]] eqn:E2; simpl;
    try (exists PNone; split; [reflexivity|left; reflexivity]).
  destruct (py_subscript response "Role") as [role|[]] eqn:E3; simpl;
    try (exists PNone; split; [reflexivity|left; reflexivity]).
  destruct (py_subscript role "Arn") as [arn|[]] eqn:E4; simpl;
    try (exists PNone; split; [reflexivity|left; reflexivity]).
  exists arn. split; [reflexivity|]. right.
  exists response, role, ok.
  repeat split; first [reflexivity|assumption].
Qed.

(** X12: whatever the template and whatever the client answers, the function
    calls the client for one role at most, the role of the name it was
    given: it calls nothing, or [create_role] with the trust policy of
    CloudFormation and CodePipeline and then, when that returned,
    [put_role_policy] once for the policy named after the role. *)
Theorem calls_of_run template_content role_name iam account_id :
  iam_calls (run template_content role_name iam account_id).1 = [] ∨
  ∃ needed,
    iam_calls (run template_content role_name iam account_id).1 =
      Create_role role_name trust_policy role_description ::
      match create_role iam role_name trust_policy role_description with
      | Normal _ =>
          [Put_role_policy role_name (role_name +:+ "Policy")
             (permission_policy needed)]
      | Raised _ => []
      end.
Proof.
  destruct (run_shape template_content role_name iam account_id)
    as [[H _]|(needed & w & -> & Hw)]; [left; exact H|].
  right. exists needed.
  destruct (finish_spec role_name iam needed w) as (tail & v & -> & _).
  cbn [fst iam_calls]. rewrite Hw. reflexivity.
Qed.

(** X13: when the function returns anything but [None], both calls of the
    client have returned, the role has its policy, and what is returned is
    the ARN of the answer of [create_role]. *)
Theorem returned_arn_of_created_role template_content role_name iam account_id
    v :
  (run template_content role_name iam account_id).2 = Normal v →
  v ≠ PNone →
  ∃ needed response role ok,
    create_role iam role_name trust_policy role_description =
      Normal response ∧
    put_role_policy iam role_name (role_name +:+ "Policy")
      (permission_policy needed) = Normal ok ∧
    py_subscript response "Role" = Normal role ∧
    py_subscript role "Arn" = Normal v ∧
    iam_calls (run template_content role_name iam account_id).1 =
      [Create_role role_name trust_policy role_description;
       Put_role_policy role_name (role_name +:+ "Policy")
         (permission_policy needed)].
Proof.
  intros Hv Hne.
  destruct (run_shape template_content role_name iam account_id)
    as [[_ H]|(needed & w & Hrun & Hw)].
  { rewrite H in Hv. injection Hv as <-. contradiction. }
  rewrite Hrun in Hv |- *.
  destruct (finish_outcome role_name iam needed w Hw) as (v' & Hv' & H).
  rewrite Hv' in Hv. injection Hv as ->.
  destruct H as [->|(response & role & ok & H1 & H2 & H3 & H4 & H5)];
    [contradiction|].
  exists needed, response, role, ok. repeat split; assumption.
Qed.

(** X14: a template that declares every type another declares requires
    every permission the other requires. *)
Theorem more_declarations_more_permissions template_content template_content'
    resources resources' tys tys' role_name iam account_id permissions
    permissions' :
  template_of template_content resources →
  declared_types resources = Some tys →
  template_of template_content' resources' →
  declared_types resources' = Some tys' →
  tys ≠ [] →
  tys ⊆ tys' →
  required_permissions (run template_content role_name iam account_id).1 =
    Some permissions →
  required_permissions (run template_content' role_name iam account_id).1 =
    Some permissions' →
  permissions ⊆ permissions'.
Proof.
  intros Ht Hd Ht' Hd' Hne Hsub Hp Hp'.
  assert (Hne' : tys' ≠ []).
  { destruct tys as [|t tys]; [contradiction|].
    intros ->. specialize (Hsub t). rewrite elem_of_cons in Hsub.
    apply not_elem_of_nil in Hsub; [contradiction|]. left. reflexivity. }
  destruct (valid_run _ _ _ role_name iam account_id Ht Hd Hne) as [H _].
  destruct (valid_run _ _ _ role_name iam account_id Ht' Hd' Hne') as [H' _].
  rewrite H in Hp. rewrite H' in Hp'.
  injection Hp as <-. injection Hp' as <-.
  intros p. rewrite !elem_of_resolved.
  intros [?|[?|(t & l & Hin & ? & ?)]]; [auto|auto|].
  right. right. exists t, l. split; [apply Hsub, Hin|auto].
Qed.

End calls.

(** *** A [Type] that is not a string *)

Lemma str_members_app s s' :
  str_members s = None → str_members (s ++ s') = None.
Proof.
  induction s as [|x s IH]; [discriminate|]. simpl.
  destruct x; try reflexivity.
  destruct (str_members s); [discriminate|]. intros _.
  rewrite IH by reflexivity. reflexivity.
Qed.

Lemma str_members_snoc s x :
  (∀ t, x ≠ PStr t) → str_members (s ++ [x]) = None.
Proof.
  intros Hx. induction s as [|y s IH]; simpl.
  - destruct x; try reflexivity. exfalso. eapply Hx. reflexivity.
  - rewrite IH. destruct y; reflexivity.
Qed.

Lemma str_members_existsb s x :
  (∀ t, x ≠ PStr t) → existsb (hashable_eqb x) s = true →
  str_members s = None.
Proof.
  intros Hx. induction s as [|y s IH]; [discriminate|]. simpl.
  intros [H|H]%orb_true_iff.
  - destruct x, y; try discriminate H; try reflexivity.
    exfalso. eapply Hx. reflexivity.
  - rewrite (IH H). destruct y; reflexivity.
Qed.

Lemma collect_types_odd items acc :
  forallb is_mapping items = true →
  existsb odd_type items = true ∨ str_members acc = None →
  collect_types items acc = Raised TypeError ∨
  ∃ s, collect_types items acc = Normal s ∧ str_members s = None.
Proof.
  revert acc. induction items as [|[name d] items IH]; intros acc Hm Ho.
  - destruct Ho as [Ho|Ho]; [discriminate|]. right. exists acc. split; auto.
  - simpl in Hm. apply andb_true_iff in Hm as [Hd Hm].
    unfold is_mapping in Hd. cbn [snd] in Hd.
    destruct d as [| | | | | | fields | | |]; try discriminate Hd.
    cbn [collect_types py_get].
    simpl in Ho. unfold odd_type at 1 in Ho. cbn [snd] in Ho.
    destruct (dict_get fields "Type") as [v|]; cbn [default from_option id].
    + destruct (truthy v) eqn:Hv.
      * unfold set_add.
        destruct (hashable v) eqn:Hh; [|left; reflexivity].
        destruct (existsb (hashable_eqb v) acc) eqn:He.
        -- apply IH; [exact Hm|].
           destruct v; try (right; eapply str_members_existsb;
             [|exact He]; intros t; discriminate).
           simpl in Ho. exact Ho.
        -- apply IH; [exact Hm|].
           destruct v; try (right; apply str_members_snoc; intros t;
             discriminate).
           simpl in Ho. destruct Ho as [Ho|Ho]; [left; exact Ho|].
           right. apply str_members_app, Ho.
      * apply IH; [exact Hm|].
        destruct v; simpl in Ho; try rewrite Hv in Ho; exact Ho.
    + simpl. apply IH; [exact Hm|exact Ho].
Qed.

(** X15: when every declaration is a mapping and one of them has a [Type]
    that is truthy and is not a string (a number, a list), the run ends in
    the handler of the outer [try] with a [TypeError]: the error is printed,
    the client is not called and [None] is returned. *)
Theorem odd_type_is_analysis_error `{rt : Runtime} template_content resources
    role_name iam account_id :
  template_of template_content resources →
  forallb is_mapping resources = true →
  existsb odd_type resources = true →
  run template_content role_name iam account_id = analysis_error TypeError.
Proof.
  intros Ht Hm Ho. rewrite (run_template_of _ resources) by exact Ht.
  destruct (collect_types_odd resources [] Hm (or_introl Ho))
    as [->|(s & -> & Hs)]; [reflexivity|].
  apply resolve_collected_non_str; [|exact Hs].
  intros ->. discriminate Hs.
Qed.

(** ** The execution role *)

Section execution_role_result.
Context `{rt : Runtime} `{env : Environment}.

(** What the resolver returns to [main] is [None] or the ARN with which
    [create_role] answered. *)
Lemma analyze_returns template_content role_name account_id p v :
  (analyze template_content role_name account_id p).2 = Done v →
  v = PNone ∨ role_of v (analyze template_content role_name account_id p).1.
Proof.
  unfold analyze. cbn [fst snd].
  set (iam := resolver_client (history p) role_name).
  destruct (run_shape template_content role_name iam account_id)
    as [[_ H]|(needed & w & Hrun & Hw)].
  { rewrite H. intros [= <-]. left. reflexivity. }
  rewrite Hrun.
  destruct (finish_outcome role_name iam needed w Hw) as (v' & -> & H).
  intros [= <-].
  destruct H as [->|(response & role & ok & H1 & H2 & H3 & H4 & H5)];
    [left; reflexivity|].
  right. rewrite H5. unfold iam, resolver_client in H1. cbn [create_role] in H1.
  destruct (iam_create_role (history p) role_name trust_policy
              role_description) as [arn|e] eqn:E; [|discriminate H1].
  injection H1 as <-. vm_compute in H3. injection H3 as <-.
  vm_compute in H4. injection H4 as <-.
  exists role_name, trust_policy, role_description, arn.
  split; [reflexivity|].
  exists (history p), [Iam (Put_role_policy role_name (role_name +:+ "Policy")
                              (permission_policy needed))].
  split; [reflexivity|exact E].
Qed.

End execution_role_result.

Section analyze_guarded.
Context `{rt : Runtime} `{env : Environment}.
Variable g : guard.
Context `{stable_licence : !Stable (licence g)}
        `{stable_permit : !∀ a, Stable (permit g a)}.
Variable G : process → Prop.
Context `{!Stable G}.
Hypothesis iam_free : ∀ c, critical g (Iam c) = false.

Lemma obeys_analyze_role template_content role_name account_id :
  obeys g G (analyze template_content role_name account_id)
    (λ v p, G p ∧ (v = PNone ∨ role_of v p)).
Proof.
  intros p Hp.
  destruct (obeys_analyze g G template_content role_name account_id
              (λ _ p, G p) iam_free (λ _ _ H, H) p Hp) as [Hr HQ].
  split; [exact Hr|].
  destruct (analyze template_content role_name account_id p).2 as [v|] eqn:E;
    [|exact I].
  split; [exact HQ|]. apply analyze_returns, E.
Qed.

End analyze_guarded.

Ltac obey_role :=
  lazymatch goal with
  | |- obeys ?g ?G
         (mbind ?f (if String.eqb ?t "1"
                    then fmap PStr (create_cloudformation_role ?n)
                    else ?m2)) ?Q =>
      apply (obeys_bind g G
               (if String.eqb t "1"
                then fmap PStr (create_cloudformation_role n) else m2) f
               (λ v p, G p ∧ execution_role_arn v p) Q);
      [ | intros ?; cbv beta zeta ]
  | |- obeys ?g ?G (mbind ?f (if given ?c then ?m1 else ?m2)) ?Q =>
      apply (obeys_bind g G (if given c then m1 else m2) f
               (λ v p, G p ∧ (v = PNone ∨ role_of v p)) Q);
      [ destruct (given c);
        [ apply obeys_analyze_role; try exact _; auto
        | apply obeys_ret; intros; split; [assumption|left; reflexivity] ]
      | intros ?; cbv beta zeta ]
  | |- obeys ?g ?G (fmap PStr (create_cloudformation_role ?n)) _ =>
      unfold fmap, Script_fmap;
      apply (obeys_bind g G _ _ (λ arn p, G p ∧ role_of (PStr arn) p) _);
      [ apply obeys_create_cloudformation_role; try exact _;
        [ auto | auto
        | let H := fresh "H" in
          intros ? ? ? H _; split; [assumption|];
          eexists _, _, _, _; split; [reflexivity|exact H] ]
      | intros ?; apply obeys_ret ]
  end.

Section execution_role_guarded.
Context `{rt : Runtime} `{env : Environment}.
Variable g : guard.
Context `{stable_licence : !Stable (licence g)}
        `{stable_permit : !∀ a, Stable (permit g a)}.
Variable G : process → Prop.
Context `{!Stable G}.
Hypothesis quiet : ∀ q, watched g q = false.
Hypothesis iam_free : ∀ c, critical g (Iam c) = false.
Hypothesis attach_free :
  ∀ r policy, critical g (Attach_role_policy r policy) = false.
Hypothesis uuid_free : critical g Uuid4 = false.
Hypothesis read_free : ∀ path, critical g (Read_file path) = false.

Lemma obeys_execution_role stack_name account_id :
  obeys g G (execution_role stack_name account_id)
    (λ v p, G p ∧ execution_role_arn v p).
Proof.
  unfold execution_role.
  repeat first [ obey_role | obey_call | obey_basic ].
  all: intros p Hp; split_given Hp; (split; [repeat split; assumption|]);
    unfold execution_role_arn;
    first [ tauto
          | left; reflexivity
          | right; left; eexists; split; [reflexivity|assumption] ].
Qed.

End execution_role_guarded.

Section execution_role_arn.
Context `{rt : Runtime} `{env : Environment}.

(** X16: what [main] takes for the ARN of the execution role is [None], or
    the line typed when the ARN of an existing role was asked for, or the ARN
    with which [create_role] answered a request of this process; the
    resolver hands back nothing else. *)
Theorem execution_role_arn_provenance stack_name account_id p v :
  (execution_role stack_name account_id p).2 = Done v →
  v = PNone ∨
  (∃ answer,
     v = PStr answer ∧
     Asked existing_role_prompt (Some answer) ∈
       console (execution_role stack_name account_id p).1) ∨
  (∃ role_name document description arn before after,
     v = PStr arn ∧
     history (execution_role stack_name account_id p).1 =
       before ++ Iam (Create_role role_name document description) :: after ∧
     iam_create_role before role_name document description = Normal arn).
Proof.
  intros Hv.
  destruct (obeys_execution_role unguarded (λ _, True)
              (λ _, eq_refl) (λ _, eq_refl) (λ _ _, eq_refl) eq_refl
              (λ _, eq_refl) stack_name account_id p I) as [_ H].
  rewrite Hv in H. destruct H as [_ H].
  destruct H as [H|[H|(role_name & document & description & arn & -> &
                       before & after & H1 & H2)]]; [auto|auto|].
  right. right.
  exists role_name, document, description, arn, before, after. auto.
Qed.

End execution_role_arn.

(** ** The helpers of [main] *)

Ltac role_outcome :=
  unfold pipeline_role_raises, admin_role_raises;
  repeat match goal with
         | |- _ ∧ _ => split
         | |- _ ↔ _ => split
         | |- ∀ _, _ => intro
         | H : _ ∧ _ |- _ => destruct H
         | H : _ ∨ _ |- _ => destruct H
         | H : ∃ _, _ |- _ => destruct H
         end;
  try congruence; try reflexivity;
  try solve [ left; congruence
            | right; split; [eexists; reflexivity|congruence] ].

Section helpers.
Context `{rt : Runtime} `{env : Environment}.

(** X17: [create_pipeline_role] returns exactly when both its requests
    return, and then the ARN with which [create_role] answered.  A
    [ClientError] of either request is printed after "Error creating
    pipeline role: " and ends the process with status 1, and nothing else
    does; any other exception of either request passes unchanged. *)
Theorem create_pipeline_role_outcome role_name account_id p :
  (∀ arn,
     (create_pipeline_role role_name account_id p).2 = Done arn ↔
     iam_create_role (history p) role_name pipeline_trust_policy
       pipeline_role_description = Normal arn ∧
     iam_put_role_policy
       (history p ++ [Iam (Create_role role_name pipeline_trust_policy
                             pipeline_role_description)])
       role_name (role_name +:+ "Policy") (pipeline_policy account_id) =
       Normal ()) ∧
  ((create_pipeline_role role_name account_id p).2 = Failed (SystemExit 1) ↔
   pipeline_role_raises role_name account_id p ClientError) ∧
  (pipeline_role_raises role_name account_id p ClientError →
   last (console (create_pipeline_role role_name account_id p).1) =
     Some (Printed_error "Error creating pipeline role: "
             (Error ClientError))) ∧
  (∀ e,
     e ≠ ClientError →
     ((create_pipeline_role role_name account_id p).2 = Failed (Error e) ↔
      pipeline_role_raises role_name account_id p e)) ∧
  (create_pipeline_role role_name account_id p).2 ≠
    Failed (Error ClientError).
Proof.
  unfold pipeline_role_raises, create_pipeline_role, say, emit, attempt,
    request, exit, fail, mbind, Script_bind, mret, Script_ret.
  cbn [fst snd history console keyboard].
  destruct (iam_create_role (history p) role_name pipeline_trust_policy
              pipeline_role_description) as [arn0|[]];
    cbn [fst snd history console keyboard].
  2-8: try rewrite last_snoc; role_outcome.
  destruct (iam_put_role_policy _ role_name (role_name +:+ "Policy")
              (pipeline_policy account_id)) as [[]|[]];
    cbn [fst snd history console keyboard];
    try rewrite last_snoc; role_outcome.
Qed.

(** X18: [create_cloudformation_role] returns exactly when both its requests
    return, [AdministratorAccess] attached, and then the ARN with which
    [create_role] answered.  A [ClientError] of either request is printed
    after "Error creating CloudFormation role: " and ends the process with
    status 1, and nothing else does; any other exception of either request
    passes unchanged. *)
Theorem create_cloudformation_role_outcome role_name p :
  (∀ arn,
     (create_cloudformation_role role_name p).2 = Done arn ↔
     iam_create_role (history p) role_name cloudformation_trust_policy
       admin_role_description = Normal arn ∧
     iam_attach_role_policy
       (history p ++ [Iam (Create_role role_name cloudformation_trust_policy
                             admin_role_description)])
       role_name AdministratorAccess = Normal ()) ∧
  ((create_cloudformation_role role_name p).2 = Failed (SystemExit 1) ↔
   admin_role_raises role_name p ClientError) ∧
  (admin_role_raises role_name p ClientError →
   last (console (create_cloudformation_role role_name p).1) =
     Some (Printed_error "Error creating CloudFormation role: "
             (Error ClientError))) ∧
  (∀ e,
     e ≠ ClientError →
     ((create_cloudformation_role role_name p).2 = Failed (Error e) ↔
      admin_role_raises role_name p e)) ∧
  (create_cloudformation_role role_name p).2 ≠ Failed (Error ClientError).
Proof.
  unfold admin_role_raises, create_cloudformation_role, say, emit, attempt,
    request, exit, fail, mbind, Script_bind, mret, Script_ret.
  cbn [fst snd history console keyboard].
  destruct (iam_create_role (history p) role_name cloudformation_trust_policy
              admin_role_description) as [arn0|[]];
    cbn [fst snd history console keyboard].
  2-8: try rewrite last_snoc; role_outcome.
  destruct (iam_attach_role_policy _ role_name AdministratorAccess)
    as [[]|[]];
    cbn [fst snd history console keyboard];
    try rewrite last_snoc; role_outcome.
Qed.

(** X19: an answer other than ["1"] and ["2"] to the choice between the two
    kinds of role is reported as invalid, and the script goes on with [None]
    for the ARN of the execution role: nothing is asked again and no role is
    requested. *)
Theorem execution_role_invalid_choice stack_name account_id p create role_type
    rest :
  keyboard p = Some create :: Some role_type :: rest →
  yes create = true →
  role_type ≠ "1" →
  role_type ≠ "2" →
  execution_role stack_name account_id p =
  ({| console :=
        console p ++
        [Asked "Do you want to create a new CloudFormation execution role? (y/n): "
           (Some create);
         Asked role_type_prompt (Some role_type);
         Printed "Invalid option selected."];
      keyboard := rest;
      history := history p ++ [Uuid4] |}, Done PNone).
Proof.
  intros Hk Hy H1 H2.
  apply String.eqb_neq in H1, H2.
  unfold execution_role, input, say, emit, request, mbind, Script_bind, mret,
    Script_ret.
  rewrite Hk. cbn [fst snd history console keyboard]. rewrite Hy.
  cbn [fst snd history console keyboard]. rewrite H1, H2.
  cbn [fst snd history console keyboard truthy].
  rewrite <- !app_assoc. reflexivity.
Qed.



End helpers.

(** ** The pipeline asked for *)

#[global] Instance stable_said text : Stable (said text).
Proof.
  intros p p' [[k Hk] _] H. unfold said in *. rewrite Hk.
  apply elem_of_app. left. exact H.
Qed.

#[global] Instance stable_chosen_after `{env : Environment} heading options x :
  Stable (chosen_after heading options x).
Proof.
  intros p p' [[k Hk] _] (before & answer & choice & after & Hc & H).
  exists before, answer, choice, (after ++ k). split; [|exact H].
  rewrite Hk, Hc, <- app_assoc. reflexivity.
Qed.

(** The line at which the loop of [select_option] ends is the last it
    shows: a number in range, that of the option returned. *)
Lemma select_loop_chosen `{env : Environment} options keys shown x :
  (select_loop options keys shown).2 = Done x →
  ∃ rejected answer choice,
    (select_loop options keys shown).1.1 =
      shown ++ rejected ++ [Asked select_prompt (Some answer)] ∧
    py_int answer = Some choice ∧
    (1 ≤ choice ≤ Z.of_nat (length options))%Z ∧
    options !! Z.to_nat (choice - 1) = Some x.
Proof.
  revert shown. induction keys as [|[answer|] keys IH]; intros shown; simpl;
    try discriminate.
  destruct (py_int answer) as [choice|] eqn:Hint.
  - case_bool_decide as Hrange.
    + destruct (options !! Z.to_nat (choice - 1)) as [y|] eqn:Hy; simpl;
        [|discriminate].
      intros [= ->]. exists [], answer, choice. auto.
    + intros H. destruct (IH _ H) as (rejected & a & c & -> & Hrest).
      exists ([Asked select_prompt (Some answer)] ++
              [Printed "Invalid option. Please try again."] ++ rejected),
        a, c.
      split; [rewrite <- !app_assoc; reflexivity|exact Hrest].
  - intros H. destruct (IH _ H) as (rejected & a & c & -> & Hrest).
    exists ([Asked select_prompt (Some answer)] ++
            [Printed "Please enter a number."] ++ rejected), a, c.
    split; [rewrite <- !app_assoc; reflexivity|exact Hrest].
Qed.

Section chosen.
Context `{rt : Runtime} `{env : Environment}.
Variable g : guard.
Context `{stable_licence : !Stable (licence g)}
        `{stable_permit : !∀ a, Stable (permit g a)}.
Variable G : process → Prop.
Context `{!Stable G}.

Lemma obeys_say_said text :
  obeys g G (say text) (λ _ p, G p ∧ said text p).
Proof.
  intros p Hp.
  destruct (obeys_say g G (λ _ p, G p) text (λ _ H, H) p Hp) as [Hr HG].
  split; [exact Hr|]. split; [exact HG|].
  unfold said, say, emit. cbn. apply elem_of_app. right. left.
Qed.

Lemma obeys_select_option_chosen heading options :
  watched g select_prompt = false →
  (∀ p, G p → said heading p) →
  obeys g G (select_option options)
    (λ x p, G p ∧ chosen_after heading options x p).
Proof.
  intros Hw Hsaid p Hp.
  destruct (obeys_select_option g G options (λ _ p, G p) Hw (λ _ _ H _, H)
              p Hp) as [Hr HG].
  split; [exact Hr|].
  destruct (select_option options p).2 as [x|] eqn:E; [|exact I].
  split; [exact HG|].
  unfold select_option in *.
  set (menu := Printed "Available options:" :: imap _ options) in *.
  pose proof (select_loop_chosen options (keyboard p) (console p ++ menu) x)
    as Hc.
  destruct (select_loop options (keyboard p) (console p ++ menu))
    as [[shown keys] r]. cbn [fst snd] in *.
  destruct (Hc E) as (rejected & answer & choice & -> & Hrest).
  exists ((console p ++ menu) ++ rejected), answer, choice, [].
  split; [cbn [console]; rewrite <- !app_assoc; reflexivity|].
  split; [|exact Hrest].
  apply elem_of_app. left. apply elem_of_app. left. apply Hsaid, Hp.
Qed.

End chosen.

#[global] Instance stable_described `{env : Environment} a :
  Stable (permit described_guard a).
Proof. destruct a; exact _. Qed.

Ltac obey_described :=
  lazymatch goal with
  | |- obeys ?g ?G (mbind ?f (say "Available connections:")) ?Q =>
      apply (obeys_bind g G (say "Available connections:") f
               (λ _ p, G p ∧ said connections_heading p) Q);
      [ apply obeys_say_said; try exact _
      | intros ?; cbv beta zeta ]
  | |- obeys ?g ?G (mbind ?f (select_option ?o)) ?Q =>
      apply (obeys_bind g G (select_option o) f
               (λ x p, G p ∧ chosen_after connections_heading o x p) Q);
      [ apply obeys_select_option_chosen; try exact _;
        [ reflexivity
        | let p := fresh "p" in let Hp := fresh "Hp" in
          intros p Hp; split_given Hp; assumption ]
      | intros ?; cbv beta zeta ]
  | |- obeys ?g ?G (mbind ?f (λ p, (p, connection_arn_of ?c ?s))) ?Q =>
      apply (obeys_bind g G (λ p, (p, connection_arn_of c s)) f
               (λ arn p, G p ∧ connection_arn_of c s = Done arn) Q);
      [ apply obeys_pure; intros; split; assumption
      | intros ?; cbv beta zeta ]
  | |- obeys ?g ?G (mbind ?f (create_pipeline_role ?n ?a)) ?Q =>
      apply (obeys_bind g G (create_pipeline_role n a) f
               (λ arn p, G p ∧ pipeline_role_created n a arn p) Q);
      [ apply obeys_create_pipeline_role; try exact _;
        [ reflexivity | intros; split; [assumption|split; assumption] ]
      | intros ?; cbv beta zeta ]
  | |- obeys ?g ?G (mbind ?f (execution_role ?s ?a)) ?Q =>
      apply (obeys_bind g G (execution_role s a) f
               (λ v p, G p ∧ execution_role_arn v p) Q);
      [ apply obeys_execution_role; try exact _; reflexivity
      | intros ?; cbv beta zeta ]
  | |- obeys ?g ?G (mbind ?f (create_artifact_bucket ?r)) ?Q =>
      apply (obeys_bind g G (create_artifact_bucket r) f
               (λ name p, G p ∧ bucket_created r name p) Q);
      [ apply obeys_create_artifact_bucket; try exact _;
        [ reflexivity | reflexivity | reflexivity | reflexivity
        | intros; split; assumption ]
      | intros ?; cbv beta zeta ]
  | |- obeys ?g ?G (mbind ?f (request (Create_pipeline ?d) ?answer)) ?Q =>
      apply (obeys_bind g G (request (Create_pipeline d) answer) f
               (λ _ p, G p) Q);
      [ apply obeys_request_permitted; try exact _;
        [ let p := fresh "p" in let Hp := fresh "Hp" in
          intros p Hp; split_given Hp;
          eexists _, _, _, _, _, _, _, _, _, _, _, _, _, _, _, _;
          split; [reflexivity|];
          repeat match goal with |- _ ∧ _ => split end; eassumption
        | intros; assumption ]
      | intros ?; cbv beta zeta ]
  end.

Section described.
Context `{rt : Runtime} `{env : Environment}.

Lemma main_obeys_described_guard script args :
  obeys described_guard (λ _, True) (main script args) (λ _ _, True).
Proof. repeat first [ obey_described | obey_call | obey_basic ]. Qed.

(** X21: the pipeline [main] asks for is the one of lines 633-694 for what
    the run itself has gathered: the repository, the branch, the stack name
    and the template path typed at their prompts; the ARN line 515 finds,
    among the connections listed, for the name whose number the user typed
    once the connections were shown; the ARN of the role of the pipeline
    and the name of the bucket created before; and for the execution role
    [None], the ARN typed or that of a role created. *)
Theorem pipeline_as_described script args keys definition :
  Create_pipeline definition ∈ history (main script args (start keys)).1 →
  described definition (main script args (start keys)).1.
Proof.
  intros H.
  exact (permit_from_start described_guard (main script args) keys
           (Create_pipeline definition)
           (main_obeys_described_guard script args) H eq_refl).
Qed.

End described.

(** ** The sample runs of the script *)

Ltac among :=
  apply list_elem_of_In; vm_compute;
  repeat first [ left; reflexivity | right ].

Lemma bucket_name_follows_rules_witness :
  forallb region_char (chars "eu-west-1") = true ∧
  forallb name_char (chars "123456789012") = true ∧
  forallb region_char
    (chars (prefix 8 "1b9d6bcd-bbfd-4b2d-9b5d-ab8dfbbd4bed")) = true ∧
  ∃ name,
    bucket_name "eu-west-1" "123456789012"
      "1b9d6bcd-bbfd-4b2d-9b5d-ab8dfbbd4bed" = Done name ∧
    s3_name name = true.
Proof.
  split; [reflexivity|]. split; [reflexivity|]. split; [reflexivity|].
  apply (bucket_name_follows_rules "eu-west-1" "123456789012"
           "1b9d6bcd-bbfd-4b2d-9b5d-ab8dfbbd4bed"); reflexivity.
Defined.

Lemma bucket_name_format_witness :
  forallb is_ascii (chars "eu-west-1") = true ∧
  forallb is_ascii (chars "123456789012") = true ∧
  (String.length "eu-west-1" ≤ 36)%nat ∧
  "1b9d6bcd-bbfd-4b2d-9b5d-ab8dfbbd4bed" ≠ "" ∧
  forallb is_hex (chars (prefix 8 "1b9d6bcd-bbfd-4b2d-9b5d-ab8dfbbd4bed"))
    = true ∧
  bucket_name "eu-west-1" "123456789012"
    "1b9d6bcd-bbfd-4b2d-9b5d-ab8dfbbd4bed" =
  Done ("pipeline-" +:+ lower "eu-west-1" +:+ "-" +:+
        (if (8 <? String.length "123456789012")%nat
         then suffix 8 "123456789012" else "123456789012") +:+ "-" +:+
        prefix 8 "1b9d6bcd-bbfd-4b2d-9b5d-ab8dfbbd4bed").
Proof.
  split; [reflexivity|]. split; [reflexivity|].
  split; [simpl; lia|]. split; [discriminate|]. split; [reflexivity|].
  apply (bucket_name_format "eu-west-1" "123456789012"
           "1b9d6bcd-bbfd-4b2d-9b5d-ab8dfbbd4bed");
    [reflexivity|reflexivity|simpl; lia|discriminate|reflexivity].
Defined.

Lemma select_option_first_valid_witness :
  keyboard (typing ["x"; "3"; "2"; "later"]) =
    (Some <$> ["x"; "3"]) ++ Some "2" :: [Some "later"] ∧
  Forall (turned_down (env:=sample_environment) ["github"; "gitlab"])
    ["x"; "3"] ∧
  py_int (Environment:=sample_environment) "2" = Some 2%Z ∧
  (1 ≤ 2)%Z ∧
  ["github"; "gitlab"] !! Z.to_nat (2 - 1) = Some "gitlab" ∧
  (select_option (env:=sample_environment) ["github"; "gitlab"]
     (typing ["x"; "3"; "2"; "later"])).2 = Done "gitlab" ∧
  keyboard (select_option (env:=sample_environment) ["github"; "gitlab"]
              (typing ["x"; "3"; "2"; "later"])).1 = [Some "later"] ∧
  history (select_option (env:=sample_environment) ["github"; "gitlab"]
             (typing ["x"; "3"; "2"; "later"])).1 =
    history (typing ["x"; "3"; "2"; "later"]) ∧
  times_asked select_prompt
    (console (select_option (env:=sample_environment) ["github"; "gitlab"]
                (typing ["x"; "3"; "2"; "later"])).1) =
  times_asked select_prompt (console (typing ["x"; "3"; "2"; "later"])) +
  length ["x"; "3"] + 1.
Proof.
  assert (Hbad : Forall (turned_down (env:=sample_environment)
                           ["github"; "gitlab"]) ["x"; "3"]).
  { repeat constructor. vm_compute. intros [_ H]. apply H. reflexivity. }
  split; [reflexivity|]. split; [exact Hbad|]. split; [reflexivity|].
  split; [lia|]. split; [reflexivity|].
  apply (select_option_first_valid (env:=sample_environment)
           ["github"; "gitlab"] ["x"; "3"] "2" 2%Z "gitlab" [Some "later"]
           (typing ["x"; "3"; "2"; "later"]) eq_refl Hbad eq_refl);
    [lia|reflexivity].
Defined.

Lemma connection_arn_of_first_witness :
  "gitlab" ∈ ConnectionName <$> sample_connections ∧
  ∃ before c after,
    sample_connections = before ++ c :: after ∧
    ConnectionName c = "gitlab" ∧
    Forall (λ c', ConnectionName c' ≠ "gitlab") before ∧
    connection_arn_of sample_connections "gitlab" = Done (ConnectionArn c).
Proof.
  assert (H : "gitlab" ∈ ConnectionName <$> sample_connections) by among.
  split; [exact H|].
  apply (connection_arn_of_first sample_connections "gitlab" H).
Defined.

Lemma deployment_needs_consent_witness :
  Start_pipeline_execution "demo-Pipeline-1b9d6bcd" ∈ history sample_run.1 ∧
  deploys (Start_pipeline_execution "demo-Pipeline-1b9d6bcd") = true ∧
  ∃ answer,
    Asked confirm_prompt (Some answer) ∈ console sample_run.1 ∧
    yes answer = true.
Proof.
  unfold sample_run.
  match goal with
  | |- ?a ∈ ?l ∧ _ => assert (H : a ∈ l) by among
  end.
  split; [exact H|]. split; [reflexivity|].
  apply (deployment_needs_consent (rt:=sample_runtime)
           (env:=sample_environment) "pipeline-deploy.py" ["dev"] sample_keys
           (Start_pipeline_execution "demo-Pipeline-1b9d6bcd") H eq_refl).
Defined.

Lemma execution_started_on_request_witness :
  Start_pipeline_execution "demo-Pipeline-1b9d6bcd" ∈ history sample_run.1 ∧
  (∃ definition response before after,
     history sample_run.1 = before ++ Create_pipeline definition :: after ∧
     codepipeline_create_pipeline (Environment:=sample_environment) before
       definition = Normal response) ∧
  ∃ answer,
    Asked start_prompt (Some answer) ∈ console sample_run.1 ∧
    yes answer = true.
Proof.
  unfold sample_run.
  match goal with
  | |- ?a ∈ ?l ∧ _ => assert (H : a ∈ l) by among
  end.
  split; [exact H|].
  apply (execution_started_on_request (rt:=sample_runtime)
           (env:=sample_environment) "pipeline-deploy.py" ["dev"] sample_keys
           "demo-Pipeline-1b9d6bcd" H).
Defined.

Lemma admin_access_on_choice_witness :
  Attach_role_policy "CloudFormation-demo-1b9d6bcd" AdministratorAccess ∈
    history sample_run.1 ∧
  (Asked role_type_prompt (Some "1") ∈ console sample_run.1 ∨
   ∃ answer,
     Asked fallback_prompt (Some answer) ∈ console sample_run.1 ∧
     yes answer = true).
Proof.
  unfold sample_run.
  match goal with
  | |- ?a ∈ ?l ∧ _ => assert (H : a ∈ l) by among
  end.
  split; [exact H|].
  apply (admin_access_on_choice (rt:=sample_runtime)
           (env:=sample_environment) "pipeline-deploy.py" ["dev"] sample_keys
           "CloudFormation-demo-1b9d6bcd" AdministratorAccess H).
Defined.

Lemma nothing_created_without_connection_witness :
  Create_bucket "pipeline-eu-west-1-56789012-1b9d6bcd" (Some "eu-west-1") ∈
    history sample_run.1 ∧
  creates (Create_bucket "pipeline-eu-west-1-56789012-1b9d6bcd"
             (Some "eu-west-1")) = true ∧
  ∃ connections_response before after,
    history sample_run.1 = before ++ List_connections :: after ∧
    list_connections (Environment:=sample_environment) before =
      Normal connections_response ∧
    default [] connections_response ≠ [].
Proof.
  unfold sample_run.
  match goal with
  | |- ?a ∈ ?l ∧ _ => assert (H : a ∈ l) by among
  end.
  split; [exact H|]. split; [reflexivity|].
  apply (nothing_created_without_connection (rt:=sample_runtime)
           (env:=sample_environment) "pipeline-deploy.py" ["dev"] sample_keys
           (Create_bucket "pipeline-eu-west-1-56789012-1b9d6bcd"
              (Some "eu-west-1")) H eq_refl).
Defined.

Lemma provisioned_before_confirmation_witness :
  Asked confirm_prompt (Some "y") ∈ console sample_run.1 ∧
  ∃ role_name account_id arn region bucket,
    pipeline_role_created (env:=sample_environment) role_name account_id arn
      sample_run.1 ∧
    bucket_created (env:=sample_environment) region bucket sample_run.1.
Proof.
  unfold sample_run.
  match goal with
  | |- ?a ∈ ?l ∧ _ => assert (H : a ∈ l) by among
  end.
  split; [exact H|].
  apply (provisioned_before_confirmation (rt:=sample_runtime)
           (env:=sample_environment) "pipeline-deploy.py" ["dev"] sample_keys
           (Some "y") H).
Defined.

Lemma deployment_needs_region_witness :
  Create_bucket "pipeline-eu-west-1-56789012-1b9d6bcd" (Some "eu-west-1") ∈
    history sample_run.1 ∧
  needs_region (Create_bucket "pipeline-eu-west-1-56789012-1b9d6bcd"
                  (Some "eu-west-1")) = true ∧
  ((∃ profile region before after,
      history sample_run.1 = before ++ New_session profile None :: after ∧
      new_session (Environment:=sample_environment) before profile None =
        Normal (Some region)) ∨
   (∃ default_region answer,
      Asked (region_prompt default_region) (Some answer) ∈
        console sample_run.1 ∧
      yes answer = true)).
Proof.
  unfold sample_run.
  match goal with
  | |- ?a ∈ ?l ∧ _ => assert (H : a ∈ l) by among
  end.
  split; [exact H|]. split; [reflexivity|].
  apply (deployment_needs_region (rt:=sample_runtime)
           (env:=sample_environment) "pipeline-deploy.py" ["dev"] sample_keys
           (Create_bucket "pipeline-eu-west-1-56789012-1b9d6bcd"
              (Some "eu-west-1")) H eq_refl).
Defined.

Lemma returned_arn_of_created_role_witness :
  (run (rt:=sample_runtime) bucket_yaml "DeployRole" ok_client
     "123456789012").2 = Normal (PStr "arn:DeployRole") ∧
  PStr "arn:DeployRole" ≠ PNone ∧
  ∃ needed response role ok,
    create_role ok_client "DeployRole" trust_policy role_description =
      Normal response ∧
    put_role_policy ok_client "DeployRole" ("DeployRole" +:+ "Policy")
      (permission_policy (rt:=sample_runtime) needed) = Normal ok ∧
    py_subscript response "Role" = Normal role ∧
    py_subscript role "Arn" = Normal (PStr "arn:DeployRole") ∧
    iam_calls (run (rt:=sample_runtime) bucket_yaml "DeployRole" ok_client
                 "123456789012").1 =
      [Create_role "DeployRole" trust_policy role_description;
       Put_role_policy "DeployRole" ("DeployRole" +:+ "Policy")
         (permission_policy (rt:=sample_runtime) needed)].
Proof.
  assert (H : (run (rt:=sample_runtime) bucket_yaml "DeployRole" ok_client
                 "123456789012").2 = Normal (PStr "arn:DeployRole"))
    by (vm_compute; reflexivity).
  split; [exact H|]. split; [discriminate|].
  apply (returned_arn_of_created_role (rt:=sample_runtime) bucket_yaml
           "DeployRole" ok_client "123456789012" (PStr "arn:DeployRole") H).
  discriminate.
Defined.

Lemma more_declarations_more_permissions_witness :
  template_of (rt:=sample_runtime) function_yaml function_resources ∧
  declared_types function_resources = Some ["AWS::Lambda::Function"] ∧
  template_of (rt:=sample_runtime) mixed_yaml mixed_resources ∧
  declared_types mixed_resources
    = Some ["AWS::Lambda::Function"; "AWS::KMS::Key"] ∧
  ["AWS::Lambda::Function"] ≠ [] ∧
  ["AWS::Lambda::Function"] ⊆ ["AWS::Lambda::Function"; "AWS::KMS::Key"] ∧
  ∃ permissions permissions',
    required_permissions
      (run (rt:=sample_runtime) function_yaml "DeployRole" ok_client
         "123456789012").1 = Some permissions ∧
    required_permissions
      (run (rt:=sample_runtime) mixed_yaml "DeployRole" ok_client
         "123456789012").1 = Some permissions' ∧
    permissions ⊆ permissions'.
Proof.
  assert (Ht : template_of (rt:=sample_runtime) function_yaml
                 function_resources)
    by (apply sample_template_of; reflexivity).
  assert (Ht' : template_of (rt:=sample_runtime) mixed_yaml mixed_resources)
    by (apply sample_template_of; reflexivity).
  assert (Hsub : ["AWS::Lambda::Function"] ⊆
                 ["AWS::Lambda::Function"; "AWS::KMS::Key"]).
  { intros t Hin. apply elem_of_cons. left.
    apply list_elem_of_singleton in Hin. exact Hin. }
  split; [exact Ht|]. split; [reflexivity|]. split; [exact Ht'|].
  split; [reflexivity|]. split; [discriminate|]. split; [exact Hsub|].
  eexists _, _. split; [vm_compute; reflexivity|].
  split; [vm_compute; reflexivity|].
  apply (more_declarations_more_permissions (rt:=sample_runtime)
           function_yaml mixed_yaml function_resources mixed_resources
           ["AWS::Lambda::Function"] ["AWS::Lambda::Function"; "AWS::KMS::Key"]
           "DeployRole" ok_client "123456789012" _ _ Ht eq_refl Ht' eq_refl);
    [discriminate|exact Hsub|vm_compute; reflexivity|vm_compute; reflexivity].
Defined.

Lemma odd_type_is_analysis_error_witness :
  template_of (rt:=numbered_runtime) numbered_yaml numbered_resources ∧
  forallb is_mapping numbered_resources = true ∧
  existsb odd_type numbered_resources = true ∧
  run (rt:=numbered_runtime) numbered_yaml "DeployRole" ok_client
    "123456789012" = analysis_error TypeError.
Proof.
  assert (Ht : template_of (rt:=numbered_runtime) numbered_yaml
                 numbered_resources).
  { exists (resources_template numbered_resources).
    split; [right; split; reflexivity|reflexivity]. }
  split; [exact Ht|]. split; [reflexivity|]. split; [reflexivity|].
  apply (odd_type_is_analysis_error (rt:=numbered_runtime) numbered_yaml
           numbered_resources "DeployRole" ok_client "123456789012" Ht);
    reflexivity.
Defined.

Lemma execution_role_arn_provenance_witness :
  (execution_role (rt:=sample_runtime) (env:=sample_environment) "demo"
     "123456789012" (typing ["y"; "2"; "1"; "template.yaml"])).2 =
    Done (PStr "arn:aws:iam::123456789012:role/CloudFormation-demo-1b9d6bcd") ∧
  (PStr "arn:aws:iam::123456789012:role/CloudFormation-demo-1b9d6bcd" = PNone ∨
   (∃ answer,
      PStr "arn:aws:iam::123456789012:role/CloudFormation-demo-1b9d6bcd" =
        PStr answer ∧
      Asked existing_role_prompt (Some answer) ∈
        console (execution_role (rt:=sample_runtime)
                   (env:=sample_environment) "demo" "123456789012"
                   (typing ["y"; "2"; "1"; "template.yaml"])).1) ∨
   (∃ role_name document description arn before after,
      PStr "arn:aws:iam::123456789012:role/CloudFormation-demo-1b9d6bcd" =
        PStr arn ∧
      history (execution_role (rt:=sample_runtime)
                 (env:=sample_environment) "demo" "123456789012"
                 (typing ["y"; "2"; "1"; "template.yaml"])).1 =
        before ++ Iam (Create_role role_name document description) :: after ∧
      iam_create_role (Environment:=sample_environment) before role_name
        document description = Normal arn)).
Proof.
  assert (H : (execution_role (rt:=sample_runtime) (env:=sample_environment)
                 "demo" "123456789012"
                 (typing ["y"; "2"; "1"; "template.yaml"])).2 =
              Done (PStr "arn:aws:iam::123456789012:role/CloudFormation-demo-1b9d6bcd"))
    by (vm_compute; reflexivity).
  split; [exact H|].
  apply (execution_role_arn_provenance (rt:=sample_runtime)
           (env:=sample_environment) "demo" "123456789012"
           (typing ["y"; "2"; "1"; "template.yaml"]) _ H).
Defined.

Lemma execution_role_invalid_choice_witness :
  keyboard (typing ["y"; "3"; "n"]) = Some "y" :: Some "3" :: [Some "n"] ∧
  yes "y" = true ∧ "3" ≠ "1" ∧ "3" ≠ "2" ∧
  execution_role (rt:=sample_runtime) (env:=sample_environment) "demo"
    "123456789012" (typing ["y"; "3"; "n"]) =
  ({| console :=
        console (typing ["y"; "3"; "n"]) ++
        [Asked "Do you want to create a new CloudFormation execution role? (y/n): "
           (Some "y");
         Asked role_type_prompt (Some "3");
         Printed "Invalid option selected."];
      keyboard := [Some "n"];
      history := history (typing ["y"; "3"; "n"]) ++ [Uuid4] |}, Done PNone).
Proof.
  split; [reflexivity|]. split; [reflexivity|]. split; [discriminate|].
  split; [discriminate|].
  apply (execution_role_invalid_choice (rt:=sample_runtime)
           (env:=sample_environment) "demo" "123456789012"
           (typing ["y"; "3"; "n"]) "y" "3" [Some "n"] eq_refl eq_refl);
    discriminate.
Defined.


Lemma pipeline_as_described_witness :
  Create_pipeline
    (pipeline_definition "demo-Pipeline-1b9d6bcd"
       "arn:aws:iam::123456789012:role/CodePipeline-demo-1b9d6bcd"
       "pipeline-eu-west-1-56789012-1b9d6bcd"
       "arn:aws:codestar-connections:eu-west-1:123456789012:connection/1"
       "octo/app" "main" "demo" "template.yaml"
       (PStr "arn:aws:iam::123456789012:role/CloudFormation-demo-1b9d6bcd")
       ["CAPABILITY_IAM"; "CAPABILITY_NAMED_IAM"] None) ∈
    history sample_run.1 ∧
  described (env:=sample_environment)
    (pipeline_definition "demo-Pipeline-1b9d6bcd"
       "arn:aws:iam::123456789012:role/CodePipeline-demo-1b9d6bcd"
       "pipeline-eu-west-1-56789012-1b9d6bcd"
       "arn:aws:codestar-connections:eu-west-1:123456789012:connection/1"
       "octo/app" "main" "demo" "template.yaml"
       (PStr "arn:aws:iam::123456789012:role/CloudFormation-demo-1b9d6bcd")
       ["CAPABILITY_IAM"; "CAPABILITY_NAMED_IAM"] None)
    sample_run.1.
Proof.
  unfold sample_run.
  match goal with
  | |- ?a ∈ ?l ∧ _ => assert (H : a ∈ l) by among
  end.
  split; [exact H|].
  apply (pipeline_as_described (rt:=sample_runtime)
           (env:=sample_environment) "pipeline-deploy.py" ["dev"] sample_keys
           _ H).
Defined.
